(** * Library Management System (Tkinter + MySQL): a shallow embedding

    The program is one Python file, [librarymangement.py]: four Tkinter
    pages whose button handlers run parameterised SQL statements against
    three InnoDB tables.  The development follows the layers of the code:

    - [Py]:  the Python built-ins the handlers call ([str.strip], [int],
             [str], f-strings, [date.isoformat]);
    - [Sql]: the schema of [init_db] and the SQL statements of the handlers,
             as functions on an explicit database state;
    - [Tk]:  the widgets the handlers read and write (entries, treeviews,
             comboboxes, message boxes);
    - the pages [StudentPage], [BookPage], [IssuePage] and [MainApp], with one
      definition per handler, named as in the source;
    - the user-driven transition system of the whole application.

    Conventions.

    - A [string] is a Python [str] whose code points are below 256; [Z] is a
      Python [int].
    - A handler is a function of the state of its page, the state of the
      store, and what the environment supplies (the answer to a confirmation
      dialog, the value of [date.today()]); it returns the next page, the
      next store and the message boxes it showed.
    - The store is the MySQL server the program connects to, used by this
      program alone, in the server's default configuration: strict SQL mode
      (a value that does not fit its column is an error, not a truncation)
      and a case-insensitive collation.  A statement raises, leaving the
      store in some state, or completes.  Connection failures are not
      modelled.
    - A row of a [ttk.Treeview] is kept with its typed values; Tk hands them
      back as the strings [str(v)], which is how the handlers that look at
      their text ([on_select], the return-date test) see them, and MySQL
      compares an id given as such a string by its number.
    - The user acts on the widgets of the frame that was raised last. *)

From Stdlib Require Import ZArith Lia Ascii String.
From stdpp Require Import base tactics option list numbers strings pretty gmap sorting.



(* ===================================================================== *)
(** * Python built-ins *)
(* ===================================================================== *)

Module Py.

(** [c.isspace()]: the characters [str.strip()] removes.  Below 256 these
    are TAB..CR, FS..US, SPACE, NEL and NBSP. *)
Definition isspace (c : ascii) : bool :=
  let n := N_of_ascii c in
  ((9 <=? n) && (n <=? 13) || (28 <=? n) && (n <=? 32)
   || (n =? 133) || (n =? 160))%N.

Fixpoint lstrip (s : string) : string :=
  match s with
  | "" => ""
  | String c s' => if isspace c then lstrip s' else s
  end.

Fixpoint rstrip (s : string) : string :=
  match s with
  | "" => ""
  | String c s' =>
      match rstrip s' with
      | "" => if isspace c then "" else String c ""
      | r => String c r
      end
  end.

(** [s.strip()] *)
Definition strip (s : string) : string := lstrip (rstrip s).

(** Truthiness of a [str]: [not s] holds for the empty string only. *)
Definition truthy (s : string) : bool :=
  match s with "" => false | _ => true end.

(** The whitespace [int()] skips around a literal: TAB..CR and SPACE, and,
    through the transformation of non-ASCII spaces, NEL and NBSP; unlike
    [strip] it does not skip FS..US. *)
Definition int_isspace (c : ascii) : bool :=
  let n := N_of_ascii c in
  ((9 <=? n) && (n <=? 13) || (n =? 32) || (n =? 133) || (n =? 160))%N.

Fixpoint int_lstrip (s : string) : string :=
  match s with
  | "" => ""
  | String c s' => if int_isspace c then int_lstrip s' else s
  end.

Fixpoint int_rstrip (s : string) : string :=
  match s with
  | "" => ""
  | String c s' =>
      match int_rstrip s' with
      | "" => if int_isspace c then "" else String c ""
      | r => String c r
      end
  end.

Definition digit (c : ascii) : option Z :=
  let n := N_of_ascii c in
  if ((48 <=? n) && (n <=? 57))%N then Some (Z.of_N n - 48)%Z else None.

(** The digit part of a base-10 literal: digits, with single underscores
    allowed between two digits.  [prev] tells whether the previous
    character was a digit; the result is the value and the digit count. *)
Fixpoint int_digits (s : string) (prev : bool) (acc : Z) (count : nat)
  : option (Z * nat) :=
  match s with
  | "" => if prev then Some (acc, count) else None
  | String c s' =>
      match digit c with
      | Some d => int_digits s' true (10 * acc + d)%Z (S count)
      | None =>
          if Ascii.eqb c "_" && prev then int_digits s' false acc count
          else None
      end
  end.

(** [sys.get_int_max_str_digits()], CPython's default. *)
Definition int_max_str_digits : nat := 4300.

(** An optional sign in front of the digits: is it a minus, and the rest. *)
Definition int_sign (body : string) : bool * string :=
  match body with
  | String c r =>
      if Ascii.eqb c "-" then (true, r)
      else if Ascii.eqb c "+" then (false, r)
      else (false, body)
  | "" => (false, body)
  end.

(** [int(s)] for a [str]; [None] stands for [ValueError]. *)
Definition int (s : string) : option Z :=
  let '(neg, ds) := int_sign (int_lstrip (int_rstrip s)) in
  match int_digits ds false 0%Z 0%nat with
  | Some (v, n) =>
      if decide (n ≤ int_max_str_digits)%nat then Some (if neg then (- v)%Z else v)
      else None
  | None => None
  end.

(** [str(n)] for an [int]. *)
Definition str (n : Z) : string := pretty n.

Fixpoint zeros (n : nat) : string :=
  match n with O => "" | S n' => String "0" (zeros n') end.

(** ["%0wd" % n] *)
Definition fmt0 (w : nat) (n : Z) : string :=
  if decide (n < 0)%Z then
    let d := pretty (- n)%Z in
    "-" +:+ zeros (w - 1 - String.length d) +:+ d
  else
    let d := pretty n in
    zeros (w - String.length d) +:+ d.

(** [datetime.date] *)
Record date := mkdate { year : Z; month : Z; day : Z }.

(** [d.isoformat()], that is ["%04d-%02d-%02d" % (year, month, day)]. *)
Definition isoformat (d : date) : string :=
  fmt0 4 (year d) +:+ "-" +:+ fmt0 2 (month d) +:+ "-" +:+ fmt0 2 (day d).

End Py.


(* ===================================================================== *)
(** * The relational store *)
(* ===================================================================== *)

Module Sql.

(** The two literals the program writes to [books.status]
    ([VARCHAR(20) DEFAULT 'Available']). *)
Inductive Status := Available | Issued.

Global Instance Status_eq_dec : EqDecision Status.
Proof. solve_decision. Defined.

(** Rows of the three tables created by [init_db].  A nullable column is
    an [option]; [name] and [title] are [NOT NULL]. *)
Record student := mkstudent {
  student_id : Z;
  name : string;
  age : option Z;
  course : option string;
  year : option Z }.

Record book := mkbook {
  book_id : Z;
  title : string;
  author : option string;
  pub_year : option Z;
  status : Status }.

(** [issued_books]; its [student_id] and [book_id] columns are written
    with the alias of the source's join, [ib]. *)
Record issue := mkissue {
  issue_id : Z;
  ib_student_id : option Z;
  ib_book_id : option Z;
  issue_date : option Py.date;
  return_date : option Py.date }.

(** The database: the rows of each table in primary-key order, and the
    [AUTO_INCREMENT] counter of each table. *)
Record DB := mkDB {
  students : list student;
  books : list book;
  issued_books : list issue;
  students_auto : Z;
  books_auto : Z;
  issued_books_auto : Z }.

Definition empty : DB := mkDB [] [] [] 1 1 1.

(** [init_db()]: three [CREATE TABLE IF NOT EXISTS]; [None] is a server
    without the tables. *)
Definition init_db (existing : option DB) : DB :=
  match existing with
  | Some db => db
  | None => empty
  end.

(** What a statement can raise (MySQL error numbers in comments). *)
Inductive error :=
| DataTooLong (column : string)      (* 1406 *)
| OutOfRange (column : string)       (* 1264 *)
| AutoIncrementFailed                (* 1467 *)
| NoReferencedRow (column : string). (* 1452 *)

(** A statement raises, leaving the store in some state, or completes. *)
Definition result : Type := (error * DB) + DB.

Definition INT_MIN : Z := -2147483648.
Definition INT_MAX : Z := 2147483647.

Definition fits_int (v : option Z) : bool :=
  match v with
  | None => true
  | Some z => ((INT_MIN <=? z) && (z <=? INT_MAX))%Z
  end.

Definition fits_varchar (n : nat) (v : option string) : bool :=
  match v with
  | None => true
  | Some s => (String.length s <=? n)%nat
  end.

(** The first column, in column order, whose value does not fit. *)
Fixpoint check (cols : list (bool * error)) : option error :=
  match cols with
  | [] => None
  | (ok, e) :: cols' => if ok then check cols' else Some e
  end.

Definition check_student (name : string) (age : option Z)
    (course : option string) (year : option Z) : option error :=
  check [ (fits_varchar 100 (Some name), DataTooLong "name");
          (fits_int age, OutOfRange "age");
          (fits_varchar 100 course, DataTooLong "course");
          (fits_int year, OutOfRange "year") ].

Definition check_book (title : string) (author : option string)
    (pub_year : option Z) : option error :=
  check [ (fits_varchar 255 (Some title), DataTooLong "title");
          (fits_varchar 150 author, DataTooLong "author");
          (fits_int pub_year, OutOfRange "pub_year") ].

(** ** students *)

(** [INSERT INTO students (name, age, course, year) VALUES (%s,%s,%s,%s)] *)
Definition insert_student (name : string) (age : option Z)
    (course : option string) (year : option Z) (db : DB) : result :=
  match check_student name age course year with
  | Some e => inl (e, db)
  | None =>
      let id := students_auto db in
      if decide (id ≤ INT_MAX)%Z then
        inr (mkDB (students db ++ [mkstudent id name age course year])
                  (books db) (issued_books db)
                  (id + 1) (books_auto db) (issued_books_auto db))
      else inl (AutoIncrementFailed, db)
  end.

(** [SELECT student_id, name, age, course, year FROM students] *)
Definition select_students (db : DB) : list student := students db.

Definition has_student (sid : Z) (db : DB) : bool :=
  bool_decide (sid ∈ student_id <$> students db).

(** [UPDATE students SET name=%s, age=%s, course=%s, year=%s
     WHERE student_id=%s]: values are stored, and checked, only into the
    rows the condition selects. *)
Definition update_student (name : string) (age : option Z)
    (course : option string) (year : option Z) (sid : Z) (db : DB) : result :=
  let set (s : student) :=
    if decide (student_id s = sid)
    then mkstudent (student_id s) name age course year else s in
  match (if has_student sid db then check_student name age course year
         else None) with
  | Some e => inl (e, db)
  | None =>
      inr (mkDB (set <$> students db) (books db) (issued_books db)
                (students_auto db) (books_auto db) (issued_books_auto db))
  end.

(** [DELETE FROM students WHERE student_id=%s], with
    [FOREIGN KEY (student_id) REFERENCES students ON DELETE CASCADE]. *)
Definition delete_student (sid : Z) (db : DB) : result :=
  inr (mkDB (filter (λ s, student_id s ≠ sid) (students db))
            (books db)
            (filter (λ i, ib_student_id i ≠ Some sid) (issued_books db))
            (students_auto db) (books_auto db) (issued_books_auto db)).

(** ** LIKE *)

(** The default collations are case-insensitive; the model folds the
    ASCII letters. *)
Definition fold_case (c : ascii) : ascii :=
  let n := N_of_ascii c in
  if ((65 <=? n) && (n <=? 90))%N then ascii_of_N (n + 32) else c.

Definition ci_eqb (a b : ascii) : bool :=
  Ascii.eqb (fold_case a) (fold_case b).

(** [s LIKE pat]: [%] matches any run of characters, [_] any one
    character, and the escape character [\] makes the next pattern
    character literal (a final [\] stands for itself). *)
Fixpoint like (pat : string) (s : string) : bool :=
  match pat with
  | "" => match s with "" => true | _ => false end
  | String p pat' =>
      if Ascii.eqb p "%" then
        (fix any (s : string) : bool :=
           like pat' s
           || match s with "" => false | String _ s' => any s' end) s
      else if Ascii.eqb p "_" then
        match s with "" => false | String _ s' => like pat' s' end
      else if Ascii.eqb p "\" then
        match pat' with
        | "" =>
            match s with
            | String c "" => ci_eqb p c
            | _ => false
            end
        | String q pat'' =>
            match s with
            | "" => false
            | String c s' => ci_eqb q c && like pat'' s'
            end
        end
      else
        match s with
        | "" => false
        | String c s' => ci_eqb p c && like pat' s'
        end
  end.

(** [col LIKE pat] on a nullable column: NULL is not selected. *)
Definition like_null (pat : string) (v : option string) : bool :=
  match v with
  | Some s => like pat s
  | None => false
  end.

(** [SELECT student_id, name, age, course, year FROM students
     WHERE name LIKE %s OR course LIKE %s] *)
Definition search_students (pat1 pat2 : string) (db : DB) : list student :=
  filter (λ s, like pat1 (name s) || like_null pat2 (course s)) (students db).

(** ** books *)

(** [INSERT INTO books (title, author, pub_year) VALUES (%s,%s,%s)];
    [status] takes its default. *)
Definition insert_book (title : string) (author : option string)
    (pub_year : option Z) (db : DB) : result :=
  match check_book title author pub_year with
  | Some e => inl (e, db)
  | None =>
      let id := books_auto db in
      if decide (id ≤ INT_MAX)%Z then
        inr (mkDB (students db)
                  (books db ++ [mkbook id title author pub_year Available])
                  (issued_books db)
                  (students_auto db) (id + 1) (issued_books_auto db))
      else inl (AutoIncrementFailed, db)
  end.

(** [SELECT book_id, title, author, pub_year, status FROM books] *)
Definition select_books (db : DB) : list book := books db.

Definition has_book (bid : Z) (db : DB) : bool :=
  bool_decide (bid ∈ book_id <$> books db).

(** [UPDATE books SET title=%s, author=%s, pub_year=%s WHERE book_id=%s] *)
Definition update_book (title : string) (author : option string)
    (pub_year : option Z) (bid : Z) (db : DB) : result :=
  let set (b : book) :=
    if decide (book_id b = bid)
    then mkbook (book_id b) title author pub_year (status b) else b in
  match (if has_book bid db then check_book title author pub_year
         else None) with
  | Some e => inl (e, db)
  | None =>
      inr (mkDB (students db) (set <$> books db) (issued_books db)
                (students_auto db) (books_auto db) (issued_books_auto db))
  end.

(** [DELETE FROM books WHERE book_id=%s], with
    [FOREIGN KEY (book_id) REFERENCES books ON DELETE CASCADE]. *)
Definition delete_book (bid : Z) (db : DB) : result :=
  inr (mkDB (students db)
            (filter (λ b, book_id b ≠ bid) (books db))
            (filter (λ i, ib_book_id i ≠ Some bid) (issued_books db))
            (students_auto db) (books_auto db) (issued_books_auto db)).

(** [SELECT book_id, title, author, pub_year, status FROM books
     WHERE title LIKE %s OR author LIKE %s] *)
Definition search_books (pat1 pat2 : string) (db : DB) : list book :=
  filter (λ b, like pat1 (title b) || like_null pat2 (author b)) (books db).

(** [UPDATE books SET status=... WHERE book_id=%s]; the parameter is
    [None] when Python passes [None]: [book_id = NULL] selects no row. *)
Definition update_book_status (st : Status) (bid : option Z) (db : DB)
  : result :=
  let set (b : book) :=
    if decide (Some (book_id b) = bid)
    then mkbook (book_id b) (title b) (author b) (pub_year b) st else b in
  inr (mkDB (students db) (set <$> books db) (issued_books db)
            (students_auto db) (books_auto db) (issued_books_auto db)).

(** ** issued_books *)

(** A foreign key is NULL or the key of a row of the parent table. *)
Definition references (v : option Z) (keys : list Z) : bool :=
  match v with
  | None => true
  | Some k => bool_decide (k ∈ keys)
  end.

(** [INSERT INTO issued_books (student_id, book_id, issue_date)
     VALUES (%s,%s,%s)]; [return_date] is NULL.  A foreign-key failure
    rolls the row back but not the counter. *)
Definition insert_issue (sid bid : option Z) (today : Py.date) (db : DB)
  : result :=
  let id := issued_books_auto db in
  if decide (id ≤ INT_MAX)%Z then
    let used :=
      mkDB (students db) (books db) (issued_books db)
           (students_auto db) (books_auto db) (id + 1) in
    if negb (references sid (student_id <$> students db)) then
      inl (NoReferencedRow "student_id", used)
    else if negb (references bid (book_id <$> books db)) then
      inl (NoReferencedRow "book_id", used)
    else
      inr (mkDB (students db) (books db)
                (issued_books db ++ [mkissue id sid bid (Some today) None])
                (students_auto db) (books_auto db) (id + 1))
  else inl (AutoIncrementFailed, db).

(** [UPDATE issued_books SET return_date=%s WHERE issue_id=%s] *)
Definition update_return_date (today : Py.date) (iid : Z) (db : DB)
  : result :=
  let set (i : issue) :=
    if decide (issue_id i = iid)
    then mkissue (issue_id i) (ib_student_id i) (ib_book_id i)
                 (issue_date i) (Some today)
    else i in
  inr (mkDB (students db) (books db) (set <$> issued_books db)
            (students_auto db) (books_auto db) (issued_books_auto db)).

(** [SELECT student_id, name FROM students] *)
Definition select_student_names (db : DB) : list (Z * string) :=
  (λ s, (student_id s, name s)) <$> students db.

(** [SELECT book_id, title FROM books WHERE status='Available'] *)
Definition select_available_books (db : DB) : list (Z * string) :=
  (λ b, (book_id b, title b)) <$> filter (λ b, status b = Available) (books db).

(** A row of the join of [fetch_issued]. *)
Record issued_row := mkissued_row {
  r_issue_id : Z;
  r_student_id : Z;
  r_name : string;
  r_book_id : Z;
  r_title : string;
  r_issue_date : option Py.date;
  r_return_date : option Py.date }.

(** [ORDER BY ib.issue_id DESC] *)
Definition newest_first (r1 r2 : issued_row) : Prop :=
  (r_issue_id r2 ≤ r_issue_id r1)%Z.

Global Instance newest_first_dec : RelDecision newest_first.
Proof. intros r1 r2. unfold newest_first. apply _. Defined.

(** [FROM issued_books ib JOIN students s ON ib.student_id = s.student_id
     JOIN books b ON ib.book_id = b.book_id] *)
Definition join_issued (db : DB) : list issued_row :=
  ib ← issued_books db;
  s ← filter (λ s, ib_student_id ib = Some (student_id s)) (students db);
  b ← filter (λ b, ib_book_id ib = Some (book_id b)) (books db);
  [mkissued_row (issue_id ib) (student_id s) (name s) (book_id b) (title b)
                (issue_date ib) (return_date ib)].

(** The [SELECT] of [fetch_issued]. *)
Definition select_issued (db : DB) : list issued_row :=
  merge_sort newest_first (join_issued db).

(** [SELECT COUNT( * ) FROM students], [... FROM books],
    [... FROM issued_books WHERE return_date IS NULL] *)
Definition count_students (db : DB) : Z := Z.of_nat (length (students db)).
Definition count_books (db : DB) : Z := Z.of_nat (length (books db)).
Definition count_open_issues (db : DB) : Z :=
  Z.of_nat (length (filter (λ i, return_date i = None) (issued_books db))).

End Sql.


(* ===================================================================== *)
(** * Widgets *)
(* ===================================================================== *)

Module Tk.

(** What [tkinter.messagebox] shows.  [showerror_exc title e] is
    [messagebox.showerror(title, str(e))] for a raised [e]. *)
Inductive dialog :=
| showerror (title message : string)
| showinfo (title message : string)
| showerror_exc (title : string) (e : Sql.error).

(** A [ttk.Treeview]: the [values] of its rows, top to bottom, and the
    focus item.  No handler reads the selection, so it is not kept. *)
Record Treeview (R : Type) := mkTreeview {
  rows : list R;
  focus : option nat }.
Arguments mkTreeview {R} _ _.
Arguments rows {R} _.
Arguments focus {R} _.

(** [for row in tree.get_children(): tree.delete(row)] followed by one
    [tree.insert("", "end", values=r)] per [r]: deleting the focus item
    clears the focus. *)
Definition refill {R} (rs : list R) : Treeview R := mkTreeview rs None.

(** The user moves the focus to the [i]-th row (a click or the arrow keys). *)
Definition set_focus {R} (i : nat) (t : Treeview R) : Treeview R :=
  if decide (i < length (rows t))%nat then mkTreeview (rows t) (Some i) else t.

(** A [ttk.Combobox] in [state="readonly"]: [get()] returns [text]. *)
Record Combobox := mkCombobox {
  text : string;
  values : list string }.

(** [cb['values'] = vs]: the text shown is kept. *)
Definition configure_values (vs : list string) (cb : Combobox) : Combobox :=
  mkCombobox (text cb) vs.

(** The user picks the [i]-th entry of the drop-down list. *)
Definition choose (i : nat) (cb : Combobox) : Combobox :=
  match values cb !! i with
  | Some v => mkCombobox v (values cb)
  | None => cb
  end.

(** How a cell of [values] reads back from [tree.item(sel, "values")]:
    Tcl holds [str(v)], so a NULL reads ["None"]. *)
Definition cell_int (v : option Z) : string :=
  match v with Some z => Py.str z | None => "None" end.

Definition cell_text (v : option string) : string :=
  match v with Some s => s | None => "None" end.

End Tk.

(* ===================================================================== *)
(** * The pages *)
(* ===================================================================== *)

Module HomePage.

Record page := mkpage {
  total_students_label : string;
  total_books_label : string;
  issued_books_label : string }.

Definition init : page :=
  mkpage "Total Students: -" "Total Books: -" "Currently Issued: -".

Definition on_show (p : page) (db : Sql.DB) : page :=
  let tot_students := Sql.count_students db in
  let tot_books := Sql.count_books db in
  let tot_issued := Sql.count_open_issues db in
  mkpage ("Total Students: " +:+ Py.str tot_students)
         ("Total Books: " +:+ Py.str tot_books)
         ("Currently Issued: " +:+ Py.str tot_issued).

End HomePage.

Module StudentPage.

Record page := mkpage {
  name_var : string;
  age_var : string;
  course_var : string;
  year_var : string;
  search_var : string;
  tree : Tk.Treeview Sql.student }.

Definition init : page := mkpage "" "" "" "" "" (Tk.mkTreeview [] None).

Definition with_tree (t : Tk.Treeview Sql.student) (p : page) : page :=
  mkpage (name_var p) (age_var p) (course_var p) (year_var p) (search_var p) t.

(** [try: return int(s)] / [except: return None] *)
Definition _int_or_none (s : string) : option Z := Py.int s.

Definition fetch_students (p : page) (db : Sql.DB) : page :=
  with_tree (Tk.refill (Sql.select_students db)) p.

Definition clear_fields (p : page) : page :=
  mkpage "" "" "" "" "" (tree p).

Definition add_student (p : page) (db : Sql.DB)
  : page * Sql.DB * list Tk.dialog :=
  let name := Py.strip (name_var p) in
  if negb (Py.truthy name) then
    (p, db, [Tk.showerror "Input error" "Name is required"])
  else
    match Sql.insert_student name (_int_or_none (age_var p))
            (Some (Py.strip (course_var p))) (_int_or_none (year_var p)) db with
    | inr db' =>
        (fetch_students (clear_fields p) db', db',
         [Tk.showinfo "Success" "Student added."])
    | inl (e, db') => (p, db', [Tk.showerror_exc "DB Error" e])
    end.

Definition update_student (p : page) (db : Sql.DB)
  : page * Sql.DB * list Tk.dialog :=
  match Tk.focus (tree p) with
  | None => (p, db, [Tk.showerror "Selection" "Select a student first"])
  | Some sel =>
      match Tk.rows (tree p) !! sel with
      | None => (p, db, [])
      | Some vals =>
          let sid := Sql.student_id vals in
          let name := Py.strip (name_var p) in
          if negb (Py.truthy name) then
            (p, db, [Tk.showerror "Input error" "Name is required"])
          else
            match Sql.update_student name (_int_or_none (age_var p))
                    (Some (Py.strip (course_var p)))
                    (_int_or_none (year_var p)) sid db with
            | inr db' =>
                (fetch_students p db', db',
                 [Tk.showinfo "Success" "Student updated."])
            | inl (e, db') => (p, db', [Tk.showerror_exc "DB Error" e])
            end
      end
  end.

(** [yes] is the answer to [askyesno("Confirm", "Delete selected student?")]. *)
Definition delete_student (yes : bool) (p : page) (db : Sql.DB)
  : page * Sql.DB * list Tk.dialog :=
  match Tk.focus (tree p) with
  | None => (p, db, [Tk.showerror "Selection" "Select a student first"])
  | Some sel =>
      match Tk.rows (tree p) !! sel with
      | None => (p, db, [])
      | Some vals =>
          let sid := Sql.student_id vals in
          if negb yes then (p, db, [])
          else
            match Sql.delete_student sid db with
            | inr db' =>
                (fetch_students p db', db',
                 [Tk.showinfo "Success" "Student deleted."])
            | inl (e, db') => (p, db', [Tk.showerror_exc "DB Error" e])
            end
      end
  end.

Definition on_select (p : page) : page :=
  match Tk.focus (tree p) with
  | None => p
  | Some sel =>
      match Tk.rows (tree p) !! sel with
      | None => p
      | Some vals =>
          mkpage (Sql.name vals)
                 (Tk.cell_int (Sql.age vals))
                 (Tk.cell_text (Sql.course vals))
                 (Tk.cell_int (Sql.year vals))
                 (search_var p) (tree p)
      end
  end.

Definition search_students (p : page) (db : Sql.DB) : page :=
  let q := Py.strip (search_var p) in
  if negb (Py.truthy q) then fetch_students p db
  else
    with_tree
      (Tk.refill (Sql.search_students ("%" +:+ q +:+ "%") ("%" +:+ q +:+ "%") db))
      p.

Definition on_show (p : page) (db : Sql.DB) : page := fetch_students p db.

End StudentPage.

Module BookPage.

Record page := mkpage {
  title_var : string;
  author_var : string;
  pubyear_var : string;
  search_var : string;
  tree : Tk.Treeview Sql.book }.

Definition init : page := mkpage "" "" "" "" (Tk.mkTreeview [] None).

Definition with_tree (t : Tk.Treeview Sql.book) (p : page) : page :=
  mkpage (title_var p) (author_var p) (pubyear_var p) (search_var p) t.

(** [try: return int(s)] / [except: return None] *)
Definition _int_or_none (s : string) : option Z := Py.int s.

Definition fetch_books (p : page) (db : Sql.DB) : page :=
  with_tree (Tk.refill (Sql.select_books db)) p.

Definition clear_fields (p : page) : page :=
  mkpage "" "" "" "" (tree p).

Definition add_book (p : page) (db : Sql.DB)
  : page * Sql.DB * list Tk.dialog :=
  let title := Py.strip (title_var p) in
  if negb (Py.truthy title) then
    (p, db, [Tk.showerror "Input error" "Title required"])
  else
    match Sql.insert_book title (Some (Py.strip (author_var p)))
            (_int_or_none (pubyear_var p)) db with
    | inr db' =>
        (fetch_books (clear_fields p) db', db',
         [Tk.showinfo "Success" "Book added."])
    | inl (e, db') => (p, db', [Tk.showerror_exc "DB Error" e])
    end.

Definition update_book (p : page) (db : Sql.DB)
  : page * Sql.DB * list Tk.dialog :=
  match Tk.focus (tree p) with
  | None => (p, db, [Tk.showerror "Selection" "Select a book first"])
  | Some sel =>
      match Tk.rows (tree p) !! sel with
      | None => (p, db, [])
      | Some vals =>
          let bid := Sql.book_id vals in
          let title := Py.strip (title_var p) in
          if negb (Py.truthy title) then
            (p, db, [Tk.showerror "Input error" "Title required"])
          else
            match Sql.update_book title (Some (Py.strip (author_var p)))
                    (_int_or_none (pubyear_var p)) bid db with
            | inr db' =>
                (fetch_books p db', db',
                 [Tk.showinfo "Success" "Book updated."])
            | inl (e, db') => (p, db', [Tk.showerror_exc "DB Error" e])
            end
      end
  end.

(** [yes] is the answer to [askyesno("Confirm", "Delete selected book?")]. *)
Definition delete_book (yes : bool) (p : page) (db : Sql.DB)
  : page * Sql.DB * list Tk.dialog :=
  match Tk.focus (tree p) with
  | None => (p, db, [Tk.showerror "Selection" "Select a book first"])
  | Some sel =>
      match Tk.rows (tree p) !! sel with
      | None => (p, db, [])
      | Some vals =>
          let bid := Sql.book_id vals in
          if negb yes then (p, db, [])
          else
            match Sql.delete_book bid db with
            | inr db' =>
                (fetch_books p db', db',
                 [Tk.showinfo "Success" "Book deleted."])
            | inl (e, db') => (p, db', [Tk.showerror_exc "DB Error" e])
            end
      end
  end.

Definition on_select (p : page) : page :=
  match Tk.focus (tree p) with
  | None => p
  | Some sel =>
      match Tk.rows (tree p) !! sel with
      | None => p
      | Some vals =>
          mkpage (Sql.title vals)
                 (Tk.cell_text (Sql.author vals))
                 (Tk.cell_int (Sql.pub_year vals))
                 (search_var p) (tree p)
      end
  end.

Definition search_books (p : page) (db : Sql.DB) : page :=
  let q := Py.strip (search_var p) in
  if negb (Py.truthy q) then fetch_books p db
  else
    with_tree
      (Tk.refill (Sql.search_books ("%" +:+ q +:+ "%") ("%" +:+ q +:+ "%") db))
      p.

Definition on_show (p : page) (db : Sql.DB) : page := fetch_books p db.

End BookPage.

Module IssuePage.

(** The [values] of a row of the "Issued Books" table: the dates are the
    strings [fetch_issued] made of them. *)
Record row := mkrow {
  IssueID : Z;
  StudentID : Z;
  StudentName : string;
  BookID : Z;
  Title : string;
  IssueDate : string;
  ReturnDate : string }.

Record page := mkpage {
  student_cb : Tk.Combobox;
  book_cb : Tk.Combobox;
  _student_map : gmap string Z;
  _book_map : gmap string Z;
  tree : Tk.Treeview row }.

Definition init : page :=
  mkpage (Tk.mkCombobox "" []) (Tk.mkCombobox "" []) ∅ ∅ (Tk.mkTreeview [] None).

(** [f"{r[0]} - {r[1]}"] *)
Definition label (r : Z * string) : string :=
  Py.str r.1 +:+ " - " +:+ r.2.

(** [{f"{r[0]} - {r[1]}": r[0] for r in rows}] *)
Definition label_map (rs : list (Z * string)) : gmap string Z :=
  foldl (λ m r, <[label r := r.1]> m) ∅ rs.

(** [list(m.keys())], in the order the map enumerates its keys. *)
Definition keys (m : gmap string Z) : list string := (map_to_list m).*1.

Definition refresh_comboboxes (p : page) (db : Sql.DB) : page :=
  let students := Sql.select_student_names db in
  let student_map := label_map students in
  let books := Sql.select_available_books db in
  let book_map := label_map books in
  mkpage (Tk.configure_values (keys student_map) (student_cb p))
         (Tk.configure_values (keys book_map) (book_cb p))
         student_map book_map (tree p).

(** The loop body of [fetch_issued]. *)
Definition format (r : Sql.issued_row) : row :=
  let issue_date :=
    match Sql.r_issue_date r with Some d => Py.isoformat d | None => "" end in
  let return_date :=
    match Sql.r_return_date r with Some d => Py.isoformat d | None => "" end in
  mkrow (Sql.r_issue_id r) (Sql.r_student_id r) (Sql.r_name r)
        (Sql.r_book_id r) (Sql.r_title r) issue_date return_date.

Definition fetch_issued (p : page) (db : Sql.DB) : page :=
  mkpage (student_cb p) (book_cb p) (_student_map p) (_book_map p)
         (Tk.refill (format <$> Sql.select_issued db)).

Definition refresh_all (p : page) (db : Sql.DB) : page :=
  fetch_issued (refresh_comboboxes p db) db.

(** [today] is the value of [date.today()]. *)
Definition issue_book (today : Py.date) (p : page) (db : Sql.DB)
  : page * Sql.DB * list Tk.dialog :=
  let ssel := Tk.text (student_cb p) in
  let bsel := Tk.text (book_cb p) in
  if negb (Py.truthy ssel) || negb (Py.truthy bsel) then
    (p, db, [Tk.showerror "Input" "Select student and book to issue"])
  else
    let sid := _student_map p !! ssel in
    let bid := _book_map p !! bsel in
    match Sql.insert_issue sid bid today db with
    | inl (e, db1) => (p, db1, [Tk.showerror_exc "DB Error" e])
    | inr db1 =>
        match Sql.update_book_status Sql.Issued bid db1 with
        | inl (e, db2) => (p, db2, [Tk.showerror_exc "DB Error" e])
        | inr db2 =>
            (refresh_all p db2, db2, [Tk.showinfo "Success" "Book issued."])
        end
    end.

(** [vals[6] not in (None, "", "None")] *)
Definition already_returned (vals : row) : bool :=
  negb (bool_decide (ReturnDate vals = "")
        || bool_decide (ReturnDate vals = "None")).

(** [yes] is the answer to [askyesno("Confirm", "Mark this book as
    returned?")], [today] the value of [date.today()]. *)
Definition return_book (yes : bool) (today : Py.date) (p : page) (db : Sql.DB)
  : page * Sql.DB * list Tk.dialog :=
  match Tk.focus (tree p) with
  | None => (p, db, [Tk.showerror "Selection" "Select an issued record to return"])
  | Some sel =>
      match Tk.rows (tree p) !! sel with
      | None => (p, db, [])
      | Some vals =>
          let issue_id := IssueID vals in
          let book_id := BookID vals in
          if already_returned vals then
            (p, db, [Tk.showinfo "Info" "This book is already returned."])
          else if negb yes then (p, db, [])
          else
            match Sql.update_return_date today issue_id db with
            | inl (e, db1) => (p, db1, [Tk.showerror_exc "DB Error" e])
            | inr db1 =>
                match Sql.update_book_status Sql.Available (Some book_id) db1 with
                | inl (e, db2) => (p, db2, [Tk.showerror_exc "DB Error" e])
                | inr db2 =>
                    (refresh_all p db2, db2,
                     [Tk.showinfo "Success" "Book returned."])
                end
            end
      end
  end.

Definition on_select (p : page) : page := p.

Definition on_show (p : page) (db : Sql.DB) : page := refresh_all p db.

End IssuePage.

Module MainApp.

(** The keys of [self.frames]. *)
Inductive page_name := Home | Students | Books | Issues.

Global Instance page_name_eq_dec : EqDecision page_name.
Proof. solve_decision. Defined.

(** The running program: the store, the four frames, and the frame that
    was raised last. *)
Record app := mkapp {
  db : Sql.DB;
  home : HomePage.page;
  students : StudentPage.page;
  books : BookPage.page;
  issues : IssuePage.page;
  visible : page_name }.

(** [show_frame(page_name)]: [on_show()], then [tkraise()]. *)
Definition show_frame (n : page_name) (a : app) : app :=
  match n with
  | Home =>
      mkapp (db a) (HomePage.on_show (home a) (db a))
            (students a) (books a) (issues a) Home
  | Students =>
      mkapp (db a) (home a) (StudentPage.on_show (students a) (db a))
            (books a) (issues a) Students
  | Books =>
      mkapp (db a) (home a) (students a)
            (BookPage.on_show (books a) (db a)) (issues a) Books
  | Issues =>
      mkapp (db a) (home a) (students a) (books a)
            (IssuePage.on_show (issues a) (db a)) Issues
  end.

(** [MainApp.__init__]: [init_db()], one frame per page,
    [show_frame("HomePage")]. *)
Definition init (existing : option Sql.DB) : app :=
  show_frame Home
    (mkapp (Sql.init_db existing) HomePage.init StudentPage.init
           BookPage.init IssuePage.init Home).

(** The entries of the two forms. *)
Inductive student_entry := Name | Age | Course | Year | StudentSearch.
Inductive book_entry := BookTitle | Author | PubYear | BookSearch.

(** What the user can do. *)
Inductive event :=
| Relaunch                      (* close the window, run the program again *)
| Back                          (* "Back", on the three inner pages *)
| ManageStudents                (* the three buttons of the home page *)
| ManageBooks
| IssueReturn
| StudentEntry (e : student_entry) (s : string)
| AddStudent
| UpdateStudent
| DeleteStudent (yes : bool)
| ClearStudent
| SearchStudent
| ShowAllStudents
| FocusStudent (i : nat)
| ReleaseStudent                (* <ButtonRelease-1> on the table *)
| BookEntry (e : book_entry) (s : string)
| AddBook
| UpdateBook
| DeleteBook (yes : bool)
| ClearBook
| SearchBook
| ShowAllBooks
| FocusBook (i : nat)
| ReleaseBook
| PickStudent (i : nat)
| PickBook (i : nat)
| IssueBook (today : Py.date)
| ReturnBook (yes : bool) (today : Py.date)
| FocusIssued (i : nat)
| ReleaseIssued.

(** The page a widget is on; [None] for what needs no widget. *)
Definition widget_page (ev : event) : option page_name :=
  match ev with
  | Relaunch => None
  | ManageStudents | ManageBooks | IssueReturn => Some Home
  | Back => None
  | StudentEntry _ _ | AddStudent | UpdateStudent | DeleteStudent _
  | ClearStudent | SearchStudent | ShowAllStudents | FocusStudent _
  | ReleaseStudent => Some Students
  | BookEntry _ _ | AddBook | UpdateBook | DeleteBook _ | ClearBook
  | SearchBook | ShowAllBooks | FocusBook _ | ReleaseBook => Some Books
  | PickStudent _ | PickBook _ | IssueBook _ | ReturnBook _ _
  | FocusIssued _ | ReleaseIssued => Some Issues
  end.

(** Only the raised frame takes input; "Back" is on every page but home. *)
Definition enabled (ev : event) (a : app) : bool :=
  match ev with
  | Back => negb (bool_decide (visible a = Home))
  | _ =>
      match widget_page ev with
      | None => true
      | Some n => bool_decide (visible a = n)
      end
  end.

Definition set_student_entry (e : student_entry) (s : string)
  (p : StudentPage.page) : StudentPage.page :=
  let '(StudentPage.mkpage n a c y q t) := p in
  match e with
  | Name => StudentPage.mkpage s a c y q t
  | Age => StudentPage.mkpage n s c y q t
  | Course => StudentPage.mkpage n a s y q t
  | Year => StudentPage.mkpage n a c s q t
  | StudentSearch => StudentPage.mkpage n a c y s t
  end.

Definition set_book_entry (e : book_entry) (s : string)
  (p : BookPage.page) : BookPage.page :=
  let '(BookPage.mkpage n a y q t) := p in
  match e with
  | BookTitle => BookPage.mkpage s a y q t
  | Author => BookPage.mkpage n s y q t
  | PubYear => BookPage.mkpage n a s q t
  | BookSearch => BookPage.mkpage n a y s t
  end.

Definition on_students (a : app)
  (r : StudentPage.page * Sql.DB * list Tk.dialog) : app * list Tk.dialog :=
  (mkapp r.1.2 (home a) r.1.1 (books a) (issues a) (visible a), r.2).

Definition on_books (a : app)
  (r : BookPage.page * Sql.DB * list Tk.dialog) : app * list Tk.dialog :=
  (mkapp r.1.2 (home a) (students a) r.1.1 (issues a) (visible a), r.2).

Definition on_issues (a : app)
  (r : IssuePage.page * Sql.DB * list Tk.dialog) : app * list Tk.dialog :=
  (mkapp r.1.2 (home a) (students a) (books a) r.1.1 (visible a), r.2).

(** The callback bound to each event. *)
Definition handle (ev : event) (a : app) : app * list Tk.dialog :=
  let sp := students a in
  let bp := books a in
  let ip := issues a in
  match ev with
  | Relaunch => (init (Some (db a)), [])
  | Back => (show_frame Home a, [])
  | ManageStudents => (show_frame Students a, [])
  | ManageBooks => (show_frame Books a, [])
  | IssueReturn => (show_frame Issues a, [])
  | StudentEntry e s => on_students a (set_student_entry e s sp, db a, [])
  | AddStudent => on_students a (StudentPage.add_student sp (db a))
  | UpdateStudent => on_students a (StudentPage.update_student sp (db a))
  | DeleteStudent yes => on_students a (StudentPage.delete_student yes sp (db a))
  | ClearStudent => on_students a (StudentPage.clear_fields sp, db a, [])
  | SearchStudent => on_students a (StudentPage.search_students sp (db a), db a, [])
  | ShowAllStudents => on_students a (StudentPage.fetch_students sp (db a), db a, [])
  | FocusStudent i =>
      on_students a
        (StudentPage.with_tree (Tk.set_focus i (StudentPage.tree sp)) sp, db a, [])
  | ReleaseStudent => on_students a (StudentPage.on_select sp, db a, [])
  | BookEntry e s => on_books a (set_book_entry e s bp, db a, [])
  | AddBook => on_books a (BookPage.add_book bp (db a))
  | UpdateBook => on_books a (BookPage.update_book bp (db a))
  | DeleteBook yes => on_books a (BookPage.delete_book yes bp (db a))
  | ClearBook => on_books a (BookPage.clear_fields bp, db a, [])
  | SearchBook => on_books a (BookPage.search_books bp (db a), db a, [])
  | ShowAllBooks => on_books a (BookPage.fetch_books bp (db a), db a, [])
  | FocusBook i =>
      on_books a (BookPage.with_tree (Tk.set_focus i (BookPage.tree bp)) bp, db a, [])
  | ReleaseBook => on_books a (BookPage.on_select bp, db a, [])
  | PickStudent i =>
      on_issues a
        (IssuePage.mkpage (Tk.choose i (IssuePage.student_cb ip))
           (IssuePage.book_cb ip) (IssuePage._student_map ip)
           (IssuePage._book_map ip) (IssuePage.tree ip), db a, [])
  | PickBook i =>
      on_issues a
        (IssuePage.mkpage (IssuePage.student_cb ip)
           (Tk.choose i (IssuePage.book_cb ip)) (IssuePage._student_map ip)
           (IssuePage._book_map ip) (IssuePage.tree ip), db a, [])
  | IssueBook today => on_issues a (IssuePage.issue_book today ip (db a))
  | ReturnBook yes today => on_issues a (IssuePage.return_book yes today ip (db a))
  | FocusIssued i =>
      on_issues a
        (IssuePage.mkpage (IssuePage.student_cb ip) (IssuePage.book_cb ip)
           (IssuePage._student_map ip) (IssuePage._book_map ip)
           (Tk.set_focus i (IssuePage.tree ip)), db a, [])
  | ReleaseIssued => on_issues a (IssuePage.on_select ip, db a, [])
  end.

(** One user action on the running program. *)
Definition step (a a' : app) : Prop :=
  ∃ ev, enabled ev a = true ∧ (handle ev a).1 = a'.

(** The states the program reaches from its first launch on a server
    without the tables. *)
Definition reachable (a : app) : Prop := rtc step (init None) a.

(** Running a list of events, skipping those that are not enabled. *)
Definition run (evs : list event) (a : app) : app :=
  foldl (λ a ev, if enabled ev a then (handle ev a).1 else a) a evs.

End MainApp.


(* ===================================================================== *)
(** * Vocabulary of the properties *)
(* ===================================================================== *)

(** ** Input texts *)

(** A text made of whitespace only (the empty text included). *)
Definition blank (s : string) : Prop :=
  Forall (λ c, Py.isspace c = true) (list_ascii_of_string s).


(** The characters an integer literal is made of: digits, a sign, the
    underscore, and the whitespace [int()] skips. *)
Definition literal_char (c : ascii) : bool :=
  match Py.digit c with
  | Some _ => true
  | None =>
      Ascii.eqb c "+" || Ascii.eqb c "-" || Ascii.eqb c "_" || Py.int_isspace c
  end.

(** A text with a character that no integer literal contains. *)
Definition has_foreign_char (s : string) : Prop :=
  Exists (λ c, literal_char c = false) (list_ascii_of_string s).


(** ** Example states *)

Definition today0 : Py.date := Py.mkdate 2024 3 5.

(** The home page after a first launch. *)
Definition app0 : MainApp.app := MainApp.init None.

(** "Asha Rao", 20, "CS", 2 and "Compilers", "Aho", 2006 are added. *)
Definition app1 : MainApp.app :=
  MainApp.run
    [ MainApp.ManageStudents;
      MainApp.StudentEntry MainApp.Name "Asha Rao";
      MainApp.StudentEntry MainApp.Age "20";
      MainApp.StudentEntry MainApp.Course "CS";
      MainApp.StudentEntry MainApp.Year "2";
      MainApp.AddStudent; MainApp.Back;
      MainApp.ManageBooks;
      MainApp.BookEntry MainApp.BookTitle "Compilers";
      MainApp.BookEntry MainApp.Author "Aho";
      MainApp.BookEntry MainApp.PubYear "2006";
      MainApp.AddBook; MainApp.Back ]
    app0.

(** The issue page, with the student and the book picked. *)
Definition app2 : MainApp.app :=
  MainApp.run [MainApp.IssueReturn; MainApp.PickStudent 0; MainApp.PickBook 0] app1.

(** The book is issued. *)
Definition app3 : MainApp.app := MainApp.run [MainApp.IssueBook today0] app2.

(** "Issue Book" is pressed again: the box still shows the book. *)
Definition app4 : MainApp.app := MainApp.run [MainApp.IssueBook today0] app3.

(** The form of the students page with a negative age typed in. *)
Definition negative_age_form : StudentPage.page :=
  StudentPage.mkpage "Asha Rao" "-5" "CS" "2" "" (Tk.mkTreeview [] None).

(** The property of ages that the data model words as "non-negative". *)
Definition age_non_negative (s : Sql.student) : Prop :=
  match Sql.age s with
  | None => True
  | Some z => (0 ≤ z)%Z
  end.

(** ** The issue listing *)

(** The student and the book an issue record references, found by key, and
    the record joined with them; [None] when a reference is NULL or finds
    no row. *)
Definition joined (db : Sql.DB) (ib : Sql.issue) : option Sql.issued_row :=
  s ← head (filter (λ s, Sql.ib_student_id ib = Some (Sql.student_id s))
                   (Sql.students db));
  b ← head (filter (λ b, Sql.ib_book_id ib = Some (Sql.book_id b))
                   (Sql.books db));
  Some (Sql.mkissued_row (Sql.issue_id ib) (Sql.student_id s) (Sql.name s)
          (Sql.book_id b) (Sql.title b) (Sql.issue_date ib) (Sql.return_date ib)).

(** The rows of the listing, newest first. *)
Definition newest_row_first (r1 r2 : IssuePage.row) : Prop :=
  (IssuePage.IssueID r2 ≤ IssuePage.IssueID r1)%Z.

(** The page with the focus moved to row [i] of its table. *)
Definition focus_issued (i : nat) (p : IssuePage.page) : IssuePage.page :=
  IssuePage.mkpage (IssuePage.student_cb p) (IssuePage.book_cb p)
    (IssuePage._student_map p) (IssuePage._book_map p)
    (Tk.set_focus i (IssuePage.tree p)).

(** The text [fetch_issued] shows for a date column. *)
Definition date_text (d : option Py.date) : string :=
  match d with
  | Some d => Py.isoformat d
  | None => ""
  end.

(** The student, respectively the book, an issue record references. *)
Definition references_student (db : Sql.DB) (ib : Sql.issue) : Prop :=
  ∃ s, s ∈ Sql.students db ∧ Sql.ib_student_id ib = Some (Sql.student_id s).

Definition references_book (db : Sql.DB) (ib : Sql.issue) : Prop :=
  ∃ b, b ∈ Sql.books db ∧ Sql.ib_book_id ib = Some (Sql.book_id b).

(** ** Search *)








(** The search box of the students page holding [q]. *)
Definition searching (q : string) : StudentPage.page :=
  StudentPage.mkpage "" "" "" "" q (Tk.mkTreeview [] None).

(** ** The workflow invariant *)

(** The open issue records of a book. *)
Definition open_issues_of (bid : Z) (db : Sql.DB) : list Sql.issue :=
  filter (λ i, Sql.ib_book_id i = Some bid ∧ Sql.return_date i = None)
         (Sql.issued_books db).

(** Each book has at most one open issue record. *)
Definition one_open_issue_per_book (db : Sql.DB) : Prop :=
  Forall (λ b, (length (open_issues_of (Sql.book_id b) db) ≤ 1)%nat)
         (Sql.books db).

(** What the handlers keep true of the store: no id has two open issue
    records; an Available book has none; a non-NULL [book_id] of an issue
    record is the id of a book (the foreign key); the ids of the books are
    below the counter. *)
Record consistent (db : Sql.DB) : Prop := mkconsistent {
  at_most_one_open :
    ∀ bid, (length (open_issues_of bid db) ≤ 1)%nat;
  available_not_lent :
    ∀ b, b ∈ Sql.books db → Sql.status b = Sql.Available →
         open_issues_of (Sql.book_id b) db = [];
  book_reference :
    ∀ i bid, i ∈ Sql.issued_books db → Sql.ib_book_id i = Some bid →
             bid ∈ Sql.book_id <$> Sql.books db;
  book_ids_used :
    ∀ b, b ∈ Sql.books db → (Sql.book_id b < Sql.books_auto db)%Z }.

(** The issue page shows the store: its book picker and its table are
    those a refresh would make. *)
Definition in_sync (p : IssuePage.page) (db : Sql.DB) : Prop :=
  IssuePage._book_map p = IssuePage.label_map (Sql.select_available_books db)
  ∧ Tk.rows (IssuePage.tree p) = IssuePage.format <$> Sql.select_issued db.

Definition invariant (a : MainApp.app) : Prop :=
  consistent (MainApp.db a)
  ∧ (MainApp.visible a = MainApp.Issues →
     in_sync (MainApp.issues a) (MainApp.db a)).

(** The store after a statement, raised or not. *)
Definition after (r : Sql.result) : Sql.DB :=
  match r with
  | inl (_, db) => db
  | inr db => db
  end.

(** ** Primary keys *)

(** The ids of a table are distinct and below the table's counter. *)
Definition keys_ok {A} (key : A → Z) (rows : list A) (auto : Z) : Prop :=
  NoDup (key <$> rows) ∧ ∀ x, x ∈ rows → (key x < auto)%Z.

Definition keyed (db : Sql.DB) : Prop :=
  keys_ok Sql.student_id (Sql.students db) (Sql.students_auto db)
  ∧ keys_ok Sql.book_id (Sql.books db) (Sql.books_auto db)
  ∧ keys_ok Sql.issue_id (Sql.issued_books db) (Sql.issued_books_auto db).

(** ** Stored texts *)

(** A text without whitespace at either end. *)
Definition stripped (s : string) : Prop := Py.strip s = s.

(** What the forms store: a required text is not empty, a text is stripped
    and fits its column, an optional text is not NULL, a number is NULL or
    fits [INT]. *)
Definition text_ok (n : nat) (s : string) : Prop :=
  stripped s ∧ (String.length s ≤ n)%nat.

Definition optional_text_ok (n : nat) (v : option string) : Prop :=
  ∃ s, v = Some s ∧ text_ok n s.

Definition student_ok (s : Sql.student) : Prop :=
  Sql.name s ≠ "" ∧ text_ok 100 (Sql.name s)
  ∧ optional_text_ok 100 (Sql.course s)
  ∧ Sql.fits_int (Sql.age s) = true ∧ Sql.fits_int (Sql.year s) = true.

Definition book_ok (b : Sql.book) : Prop :=
  Sql.title b ≠ "" ∧ text_ok 255 (Sql.title b)
  ∧ optional_text_ok 150 (Sql.author b)
  ∧ Sql.fits_int (Sql.pub_year b) = true.

(** An issue record has its issue date, and a return date, if any, was set
    by a return. *)
Definition issue_ok (i : Sql.issue) : Prop := is_Some (Sql.issue_date i).

Definition well_formed (db : Sql.DB) : Prop :=
  Forall student_ok (Sql.students db)
  ∧ Forall book_ok (Sql.books db)
  ∧ Forall issue_ok (Sql.issued_books db).

(** ** Foreign keys *)

(** Every non-NULL reference of an issue record finds its row. *)
Definition referential (db : Sql.DB) : Prop :=
  ∀ i, i ∈ Sql.issued_books db →
    Sql.references (Sql.ib_student_id i) (Sql.student_id <$> Sql.students db) = true
    ∧ Sql.references (Sql.ib_book_id i) (Sql.book_id <$> Sql.books db) = true.

(** ** Tables on screen *)

(** The focus of a table, if any, is one of its rows. *)
Definition focus_ok {R} (t : Tk.Treeview R) : Prop :=
  ∀ i, Tk.focus t = Some i → (i < length (Tk.rows t))%nat.

(** The tables of the three pages have their focus on a row, and the table
    of the page that is shown lists rows of the store. *)
Definition tables_ok (a : MainApp.app) : Prop :=
  focus_ok (StudentPage.tree (MainApp.students a))
  ∧ focus_ok (BookPage.tree (MainApp.books a))
  ∧ focus_ok (IssuePage.tree (MainApp.issues a))
  ∧ (MainApp.visible a = MainApp.Students →
     sublist (Tk.rows (StudentPage.tree (MainApp.students a)))
             (Sql.students (MainApp.db a)))
  ∧ (MainApp.visible a = MainApp.Books →
     sublist (Tk.rows (BookPage.tree (MainApp.books a)))
             (Sql.books (MainApp.db a))).

(** The table of a page: its focus is on a row, and its rows are rows of
    the store, in the store's order. *)
Definition student_table_ok (p : StudentPage.page) (db : Sql.DB) : Prop :=
  focus_ok (StudentPage.tree p)
  ∧ sublist (Tk.rows (StudentPage.tree p)) (Sql.students db).

Definition book_table_ok (p : BookPage.page) (db : Sql.DB) : Prop :=
  focus_ok (BookPage.tree p)
  ∧ sublist (Tk.rows (BookPage.tree p)) (Sql.books db).

(** The page with the focus of its table on row [i]. *)
Definition focus_student (i : nat) (p : StudentPage.page) : StudentPage.page :=
  StudentPage.with_tree (Tk.set_focus i (StudentPage.tree p)) p.

Definition focus_book (i : nat) (p : BookPage.page) : BookPage.page :=
  BookPage.with_tree (Tk.set_focus i (BookPage.tree p)) p.

(** ** Books out of the workflow *)

(** The book [k] is Issued, if it is there at all, but every issue record
    that names it has a return date; [k] is an id the counter has passed. *)
Definition stuck (k : Z) (db : Sql.DB) : Prop :=
  (k < Sql.books_auto db)%Z
  ∧ (∀ b, b ∈ Sql.books db → Sql.book_id b = k → Sql.status b = Sql.Issued)
  ∧ (∀ i, i ∈ Sql.issued_books db → Sql.ib_book_id i = Some k →
          is_Some (Sql.return_date i)).

(** After [app3], the borrower is deleted on the students page. *)
Definition app5 : MainApp.app :=
  MainApp.run
    [ MainApp.Back; MainApp.ManageStudents; MainApp.FocusStudent 0;
      MainApp.DeleteStudent true ]
    app3.

(** Then the issue page is opened again. *)
Definition app6 : MainApp.app :=
  MainApp.run [MainApp.Back; MainApp.IssueReturn] app5.


(* ===================================================================== *)
(** * Facts about the Python built-ins *)
(* ===================================================================== *)

Lemma append_cons (c : ascii) (s t : string) :
  String c s +:+ t = String c (s +:+ t).
Proof. reflexivity. Qed.

Lemma append_nil_l (s : string) : "" +:+ s = s.
Proof. reflexivity. Qed.

Lemma append_nil_r (s : string) : s +:+ "" = s.
Proof. induction s as [|c s IH]; [done |]. rewrite append_cons. congruence. Qed.

Lemma append_assoc (s1 s2 s3 : string) :
  (s1 +:+ s2) +:+ s3 = s1 +:+ (s2 +:+ s3).
Proof.
  induction s1 as [|c s1 IH]; [done |]. rewrite !append_cons. congruence.
Qed.

Lemma length_append (s1 s2 : string) :
  String.length (s1 +:+ s2) = (String.length s1 + String.length s2)%nat.
Proof.
  induction s1 as [|c s1 IH]; [done |]. rewrite append_cons. simpl. congruence.
Qed.

Lemma rstrip_blank (s : string) : blank s → Py.rstrip s = "".
Proof.
  unfold blank. induction s as [|c s IH]; simpl; [done |].
  intros H. apply Forall_cons in H as [Hc Hs].
  rewrite (IH Hs). by rewrite Hc.
Qed.

(** A blank text strips to the empty text. *)
Lemma strip_blank (s : string) : blank s → Py.strip s = "".
Proof. intros H. unfold Py.strip. by rewrite rstrip_blank. Qed.










Lemma int_digits_chars (s : string) (prev : bool) (acc : Z) (n : nat) r :
  Py.int_digits s prev acc n = Some r →
  Forall (λ c, is_Some (Py.digit c) ∨ c = "_"%char) (list_ascii_of_string s).
Proof.
  revert prev acc n. induction s as [|c s IH]; intros prev acc n; simpl.
  { intros _. constructor. }
  destruct (Py.digit c) as [d|] eqn:Ed.
  - intros H. constructor; [left; by rewrite Ed | by eapply IH].
  - destruct (Ascii.eqb c "_") eqn:Ec; simpl; [| by intros ?].
    destruct prev; [| by intros ?]. intros H.
    constructor; [right; by apply Ascii.eqb_eq | by eapply IH].
Qed.

Lemma int_rstrip_keeps (s : string) (c : ascii) :
  Py.int_isspace c = false →
  c ∈ list_ascii_of_string s → c ∈ list_ascii_of_string (Py.int_rstrip s).
Proof.
  intros Hc. induction s as [|d s IH]; simpl; [done |].
  intros [->|H]%elem_of_cons.
  - destruct (Py.int_rstrip s); [rewrite Hc |]; apply list_elem_of_here.
  - specialize (IH H). destruct (Py.int_rstrip s) as [|e r];
      [by apply elem_of_nil in IH |].
    by apply list_elem_of_further.
Qed.

Lemma int_lstrip_keeps (s : string) (c : ascii) :
  Py.int_isspace c = false →
  c ∈ list_ascii_of_string s → c ∈ list_ascii_of_string (Py.int_lstrip s).
Proof.
  intros Hc. induction s as [|d s IH]; simpl; [done |].
  intros [->|H]%elem_of_cons.
  - rewrite Hc. apply list_elem_of_here.
  - destruct (Py.int_isspace d); [by apply IH |].
    by apply list_elem_of_further.
Qed.

Lemma int_sign_keeps (s : string) (c : ascii) :
  Ascii.eqb c "-" = false → Ascii.eqb c "+" = false →
  c ∈ list_ascii_of_string s → c ∈ list_ascii_of_string (Py.int_sign s).2.
Proof.
  intros Hm Hp. destruct s as [|d r]; simpl; [done |].
  intros [->|H]%elem_of_cons.
  - rewrite Hm, Hp. apply list_elem_of_here.
  - repeat case_match; simpl; auto using list_elem_of_further.
Qed.

(** [int()] rejects a text with a character that no literal contains. *)
Lemma int_foreign_char (s : string) : has_foreign_char s → Py.int s = None.
Proof.
  unfold has_foreign_char. rewrite Exists_exists.
  intros (c & Hin & Hc). unfold literal_char in Hc.
  destruct (Py.digit c) eqn:Ed; [done |].
  apply orb_false_elim in Hc as [Hc Hsp].
  apply orb_false_elim in Hc as [Hc Hus].
  apply orb_false_elim in Hc as [Hpl Hmi].
  unfold Py.int. destruct (Py.int_sign _) as [neg ds] eqn:E.
  destruct (Py.int_digits ds false 0 0) as [[v n]|] eqn:Hd; [| done].
  exfalso. apply int_digits_chars in Hd. rewrite Forall_forall in Hd.
  destruct (Hd c) as [[? Hdig]|Heq].
  - replace ds with (Py.int_sign (Py.int_lstrip (Py.int_rstrip s))).2
      by (by rewrite E).
    by apply int_sign_keeps, int_lstrip_keeps, int_rstrip_keeps.
  - congruence.
  - subst c. done.
Qed.

(** ** Dates *)

Lemma length_zeros (n : nat) : String.length (Py.zeros n) = n.
Proof. induction n; simpl; congruence. Qed.

Lemma length_fmt0 (w : nat) (n : Z) : (w ≤ String.length (Py.fmt0 w n))%nat.
Proof.
  unfold Py.fmt0. case_decide; rewrite !length_append, length_zeros; simpl; lia.
Qed.

Lemma length_isoformat (d : Py.date) : (10 ≤ String.length (Py.isoformat d))%nat.
Proof.
  unfold Py.isoformat. rewrite !length_append. simpl.
  pose proof (length_fmt0 4 (Py.year d)).
  pose proof (length_fmt0 2 (Py.month d)).
  pose proof (length_fmt0 2 (Py.day d)). lia.
Qed.

(** The text of a date is neither empty nor ["None"]. *)
Lemma isoformat_not_empty (d : Py.date) : Py.isoformat d ≠ "".
Proof.
  intros H. pose proof (length_isoformat d) as L. rewrite H in L. simpl in L. lia.
Qed.

Lemma isoformat_not_None (d : Py.date) : Py.isoformat d ≠ "None".
Proof.
  intros H. pose proof (length_isoformat d) as L. rewrite H in L. simpl in L. lia.
Qed.

Lemma truthy_spec (s : string) : Py.truthy s = true ↔ s ≠ "".
Proof. destruct s; simpl; split; congruence. Qed.

(** ** Examples *)

Example strip_example : Py.strip "  Asha Rao  " = "Asha Rao".
Proof. reflexivity. Qed.

Example int_examples :
  Py.int " 42 " = Some 42%Z ∧ Py.int "-5" = Some (-5)%Z
  ∧ Py.int "+7" = Some 7%Z ∧ Py.int "1_000" = Some 1000%Z
  ∧ Py.int "007" = Some 7%Z
  ∧ Py.int "" = None ∧ Py.int "  " = None ∧ Py.int "twenty" = None
  ∧ Py.int "20.5" = None ∧ Py.int "1__0" = None ∧ Py.int "+ 1" = None
  ∧ Py.int "None" = None.
Proof. vm_compute. repeat split. Qed.

Example isoformat_example : Py.isoformat (Py.mkdate 2024 3 5) = "2024-03-05".
Proof. vm_compute. reflexivity. Qed.


(* ===================================================================== *)
(** * Students and books: add, update, delete *)
(* ===================================================================== *)

Lemma db_eta (db : Sql.DB) :
  Sql.mkDB (Sql.students db) (Sql.books db) (Sql.issued_books db)
           (Sql.students_auto db) (Sql.books_auto db) (Sql.issued_books_auto db)
  = db.
Proof. by destruct db. Qed.

Lemma fmap_id_on {A} (f : A → A) (l : list A) :
  (∀ x, x ∈ l → f x = x) → f <$> l = l.
Proof.
  induction l as [|x l IH]; intros H; [done |].
  rewrite fmap_cons. f_equal; [apply H, list_elem_of_here |].
  apply IH. intros y Hy. by apply H, list_elem_of_further.
Qed.

(** An [UPDATE] whose condition selects no row changes nothing and raises
    nothing, whatever the values. *)
Lemma update_student_absent name age course year sid (db : Sql.DB) :
  sid ∉ Sql.student_id <$> Sql.students db →
  Sql.update_student name age course year sid db = inr db.
Proof.
  intros H. unfold Sql.update_student, Sql.has_student.
  rewrite bool_decide_eq_false_2 by done.
  rewrite fmap_id_on; [by rewrite db_eta |].
  intros s Hs. case_decide as E; [| done].
  exfalso. apply H. rewrite <- E. by apply list_elem_of_fmap_2.
Qed.

(** What a successful [add_student] stores. *)
Lemma add_student_success (p p' : StudentPage.page) (db db' : Sql.DB) :
  StudentPage.add_student p db = (p', db', [Tk.showinfo "Success" "Student added."]) →
  Sql.check_student (Py.strip (StudentPage.name_var p))
    (Py.int (StudentPage.age_var p))
    (Some (Py.strip (StudentPage.course_var p)))
    (Py.int (StudentPage.year_var p)) = None
  ∧ Sql.students db' =
      Sql.students db ++
        [Sql.mkstudent (Sql.students_auto db)
           (Py.strip (StudentPage.name_var p))
           (Py.int (StudentPage.age_var p))
           (Some (Py.strip (StudentPage.course_var p)))
           (Py.int (StudentPage.year_var p))]
  ∧ Sql.books db' = Sql.books db
  ∧ Sql.issued_books db' = Sql.issued_books db.
Proof.
  unfold StudentPage.add_student, Sql.insert_student, StudentPage._int_or_none.
  intros H. repeat case_match; simplify_eq; done.
Qed.


Lemma check_student_age name age course year :
  Sql.check_student name age course year = None → Sql.fits_int age = true.
Proof. unfold Sql.check_student. simpl. by repeat case_match. Qed.







(** C5.  Updating through a selected row whose id identifies no stored
    student, with a name that is not empty once stripped: the handler
    raises nothing, shows no error (it shows its success notice), and the
    store is unchanged. *)
Theorem C5_update_absent_id_is_noop
    (p : StudentPage.page) (db : Sql.DB) (sel : nat) (vals : Sql.student) :
  Tk.focus (StudentPage.tree p) = Some sel →
  Tk.rows (StudentPage.tree p) !! sel = Some vals →
  Sql.student_id vals ∉ Sql.student_id <$> Sql.students db →
  Py.strip (StudentPage.name_var p) ≠ "" →
  StudentPage.update_student p db
    = (StudentPage.fetch_students p db, db,
       [Tk.showinfo "Success" "Student updated."]).
Proof.
  intros Hf Hr Hid Hn. unfold StudentPage.update_student.
  rewrite Hf, Hr. apply truthy_spec in Hn. rewrite Hn. simpl.
  by rewrite update_student_absent.
Qed.

Lemma C5_witness :
  let gone := Sql.mkstudent 7 "Asha Rao" (Some 20%Z) (Some "CS") (Some 2%Z) in
  let kept := Sql.mkstudent 8 "Ravi" None (Some "") None in
  let p := StudentPage.mkpage "Asha" "21" "CS" "3" "" (Tk.mkTreeview [gone; kept] (Some 0%nat)) in
  let db := Sql.mkDB [kept] [] [] 9 1 1 in
  StudentPage.update_student p db
    = (StudentPage.fetch_students p db, db,
       [Tk.showinfo "Success" "Student updated."]).
Proof.
  intros gone kept p db.
  apply (C5_update_absent_id_is_noop p db 0%nat gone);
    [reflexivity | reflexivity | | vm_compute; congruence].
  vm_compute. intros H. inversion H as [|? ? ? H']. inversion H'.
Defined.

(** C7.  Deleting the selected student, once confirmed, removes the rows of
    [students] with that id and, by the cascade, the rows of [issued_books]
    whose [student_id] is that id; the other students and issue records stay,
    in their order, and [books] is unchanged. *)
Theorem C7_delete_student_cascades
    (p : StudentPage.page) (db : Sql.DB) (sel : nat) (vals : Sql.student) :
  Tk.focus (StudentPage.tree p) = Some sel →
  Tk.rows (StudentPage.tree p) !! sel = Some vals →
  ∃ p' db',
    StudentPage.delete_student true p db
      = (p', db', [Tk.showinfo "Success" "Student deleted."])
    ∧ (∀ s, s ∈ Sql.students db' ↔
            s ∈ Sql.students db ∧ Sql.student_id s ≠ Sql.student_id vals)
    ∧ (∀ i, i ∈ Sql.issued_books db' ↔
            i ∈ Sql.issued_books db
            ∧ Sql.ib_student_id i ≠ Some (Sql.student_id vals))
    ∧ sublist (Sql.students db') (Sql.students db)
    ∧ sublist (Sql.issued_books db') (Sql.issued_books db)
    ∧ Sql.books db' = Sql.books db.
Proof.
  intros Hf Hr. unfold StudentPage.delete_student. rewrite Hf, Hr. simpl.
  eexists _, _. split; [reflexivity |]. simpl.
  split_and!; try done.
  - intros s. rewrite list_elem_of_filter. tauto.
  - intros i. rewrite list_elem_of_filter. tauto.
  - apply sublist_filter.
  - apply sublist_filter.
Qed.

Lemma C7_witness :
  let asha := Sql.mkstudent 1 "Asha Rao" (Some 20%Z) (Some "CS") (Some 2%Z) in
  let ravi := Sql.mkstudent 2 "Ravi" None (Some "") None in
  let book := Sql.mkbook 1 "Compilers" (Some "Aho") (Some 2006%Z) Sql.Issued in
  let loan1 := Sql.mkissue 1 (Some 1%Z) (Some 1%Z) (Some today0) (Some today0) in
  let loan2 := Sql.mkissue 2 (Some 2%Z) (Some 1%Z) (Some today0) None in
  let db := Sql.mkDB [asha; ravi] [book] [loan1; loan2] 3 2 3 in
  let p := StudentPage.mkpage "" "" "" "" "" (Tk.mkTreeview [asha; ravi] (Some 0%nat)) in
  ∃ p' db',
    StudentPage.delete_student true p db
      = (p', db', [Tk.showinfo "Success" "Student deleted."])
    ∧ (∀ s, s ∈ Sql.students db' ↔ s ∈ [asha; ravi] ∧ Sql.student_id s ≠ 1%Z)
    ∧ (∀ i, i ∈ Sql.issued_books db' ↔
            i ∈ [loan1; loan2] ∧ Sql.ib_student_id i ≠ Some 1%Z)
    ∧ sublist (Sql.students db') [asha; ravi]
    ∧ sublist (Sql.issued_books db') [loan1; loan2]
    ∧ Sql.books db' = [book].
Proof.
  intros asha ravi book loan1 loan2 db p.
  apply (C7_delete_student_cascades p db 0%nat asha); reflexivity.
Defined.

Example delete_student_example :
  let asha := Sql.mkstudent 1 "Asha Rao" (Some 20%Z) (Some "CS") (Some 2%Z) in
  let ravi := Sql.mkstudent 2 "Ravi" None (Some "") None in
  let book := Sql.mkbook 1 "Compilers" (Some "Aho") (Some 2006%Z) Sql.Issued in
  let loan1 := Sql.mkissue 1 (Some 1%Z) (Some 1%Z) (Some today0) (Some today0) in
  let loan2 := Sql.mkissue 2 (Some 2%Z) (Some 1%Z) (Some today0) None in
  Sql.delete_student 1 (Sql.mkDB [asha; ravi] [book] [loan1; loan2] 3 2 3)
  = inr (Sql.mkDB [ravi] [book] [loan2] 3 2 3).
Proof. reflexivity. Qed.

(** What a successful [update_student] stores. *)
Lemma update_student_success (p p' : StudentPage.page) (db db' : Sql.DB) :
  StudentPage.update_student p db
    = (p', db', [Tk.showinfo "Success" "Student updated."]) →
  ∀ s, s ∈ Sql.students db' →
    s ∈ Sql.students db
    ∨ (Sql.age s = Py.int (StudentPage.age_var p)
       ∧ Sql.fits_int (Sql.age s) = true).
Proof.
  unfold StudentPage.update_student, Sql.update_student, StudentPage._int_or_none.
  intros H s Hs.
  destruct (Tk.focus _) as [sel|]; [| done].
  destruct (_ !! sel) as [vals|]; [| done].
  destruct (negb _); [done |].
  destruct (Sql.has_student _ _) eqn:Ehas.
  - destruct (Sql.check_student _ _ _ _) eqn:Ec; simplify_eq.
    simpl in Hs. apply list_elem_of_fmap in Hs as (s0 & -> & Hs0).
    case_decide; [right | by left]. simpl.
    split; [done |]. by eapply check_student_age.
  - simplify_eq. simpl in Hs.
    apply list_elem_of_fmap in Hs as (s0 & -> & Hs0).
    case_decide as E; [| by left].
    apply bool_decide_eq_false in Ehas. exfalso. apply Ehas.
    rewrite <- E. by apply list_elem_of_fmap_2.
Qed.

(** C8, as the code has it.  For every student created by a successful add
    or changed by a successful update, the stored age is NULL or the integer
    the age text denotes, of either sign, within the range of [INT]; the
    handlers do not look at the sign. *)
Theorem C8_age_is_null_or_parsed_integer
    (p p' : StudentPage.page) (db db' : Sql.DB) :
  (StudentPage.add_student p db
     = (p', db', [Tk.showinfo "Success" "Student added."]) →
   ∃ s, Sql.students db' = Sql.students db ++ [s]
        ∧ Sql.age s = Py.int (StudentPage.age_var p)
        ∧ Sql.fits_int (Sql.age s) = true)
  ∧ (StudentPage.update_student p db
     = (p', db', [Tk.showinfo "Success" "Student updated."]) →
     ∀ s, s ∈ Sql.students db' →
       s ∈ Sql.students db
       ∨ (Sql.age s = Py.int (StudentPage.age_var p)
          ∧ Sql.fits_int (Sql.age s) = true)).
Proof.
  split.
  - intros H. apply add_student_success in H as (Hc & Hs & _).
    eexists. split; [exact Hs |]. simpl. split; [done |].
    by eapply check_student_age.
  - apply update_student_success.
Qed.

(** C8, as the claim words it, fails: adding "Asha Rao" with the age text
    ["-5"] succeeds and stores the age -5. *)
Lemma C8_counterexample :
  ∃ p' db',
    StudentPage.add_student negative_age_form Sql.empty
      = (p', db', [Tk.showinfo "Success" "Student added."])
    ∧ Sql.students db'
      = [Sql.mkstudent 1 "Asha Rao" (Some (-5)%Z) (Some "CS") (Some 2%Z)]
    ∧ ¬ Forall age_non_negative (Sql.students db').
Proof.
  eexists _, _. split; [vm_compute; reflexivity |].
  split; [reflexivity |].
  intros H. apply Forall_cons in H as [H _]. vm_compute in H. by apply H.
Qed.

Lemma C8_witness :
  let r := StudentPage.add_student negative_age_form Sql.empty in
  ∃ s, Sql.students r.1.2 = Sql.students Sql.empty ++ [s]
       ∧ Sql.age s = Py.int (StudentPage.age_var negative_age_form)
       ∧ Sql.fits_int (Sql.age s) = true.
Proof.
  intros r.
  apply (proj1 (C8_age_is_null_or_parsed_integer
                  negative_age_form r.1.1 Sql.empty r.1.2)).
  vm_compute. reflexivity.
Defined.


(* ===================================================================== *)
(** * Runs of the program *)
(* ===================================================================== *)

Lemma reachable_step (a : MainApp.app) (ev : MainApp.event) :
  MainApp.reachable a → MainApp.enabled ev a = true →
  MainApp.reachable (MainApp.handle ev a).1.
Proof.
  intros H E. eapply rtc_r; [exact H |]. by exists ev.
Qed.

(** What [run] reaches from a reachable state is reachable. *)
Lemma reachable_run (evs : list MainApp.event) (a : MainApp.app) :
  MainApp.reachable a → MainApp.reachable (MainApp.run evs a).
Proof.
  revert a. induction evs as [|ev evs IH]; intros a H; simpl; [done |].
  apply IH. destruct (MainApp.enabled ev a) eqn:E; [| done].
  by apply reachable_step.
Qed.

Lemma reachable_app0 : MainApp.reachable app0.
Proof. apply rtc_refl. Qed.

Lemma reachable_app2 : MainApp.reachable app2.
Proof. do 2 apply reachable_run. apply reachable_app0. Qed.

Lemma reachable_app3 : MainApp.reachable app3.
Proof. apply reachable_run, reachable_app2. Qed.

Lemma reachable_app4 : MainApp.reachable app4.
Proof. apply reachable_run, reachable_app3. Qed.


(* ===================================================================== *)
(** * Issue and return *)
(* ===================================================================== *)

(** ** The pickers *)

Lemma label_map_from (rs : list (Z * string)) (m : gmap string Z) k v :
  foldl (λ m r, <[IssuePage.label r := r.1]> m) m rs !! k = Some v →
  m !! k = Some v ∨ ∃ t, (v, t) ∈ rs ∧ IssuePage.label (v, t) = k.
Proof.
  revert m. induction rs as [|[i t] rs IH]; intros m; simpl; [by left |].
  intros H. apply IH in H as [H|(t' & Hin & Hl)].
  - destruct (decide (IssuePage.label (i, t) = k)) as [E|E].
    + rewrite E, lookup_insert_eq in H. simplify_eq.
      right. exists t. split; [apply list_elem_of_here | done].
    + rewrite lookup_insert_ne in H by done. by left.
  - right. exists t'. split; [by apply list_elem_of_further | done].
Qed.

(** Every entry of a label map is the label and the id of one of the rows
    it was made from. *)
Lemma label_map_lookup (rs : list (Z * string)) k v :
  IssuePage.label_map rs !! k = Some v →
  ∃ t, (v, t) ∈ rs ∧ IssuePage.label (v, t) = k.
Proof.
  intros H. apply label_map_from in H as [H|H]; [| done].
  by rewrite lookup_empty in H.
Qed.

Lemma keys_lookup (m : gmap string Z) (l : string) :
  l ∈ IssuePage.keys m → ∃ v, m !! l = Some v.
Proof.
  unfold IssuePage.keys. intros H.
  apply list_elem_of_fmap in H as ([l' v] & -> & H).
  exists v. by apply elem_of_map_to_list.
Qed.

Lemma select_available_books_spec (db : Sql.DB) (i : Z) (t : string) :
  (i, t) ∈ Sql.select_available_books db ↔
  ∃ b, b ∈ Sql.books db ∧ Sql.status b = Sql.Available
       ∧ Sql.book_id b = i ∧ Sql.title b = t.
Proof.
  unfold Sql.select_available_books. rewrite list_elem_of_fmap. split.
  - intros (b & E & Hb). apply list_elem_of_filter in Hb as [Hs Hb].
    exists b. by simplify_eq.
  - intros (b & Hb & Hs & <- & <-). exists b.
    split; [done |]. by apply list_elem_of_filter.
Qed.

(** The book picker, once refreshed, maps labels to Available books. *)
Lemma refreshed_book_map (p : IssuePage.page) (db : Sql.DB) l bid :
  IssuePage._book_map (IssuePage.refresh_all p db) !! l = Some bid →
  ∃ b, b ∈ Sql.books db ∧ Sql.status b = Sql.Available
       ∧ Sql.book_id b = bid
       ∧ l = IssuePage.label (bid, Sql.title b).
Proof.
  simpl. intros H. apply label_map_lookup in H as (t & Hin & <-).
  apply select_available_books_spec in Hin as (b & ? & ? & ? & <-). eauto.
Qed.

Lemma refreshed_student_map (p : IssuePage.page) (db : Sql.DB) l sid :
  IssuePage._student_map (IssuePage.refresh_all p db) !! l = Some sid →
  sid ∈ Sql.student_id <$> Sql.students db.
Proof.
  simpl. intros H. apply label_map_lookup in H as (t & Hin & <-).
  unfold Sql.select_student_names in Hin.
  apply list_elem_of_fmap in Hin as (s & E & Hs). simplify_eq.
  by apply list_elem_of_fmap_2.
Qed.

(** ** The statements of [issue_book] *)

Lemma update_book_status_books st bid (db db' : Sql.DB) :
  Sql.update_book_status st bid db = inr db' →
  Sql.students db' = Sql.students db
  ∧ Sql.issued_books db' = Sql.issued_books db
  ∧ Sql.students_auto db' = Sql.students_auto db
  ∧ Sql.books_auto db' = Sql.books_auto db
  ∧ Sql.issued_books_auto db' = Sql.issued_books_auto db
  ∧ Forall2 (λ b b',
       Sql.book_id b' = Sql.book_id b
       ∧ Sql.title b' = Sql.title b
       ∧ Sql.author b' = Sql.author b
       ∧ Sql.pub_year b' = Sql.pub_year b
       ∧ (Some (Sql.book_id b) = bid → Sql.status b' = st)
       ∧ (Some (Sql.book_id b) ≠ bid → b' = b))
     (Sql.books db) (Sql.books db').
Proof.
  unfold Sql.update_book_status. intros H. simplify_eq. simpl.
  split_and!; try done.
  apply Forall2_fmap_r, Forall_Forall2_diag, Forall_forall.
  intros b _. simpl.
  destruct (decide (Some (Sql.book_id b) = bid)); simpl; split_and!; done.
Qed.

(** What [issue_book] does when it reports success. *)
Lemma issue_book_success today (p p' : IssuePage.page) (db db' : Sql.DB) :
  IssuePage.issue_book today p db
    = (p', db', [Tk.showinfo "Success" "Book issued."]) →
  let sid := IssuePage._student_map p !! Tk.text (IssuePage.student_cb p) in
  let bid := IssuePage._book_map p !! Tk.text (IssuePage.book_cb p) in
  ∃ db1,
    Sql.insert_issue sid bid today db = inr db1
    ∧ Sql.update_book_status Sql.Issued bid db1 = inr db'
    ∧ p' = IssuePage.refresh_all p db'.
Proof.
  intros H sid bid. unfold IssuePage.issue_book in H. fold sid bid in H.
  destruct (_ || _); [done |].
  destruct (Sql.insert_issue sid bid today db) as [[e d]|db1] eqn:E1; [done |].
  destruct (Sql.update_book_status Sql.Issued bid db1) as [[e d]|db2] eqn:E2;
    [done |].
  simplify_eq. eauto.
Qed.

Lemma insert_issue_success sid bid today (db db1 : Sql.DB) :
  Sql.insert_issue sid bid today db = inr db1 →
  Sql.students db1 = Sql.students db
  ∧ Sql.books db1 = Sql.books db
  ∧ Sql.issued_books db1 =
      Sql.issued_books db
        ++ [Sql.mkissue (Sql.issued_books_auto db) sid bid (Some today) None]
  ∧ Sql.students_auto db1 = Sql.students_auto db
  ∧ Sql.books_auto db1 = Sql.books_auto db
  ∧ Sql.issued_books_auto db1 = (Sql.issued_books_auto db + 1)%Z
  ∧ Sql.references sid (Sql.student_id <$> Sql.students db) = true
  ∧ Sql.references bid (Sql.book_id <$> Sql.books db) = true.
Proof.
  unfold Sql.insert_issue. intros H.
  case_decide; [| done].
  destruct (Sql.references sid _) eqn:Es; simpl in H; [| done].
  destruct (Sql.references bid _) eqn:Eb; simpl in H; [| done].
  by simplify_eq.
Qed.

(** What a successful [issue_book] changes, and what it leaves. *)
Lemma issue_book_frame
    (today : Py.date) (p p' : IssuePage.page) (db db' : Sql.DB) :
  IssuePage.issue_book today p db
    = (p', db', [Tk.showinfo "Success" "Book issued."]) →
  let sid := IssuePage._student_map p !! Tk.text (IssuePage.student_cb p) in
  let bid := IssuePage._book_map p !! Tk.text (IssuePage.book_cb p) in
  Sql.students db' = Sql.students db
  ∧ Sql.issued_books db' =
      Sql.issued_books db
        ++ [Sql.mkissue (Sql.issued_books_auto db) sid bid (Some today) None]
  ∧ Forall2 (λ b b',
       Sql.book_id b' = Sql.book_id b
       ∧ Sql.title b' = Sql.title b
       ∧ Sql.author b' = Sql.author b
       ∧ Sql.pub_year b' = Sql.pub_year b
       ∧ (Some (Sql.book_id b) = bid → Sql.status b' = Sql.Issued)
       ∧ (Some (Sql.book_id b) ≠ bid → b' = b))
     (Sql.books db) (Sql.books db')
  ∧ Sql.students_auto db' = Sql.students_auto db
  ∧ Sql.books_auto db' = Sql.books_auto db.
Proof.
  intros H sid bid.
  apply issue_book_success in H as (db1 & H1 & H2 & _). fold sid bid in H1, H2.
  apply insert_issue_success in H1 as (Es & Eb & Ei & Esa & Eba & _).
  apply update_book_status_books in H2 as (Es' & Ei' & Esa' & Eba' & _ & HF).
  rewrite Eb in HF. split_and!; congruence.
Qed.

(** C10.  A successful [issue_book] changes the store in two places only:
    one row is appended to [issued_books], and the rows of [books] with the
    issued book's id get the status Issued.  [students] is unchanged, the
    earlier issue records are unchanged, and every book keeps its id, title,
    author and publication year, the books with another id their whole row. *)
Theorem C10_issue_book_frame
    (today : Py.date) (p p' : IssuePage.page) (db db' : Sql.DB) :
  IssuePage.issue_book today p db
    = (p', db', [Tk.showinfo "Success" "Book issued."]) →
  let sid := IssuePage._student_map p !! Tk.text (IssuePage.student_cb p) in
  let bid := IssuePage._book_map p !! Tk.text (IssuePage.book_cb p) in
  Sql.students db' = Sql.students db
  ∧ Sql.issued_books db' =
      Sql.issued_books db
        ++ [Sql.mkissue (Sql.issued_books_auto db) sid bid (Some today) None]
  ∧ Forall2 (λ b b',
       Sql.book_id b' = Sql.book_id b
       ∧ Sql.title b' = Sql.title b
       ∧ Sql.author b' = Sql.author b
       ∧ Sql.pub_year b' = Sql.pub_year b
       ∧ (Some (Sql.book_id b) = bid → Sql.status b' = Sql.Issued)
       ∧ (Some (Sql.book_id b) ≠ bid → b' = b))
     (Sql.books db) (Sql.books db')
  ∧ Sql.students_auto db' = Sql.students_auto db
  ∧ Sql.books_auto db' = Sql.books_auto db.
Proof. apply issue_book_frame. Qed.

Lemma C10_witness :
  let r := IssuePage.issue_book today0 (MainApp.issues app2) (MainApp.db app2) in
  r.2 = [Tk.showinfo "Success" "Book issued."]
  ∧ Sql.students r.1.2 = Sql.students (MainApp.db app2)
  ∧ Sql.issued_books r.1.2 =
      Sql.issued_books (MainApp.db app2)
        ++ [Sql.mkissue 1 (Some 1%Z) (Some 1%Z) (Some today0) None].
Proof.
  intros r. split; [vm_compute; reflexivity |].
  pose proof (C10_issue_book_frame today0 (MainApp.issues app2) r.1.1
                (MainApp.db app2) r.1.2) as H.
  destruct H as (Hs & Hi & _); [vm_compute; reflexivity |].
  split; [exact Hs | exact Hi].
Defined.

Lemma Forall2_status_set (st : Sql.Status) (bid : option Z)
    (bs bs' : list Sql.book) :
  Forall2 (λ b b',
     Sql.book_id b' = Sql.book_id b
     ∧ Sql.title b' = Sql.title b
     ∧ Sql.author b' = Sql.author b
     ∧ Sql.pub_year b' = Sql.pub_year b
     ∧ (Some (Sql.book_id b) = bid → Sql.status b' = st)
     ∧ (Some (Sql.book_id b) ≠ bid → b' = b)) bs bs' →
  (∀ b', b' ∈ bs' → Some (Sql.book_id b') = bid → Sql.status b' = st)
  ∧ (∀ b', b' ∈ bs' → Some (Sql.book_id b') ≠ bid → b' ∈ bs)
  ∧ (∀ b, b ∈ bs → ∃ b', b' ∈ bs' ∧ Sql.book_id b' = Sql.book_id b)
  ∧ (∀ b', b' ∈ bs' → ∃ b, b ∈ bs ∧ Sql.book_id b = Sql.book_id b').
Proof.
  intros HF. split_and!.
  - intros b' Hb' E. apply list_elem_of_lookup in Hb' as [i Hi].
    destruct (Forall2_lookup_r _ _ _ _ _ HF Hi) as (b & Hb & Hid & _ & _ & _ & Hst & _).
    apply Hst. congruence.
  - intros b' Hb' E. apply list_elem_of_lookup in Hb' as [i Hi].
    destruct (Forall2_lookup_r _ _ _ _ _ HF Hi) as (b & Hb & Hid & _ & _ & _ & _ & Hne).
    rewrite Hne by congruence. by eapply list_elem_of_lookup_2.
  - intros b Hb. apply list_elem_of_lookup in Hb as [i Hi].
    destruct (Forall2_lookup_l _ _ _ _ _ HF Hi) as (b' & Hb' & Hid & _).
    exists b'. split; [by eapply list_elem_of_lookup_2 | done].
  - intros b' Hb'. apply list_elem_of_lookup in Hb' as [i Hi].
    destruct (Forall2_lookup_r _ _ _ _ _ HF Hi) as (b & Hb & Hid & _).
    exists b. split; [by eapply list_elem_of_lookup_2 | done].
Qed.

(** C1.  When the picked labels stand for the student [sid] and the book
    [bid], an Available book of the store, and [issue_book] reports
    success: the book's status is Issued; [issued_books] has exactly one
    more row, for that student and that book, with today's date as issue
    date and no return date; and neither the query of the Available books
    nor the refreshed book picker lists the book. *)
Theorem C1_issue_available_book
    (today : Py.date) (p p' : IssuePage.page) (db db' : Sql.DB) (sid bid : Z) :
  IssuePage._student_map p !! Tk.text (IssuePage.student_cb p) = Some sid →
  IssuePage._book_map p !! Tk.text (IssuePage.book_cb p) = Some bid →
  (∃ b, b ∈ Sql.books db ∧ Sql.book_id b = bid ∧ Sql.status b = Sql.Available) →
  IssuePage.issue_book today p db
    = (p', db', [Tk.showinfo "Success" "Book issued."]) →
  (∃ b', b' ∈ Sql.books db' ∧ Sql.book_id b' = bid)
  ∧ (∀ b', b' ∈ Sql.books db' → Sql.book_id b' = bid → Sql.status b' = Sql.Issued)
  ∧ Sql.issued_books db' =
      Sql.issued_books db
        ++ [Sql.mkissue (Sql.issued_books_auto db) (Some sid) (Some bid)
              (Some today) None]
  ∧ (bid ∉ (Sql.select_available_books db').*1)
  ∧ (∀ l, IssuePage._book_map p' !! l ≠ Some bid)
  ∧ (∀ l, l ∈ Tk.values (IssuePage.book_cb p') →
       ∃ b', b' ∈ Sql.books db' ∧ Sql.status b' = Sql.Available
             ∧ Sql.book_id b' ≠ bid
             ∧ l = IssuePage.label (Sql.book_id b', Sql.title b')).
Proof.
  intros Hsid Hbid (b & Hb & Hbi & Hbs) H.
  pose proof (issue_book_frame _ _ _ _ _ H) as (_ & Hi & HF & _).
  apply issue_book_success in H as (_ & _ & _ & ->).
  cbv zeta in Hi, HF. rewrite Hsid, Hbid in Hi. rewrite Hbid in HF.
  apply Forall2_status_set in HF as (Hst' & _ & Hex & _).
  assert (∀ b', b' ∈ Sql.books db' → Sql.book_id b' = bid →
                Sql.status b' = Sql.Issued) as Hst.
  { intros b' Hb' E. apply Hst'; congruence. }
  assert (∀ l v, IssuePage._book_map (IssuePage.refresh_all p db') !! l = Some v
                 → v ≠ bid) as Hmap.
  { intros l v Hl ->. apply refreshed_book_map in Hl as (b' & Hb' & Hs' & Hi' & _).
    specialize (Hst b' Hb' Hi'). congruence. }
  split_and!.
  - destruct (Hex b Hb) as (b' & ? & ?). exists b'. split; congruence.
  - exact Hst.
  - exact Hi.
  - intros Hin. apply list_elem_of_fmap in Hin as ([i t] & E & Hin).
    simpl in E. subst i.
    apply select_available_books_spec in Hin as (b' & Hb' & Hs' & Hi' & _).
    specialize (Hst b' Hb' Hi'). congruence.
  - intros l Hl. by eapply Hmap.
  - intros l Hl. simpl in Hl. apply keys_lookup in Hl as [v Hv].
    pose proof (Hmap l v Hv) as Hne.
    apply (refreshed_book_map p db') in Hv as (b' & ? & ? & ? & ?).
    exists b'. split_and!; try done; congruence.
Qed.

Lemma C1_witness :
  let r := IssuePage.issue_book today0 (MainApp.issues app2) (MainApp.db app2) in
  (∀ b', b' ∈ Sql.books r.1.2 → Sql.book_id b' = 1%Z → Sql.status b' = Sql.Issued)
  ∧ Sql.issued_books r.1.2 =
      Sql.issued_books (MainApp.db app2)
        ++ [Sql.mkissue (Sql.issued_books_auto (MainApp.db app2))
              (Some 1%Z) (Some 1%Z) (Some today0) None]
  ∧ (1%Z ∉ (Sql.select_available_books r.1.2).*1).
Proof.
  intros r.
  pose proof (C1_issue_available_book today0 (MainApp.issues app2) r.1.1
                (MainApp.db app2) r.1.2 1%Z 1%Z) as H.
  destruct H as (_ & Hst & Hi & Hav & _).
  - vm_compute. reflexivity.
  - vm_compute. reflexivity.
  - exists (Sql.mkbook 1 "Compilers" (Some "Aho") (Some 2006%Z) Sql.Available).
    split; [vm_compute; apply list_elem_of_here | split; reflexivity].
  - vm_compute. reflexivity.
  - split; [exact Hst | split; [exact Hi | exact Hav]].
Defined.


(* ===================================================================== *)
(** * Search *)
(* ===================================================================== *)






Example like_examples :
  Sql.like "%rao%" "Asha Rao" = true ∧ Sql.like "%CS%" "cs" = true
  ∧ Sql.like "%_%" "Asha" = true ∧ Sql.like "%_%" "" = false
  ∧ Sql.like "%100\%%" "100% wool" = true ∧ Sql.like "%100\%%" "1000" = false
  ∧ Sql.like "%a_a%" "Asha" = false ∧ Sql.like "%s_a%" "Asha" = true.
Proof. vm_compute. repeat split. Qed.

(** ** LIKE on a plain query *)









Example search_rao :
  Tk.rows (StudentPage.tree
             (StudentPage.search_students (searching " rao ") (MainApp.db app1)))
  = [Sql.mkstudent 1 "Asha Rao" (Some 20%Z) (Some "CS") (Some 2%Z)].
Proof. vm_compute. reflexivity. Qed.



(* ===================================================================== *)
(** * The issue listing *)
(* ===================================================================== *)

Global Instance newest_first_total : Total Sql.newest_first.
Proof. intros r1 r2. unfold Sql.newest_first. lia. Qed.

Global Instance newest_first_trans : Transitive Sql.newest_first.
Proof. intros r1 r2 r3. unfold Sql.newest_first. lia. Qed.

(** The rows of the join: one per issue record, student and book that
    match. *)
Lemma join_issued_spec (db : Sql.DB) (r : Sql.issued_row) :
  r ∈ Sql.join_issued db ↔
  ∃ ib s b,
    ib ∈ Sql.issued_books db ∧ s ∈ Sql.students db ∧ b ∈ Sql.books db
    ∧ Sql.ib_student_id ib = Some (Sql.student_id s)
    ∧ Sql.ib_book_id ib = Some (Sql.book_id b)
    ∧ r = Sql.mkissued_row (Sql.issue_id ib) (Sql.student_id s) (Sql.name s)
            (Sql.book_id b) (Sql.title b) (Sql.issue_date ib) (Sql.return_date ib).
Proof.
  unfold Sql.join_issued. rewrite list_elem_of_bind. split.
  - intros (ib & Hr & Hib).
    apply list_elem_of_bind in Hr as (s & Hr & Hs).
    apply list_elem_of_bind in Hr as (b & Hr & Hb).
    apply list_elem_of_singleton in Hr.
    apply list_elem_of_filter in Hs as [? ?].
    apply list_elem_of_filter in Hb as [? ?].
    exists ib, s, b. done.
  - intros (ib & s & b & Hib & Hs & Hb & Es & Eb & ->).
    exists ib. split; [| done].
    apply list_elem_of_bind. exists s. split; [| by apply list_elem_of_filter].
    apply list_elem_of_bind. exists b. split; [| by apply list_elem_of_filter].
    by apply list_elem_of_singleton.
Qed.

Lemma select_issued_perm (db : Sql.DB) :
  Sql.select_issued db ≡ₚ Sql.join_issued db.
Proof. apply merge_sort_Permutation. Qed.

Lemma select_issued_spec (db : Sql.DB) (r : Sql.issued_row) :
  r ∈ Sql.select_issued db ↔ r ∈ Sql.join_issued db.
Proof. by rewrite select_issued_perm. Qed.

Lemma select_issued_sorted (db : Sql.DB) :
  StronglySorted Sql.newest_first (Sql.select_issued db).
Proof. apply StronglySorted_merge_sort; apply _. Qed.

(** The text of the return date is empty exactly for an open record. *)
Lemma format_open (r : Sql.issued_row) :
  IssuePage.already_returned (IssuePage.format r) = false
  ↔ Sql.r_return_date r = None.
Proof.
  unfold IssuePage.already_returned, IssuePage.format. simpl.
  destruct (Sql.r_return_date r) as [d|]; simpl.
  - rewrite !bool_decide_eq_false_2; [done | |].
    + apply isoformat_not_None.
    + apply isoformat_not_empty.
  - done.
Qed.

Lemma format_return_date_empty (r : Sql.issued_row) :
  IssuePage.ReturnDate (IssuePage.format r) = "" ↔ Sql.r_return_date r = None.
Proof.
  unfold IssuePage.format. simpl.
  destruct (Sql.r_return_date r) as [d|]; [| done].
  split; [| done]. intros H. by apply isoformat_not_empty in H.
Qed.

(** A row of the table, when the table shows the store, is an issue record
    of the store with its student and its book. *)
Lemma listed_row_origin (db : Sql.DB) (vals : IssuePage.row) :
  vals ∈ IssuePage.format <$> Sql.select_issued db →
  ∃ ib s b,
    ib ∈ Sql.issued_books db ∧ s ∈ Sql.students db ∧ b ∈ Sql.books db
    ∧ Sql.ib_student_id ib = Some (Sql.student_id s)
    ∧ Sql.ib_book_id ib = Some (Sql.book_id b)
    ∧ IssuePage.IssueID vals = Sql.issue_id ib
    ∧ IssuePage.BookID vals = Sql.book_id b
    ∧ (IssuePage.ReturnDate vals = "" ↔ Sql.return_date ib = None)
    ∧ (IssuePage.already_returned vals = false ↔ Sql.return_date ib = None)
    ∧ (∀ d, Sql.return_date ib = Some d → IssuePage.ReturnDate vals = Py.isoformat d).
Proof.
  intros H. apply list_elem_of_fmap in H as (r & -> & Hr).
  apply select_issued_spec, join_issued_spec in Hr
    as (ib & s & b & ? & ? & ? & ? & ? & ->).
  exists ib, s, b. split_and!; try done.
  - apply (format_return_date_empty (Sql.mkissued_row _ _ _ _ _ _ _)).
  - apply (format_open (Sql.mkissued_row _ _ _ _ _ _ _)).
  - intros d Hd. unfold IssuePage.format. simpl. by rewrite Hd.
Qed.

(** ** Rows by key *)

Lemma filter_none {A} (P : A → Prop) `{!∀ x, Decision (P x)} (l : list A) :
  (∀ x, x ∈ l → ¬ P x) → filter P l = [].
Proof.
  induction l as [|a l IH]; intros Hl; [done |].
  rewrite filter_cons_False by (apply Hl, list_elem_of_here).
  apply IH. intros x Hx. by apply Hl, list_elem_of_further.
Qed.

(** A key selects at most one row of a table whose keys are distinct. *)
Lemma filter_key_unique {A} (key : A → Z) (v : option Z) (l : list A) :
  NoDup (key <$> l) →
  (length (filter (λ x, v = Some (key x)) l) ≤ 1)%nat.
Proof.
  induction l as [|a l IH]; intros Hnd; [simpl; lia |].
  rewrite fmap_cons in Hnd. apply NoDup_cons in Hnd as [Ha Hnd].
  rewrite filter_cons. case_decide as E; [| by apply IH].
  rewrite filter_none; [simpl; lia |].
  intros x Hx Ex. apply Ha.
  replace (key a) with (key x) by congruence. by apply list_elem_of_fmap_2.
Qed.

Lemma bind_at_most_one {A B} (f : A → list B) (l : list A) :
  (length l ≤ 1)%nat →
  l ≫= f = match head l with Some x => f x | None => [] end.
Proof.
  destruct l as [|x [|y l]]; simpl; intros H; [done | | lia].
  by rewrite app_nil_r.
Qed.

(** With distinct primary keys, the join has one row per issue record
    whose two references find their rows, in the order of the records. *)
Lemma join_issued_by_key (db : Sql.DB) :
  NoDup (Sql.student_id <$> Sql.students db) →
  NoDup (Sql.book_id <$> Sql.books db) →
  Sql.join_issued db = omap (joined db) (Sql.issued_books db).
Proof.
  intros Hs Hb. unfold Sql.join_issued.
  induction (Sql.issued_books db) as [|ib ibs IH]; [done |].
  rewrite bind_cons, IH. clear IH.
  change (omap (joined db) (ib :: ibs))
    with (match joined db ib with
          | Some r => r :: omap (joined db) ibs
          | None => omap (joined db) ibs
          end).
  rewrite (bind_at_most_one _ (filter _ (Sql.students db)))
    by apply (filter_key_unique Sql.student_id), Hs.
  unfold joined.
  destruct (head (filter _ (Sql.students db))) as [s|]; simpl; [| done].
  rewrite (bind_at_most_one _ (filter _ (Sql.books db)))
    by apply (filter_key_unique Sql.book_id), Hb.
  by destruct (head (filter _ (Sql.books db))) as [b|].
Qed.

Lemma head_filter_is_Some {A} (P : A → Prop) `{!∀ x, Decision (P x)} (l : list A) :
  is_Some (head (filter P l)) ↔ ∃ x, x ∈ l ∧ P x.
Proof.
  split.
  - intros [x Hx]. exists x.
    assert (x ∈ filter P l) as Hin.
    { destruct (filter P l); simplify_eq/=. apply list_elem_of_here. }
    apply list_elem_of_filter in Hin. tauto.
  - intros (x & Hx & HP).
    assert (x ∈ filter P l) as Hin by by apply list_elem_of_filter.
    destruct (filter P l); [by apply elem_of_nil in Hin | by eexists].
Qed.

(** A record is joined exactly when both its references find a row. *)
Lemma joined_is_Some (db : Sql.DB) (ib : Sql.issue) :
  is_Some (joined db ib) ↔ references_student db ib ∧ references_book db ib.
Proof.
  unfold joined, references_student, references_book.
  rewrite <- !(head_filter_is_Some (λ _, _ = _)).
  destruct (head (filter _ (Sql.students db))) as [s|]; simpl.
  - destruct (head (filter _ (Sql.books db))) as [b|]; simpl.
    + split; [by intros; split; eexists | by intros; eexists].
    + split; [by intros [? ?] | by intros [_ [? ?]]].
  - split; [by intros [? ?] | by intros [[? ?] _]].
Qed.

Lemma joined_issue_id (db : Sql.DB) (ib : Sql.issue) (r : Sql.issued_row) :
  joined db ib = Some r → Sql.r_issue_id r = Sql.issue_id ib.
Proof.
  unfold joined. intros H.
  destruct (head (filter _ (Sql.students db))); simpl in H; [| done].
  destruct (head (filter _ (Sql.books db))); simpl in H; [| done].
  by simplify_eq.
Qed.

Lemma omap_all_some {A B} (f : A → option B) (g : B → Z) (h : A → Z) (l : list A) :
  (∀ x, x ∈ l → is_Some (f x)) →
  (∀ x y, f x = Some y → g y = h x) →
  g <$> omap f l = h <$> l.
Proof.
  intros Hsome Hg. induction l as [|x l IH]; [done |].
  destruct (Hsome x) as [y Hy]; [apply list_elem_of_here |].
  change (omap f (x :: l))
    with (match f x with Some y => y :: omap f l | None => omap f l end).
  rewrite Hy, !fmap_cons, (Hg x y Hy). f_equal.
  apply IH. intros z Hz. by apply Hsome, list_elem_of_further.
Qed.

(** C6, as the code has it.  [fetch_issued] fills the table with the rows
    of the inner join: a row for each issue record, student and book such
    that the record references that student and that book, with the
    student's name, the book's title and the two dates as ISO strings, the
    empty string for a NULL date; the newest issue id comes first.  With
    distinct primary keys (as in every state the program reaches) that is
    one row per issue record both of whose references find a row, and no
    row for the others; when every record is of that kind the table lists
    all issue records. *)
Theorem C6_list_issued_is_inner_join (p : IssuePage.page) (db : Sql.DB) :
  NoDup (Sql.student_id <$> Sql.students db) →
  NoDup (Sql.book_id <$> Sql.books db) →
  let rows := Tk.rows (IssuePage.tree (IssuePage.fetch_issued p db)) in
  (∀ row, row ∈ rows ↔
     ∃ ib s b,
       ib ∈ Sql.issued_books db ∧ s ∈ Sql.students db ∧ b ∈ Sql.books db
       ∧ Sql.ib_student_id ib = Some (Sql.student_id s)
       ∧ Sql.ib_book_id ib = Some (Sql.book_id b)
       ∧ row = IssuePage.mkrow (Sql.issue_id ib) (Sql.student_id s) (Sql.name s)
                 (Sql.book_id b) (Sql.title b)
                 (date_text (Sql.issue_date ib)) (date_text (Sql.return_date ib)))
  ∧ rows ≡ₚ IssuePage.format <$> omap (joined db) (Sql.issued_books db)
  ∧ StronglySorted newest_row_first rows
  ∧ (∀ ib, is_Some (joined db ib) ↔ references_student db ib ∧ references_book db ib)
  ∧ ((∀ ib, ib ∈ Sql.issued_books db → references_student db ib ∧ references_book db ib) →
     IssuePage.IssueID <$> rows ≡ₚ Sql.issue_id <$> Sql.issued_books db).
Proof.
  intros Hs Hb rows. subst rows. simpl.
  assert (Sql.select_issued db ≡ₚ omap (joined db) (Sql.issued_books db)) as HP.
  { rewrite select_issued_perm. by rewrite join_issued_by_key. }
  split_and!.
  - intros row. rewrite list_elem_of_fmap. split.
    + intros (r & -> & Hr).
      apply select_issued_spec, join_issued_spec in Hr
        as (ib & s & b & ? & ? & ? & ? & ? & ->).
      exists ib, s, b. split_and!; done.
    + intros (ib & s & b & ? & ? & ? & ? & ? & ->).
      eexists. split; [| apply select_issued_spec, join_issued_spec;
                         by exists ib, s, b].
      done.
  - by rewrite HP.
  - eapply StronglySorted_fmap; [| apply select_issued_sorted].
    intros r1 r2. by unfold Sql.newest_first, newest_row_first.
  - apply joined_is_Some.
  - intros Hall. rewrite HP, <- list_fmap_compose.
    rewrite (omap_all_some _ _ Sql.issue_id); [done | |].
    + intros ib Hib. by apply joined_is_Some, Hall.
    + intros ib r Hr. simpl. by eapply joined_issue_id.
Qed.

Lemma C6_witness :
  let rows :=
    Tk.rows (IssuePage.tree
               (IssuePage.fetch_issued (MainApp.issues app3) (MainApp.db app3))) in
  rows ≡ₚ IssuePage.format
            <$> omap (joined (MainApp.db app3)) (Sql.issued_books (MainApp.db app3))
  ∧ StronglySorted newest_row_first rows.
Proof.
  intros rows.
  pose proof (C6_list_issued_is_inner_join (MainApp.issues app3) (MainApp.db app3))
    as H.
  destruct H as (_ & HP & HS & _).
  - vm_compute. repeat constructor. by intros ?%elem_of_nil.
  - vm_compute. repeat constructor. by intros ?%elem_of_nil.
  - split; [exact HP | exact HS].
Defined.

(** C6, as the claim words it, fails.  After "Issue Book" is pressed twice
    in a row the store has two issue records, the second with a NULL
    [book_id], and the table lists only the first. *)
Lemma C6_counterexample :
  MainApp.reachable app4
  ∧ Sql.issue_id <$> Sql.issued_books (MainApp.db app4) = [1%Z; 2%Z]
  ∧ Sql.ib_book_id <$> Sql.issued_books (MainApp.db app4) = [Some 1%Z; None]
  ∧ IssuePage.IssueID
      <$> Tk.rows (IssuePage.tree
                     (IssuePage.fetch_issued (MainApp.issues app4) (MainApp.db app4)))
    = [1%Z]
  ∧ ¬ (IssuePage.IssueID
         <$> Tk.rows (IssuePage.tree
                        (IssuePage.fetch_issued (MainApp.issues app4) (MainApp.db app4)))
       ≡ₚ Sql.issue_id <$> Sql.issued_books (MainApp.db app4)).
Proof.
  split; [apply reachable_app4 |].
  split; [vm_compute; reflexivity |].
  split; [vm_compute; reflexivity |].
  split; [vm_compute; reflexivity |].
  intros H. apply Permutation_length in H. vm_compute in H. discriminate.
Qed.


(* ===================================================================== *)
(** * Return *)
(* ===================================================================== *)

Lemma update_return_date_spec today iid (db : Sql.DB) :
  ∃ db1,
    Sql.update_return_date today iid db = inr db1
    ∧ Sql.students db1 = Sql.students db
    ∧ Sql.books db1 = Sql.books db
    ∧ Sql.students_auto db1 = Sql.students_auto db
    ∧ Sql.books_auto db1 = Sql.books_auto db
    ∧ Sql.issued_books_auto db1 = Sql.issued_books_auto db
    ∧ Forall2 (λ i i',
         Sql.issue_id i' = Sql.issue_id i
         ∧ Sql.ib_student_id i' = Sql.ib_student_id i
         ∧ Sql.ib_book_id i' = Sql.ib_book_id i
         ∧ Sql.issue_date i' = Sql.issue_date i
         ∧ (Sql.issue_id i = iid → Sql.return_date i' = Some today)
         ∧ (Sql.issue_id i ≠ iid → i' = i))
       (Sql.issued_books db) (Sql.issued_books db1).
Proof.
  eexists. split; [reflexivity |]. simpl. split_and!; try done.
  apply Forall2_fmap_r, Forall_Forall2_diag, Forall_forall.
  intros i _. simpl.
  destruct (decide (Sql.issue_id i = iid)); simpl; split_and!; done.
Qed.

Lemma update_book_status_total st bid (db : Sql.DB) :
  ∃ db', Sql.update_book_status st bid db = inr db'.
Proof. by eexists. Qed.

(** What [return_book] does on an open row, once confirmed. *)
Lemma return_book_open today (p : IssuePage.page) (db : Sql.DB) sel vals :
  Tk.focus (IssuePage.tree p) = Some sel →
  Tk.rows (IssuePage.tree p) !! sel = Some vals →
  IssuePage.already_returned vals = false →
  ∃ db1 db2,
    Sql.update_return_date today (IssuePage.IssueID vals) db = inr db1
    ∧ Sql.update_book_status Sql.Available (Some (IssuePage.BookID vals)) db1
      = inr db2
    ∧ IssuePage.return_book true today p db
      = (IssuePage.refresh_all p db2, db2, [Tk.showinfo "Success" "Book returned."]).
Proof.
  intros Hf Hr Ha.
  eexists _, _. split_and!; [reflexivity | reflexivity |].
  unfold IssuePage.return_book. rewrite Hf, Hr, Ha. reflexivity.
Qed.

(** On a row that shows a return date the handler only shows its notice. *)
Lemma return_book_closed yes today (p : IssuePage.page) (db : Sql.DB) sel vals :
  Tk.focus (IssuePage.tree p) = Some sel →
  Tk.rows (IssuePage.tree p) !! sel = Some vals →
  IssuePage.already_returned vals = true →
  IssuePage.return_book yes today p db
    = (p, db, [Tk.showinfo "Info" "This book is already returned."]).
Proof.
  intros Hf Hr Ha. unfold IssuePage.return_book. by rewrite Hf, Hr, Ha.
Qed.

Lemma Forall2_return_set today iid (l l' : list Sql.issue) :
  Forall2 (λ i i',
     Sql.issue_id i' = Sql.issue_id i
     ∧ Sql.ib_student_id i' = Sql.ib_student_id i
     ∧ Sql.ib_book_id i' = Sql.ib_book_id i
     ∧ Sql.issue_date i' = Sql.issue_date i
     ∧ (Sql.issue_id i = iid → Sql.return_date i' = Some today)
     ∧ (Sql.issue_id i ≠ iid → i' = i)) l l' →
  (∀ i', i' ∈ l' → Sql.issue_id i' = iid → Sql.return_date i' = Some today)
  ∧ (∀ i', i' ∈ l' → Sql.issue_id i' ≠ iid → i' ∈ l)
  ∧ (∀ i, i ∈ l →
       ∃ i', i' ∈ l' ∧ Sql.issue_id i' = Sql.issue_id i
             ∧ Sql.ib_student_id i' = Sql.ib_student_id i
             ∧ Sql.ib_book_id i' = Sql.ib_book_id i)
  ∧ (∀ i', i' ∈ l' →
       ∃ i, i ∈ l ∧ Sql.ib_book_id i = Sql.ib_book_id i').
Proof.
  intros HF. split_and!.
  - intros i' Hi' E. apply list_elem_of_lookup in Hi' as [k Hk].
    destruct (Forall2_lookup_r _ _ _ _ _ HF Hk) as (i & Hi & Hid & _ & _ & _ & Hr & _).
    apply Hr. congruence.
  - intros i' Hi' E. apply list_elem_of_lookup in Hi' as [k Hk].
    destruct (Forall2_lookup_r _ _ _ _ _ HF Hk) as (i & Hi & Hid & _ & _ & _ & _ & Hne).
    rewrite Hne by congruence. by eapply list_elem_of_lookup_2.
  - intros i Hi. apply list_elem_of_lookup in Hi as [k Hk].
    destruct (Forall2_lookup_l _ _ _ _ _ HF Hk) as (i' & Hi' & ? & ? & ? & _).
    exists i'. split; [by eapply list_elem_of_lookup_2 | done].
  - intros i' Hi'. apply list_elem_of_lookup in Hi' as [k Hk].
    destruct (Forall2_lookup_r _ _ _ _ _ HF Hk) as (i & Hi & _ & _ & ? & _).
    exists i. split; [by eapply list_elem_of_lookup_2 | done].
Qed.

Lemma set_focus_lookup {R} (t : Tk.Treeview R) (i : nat) (r : R) :
  Tk.rows t !! i = Some r →
  Tk.focus (Tk.set_focus i t) = Some i ∧ Tk.rows (Tk.set_focus i t) = Tk.rows t.
Proof.
  intros H. unfold Tk.set_focus.
  apply lookup_lt_Some in H. by rewrite decide_True.
Qed.

(** C2.  The table shows the store, and the focus is on a row without a
    return date.  Then the row stands for an open issue record; a confirmed
    [return_book] sets the return date of that record to today and the
    status of its book to Available; the refreshed table still has a row
    for the record; and [return_book] on such a row, whatever the answer
    and the date, only shows "This book is already returned.": the store
    and the page are as they were. *)
Theorem C2_return_then_already_returned
    (today today2 : Py.date) (yes2 : bool)
    (p : IssuePage.page) (db : Sql.DB) (sel : nat) (vals : IssuePage.row) :
  Tk.rows (IssuePage.tree p) = IssuePage.format <$> Sql.select_issued db →
  Tk.focus (IssuePage.tree p) = Some sel →
  Tk.rows (IssuePage.tree p) !! sel = Some vals →
  IssuePage.ReturnDate vals = "" →
  ∃ p1 db1,
    IssuePage.return_book true today p db
      = (p1, db1, [Tk.showinfo "Success" "Book returned."])
    ∧ (∃ ib, ib ∈ Sql.issued_books db
             ∧ Sql.issue_id ib = IssuePage.IssueID vals
             ∧ Sql.ib_book_id ib = Some (IssuePage.BookID vals)
             ∧ Sql.return_date ib = None)
    ∧ (∃ ib, ib ∈ Sql.issued_books db1
             ∧ Sql.issue_id ib = IssuePage.IssueID vals)
    ∧ (∀ ib, ib ∈ Sql.issued_books db1 →
             Sql.issue_id ib = IssuePage.IssueID vals →
             Sql.return_date ib = Some today)
    ∧ (∃ b, b ∈ Sql.books db1 ∧ Sql.book_id b = IssuePage.BookID vals)
    ∧ (∀ b, b ∈ Sql.books db1 →
            Sql.book_id b = IssuePage.BookID vals →
            Sql.status b = Sql.Available)
    ∧ (∃ sel2 vals2,
          Tk.rows (IssuePage.tree p1) !! sel2 = Some vals2
          ∧ IssuePage.IssueID vals2 = IssuePage.IssueID vals)
    ∧ (∀ sel2 vals2,
          Tk.rows (IssuePage.tree p1) !! sel2 = Some vals2 →
          IssuePage.IssueID vals2 = IssuePage.IssueID vals →
          IssuePage.return_book yes2 today2 (focus_issued sel2 p1) db1
            = (focus_issued sel2 p1, db1,
               [Tk.showinfo "Info" "This book is already returned."])).
Proof.
  intros Hsync Hf Hr Hopen.
  assert (vals ∈ IssuePage.format <$> Sql.select_issued db) as Hin.
  { rewrite <- Hsync. by eapply list_elem_of_lookup_2. }
  apply listed_row_origin in Hin
    as (ib & s & b & Hib & Hs & Hb & Es & Eb & Eid & Ebid & Hempty & Hal & _).
  assert (IssuePage.already_returned vals = false) as Ha.
  { apply Hal, Hempty, Hopen. }
  destruct (return_book_open today p db sel vals Hf Hr Ha)
    as (db1 & db2 & E1 & E2 & E).
  destruct (update_return_date_spec today (IssuePage.IssueID vals) db)
    as (db1' & E1' & Hs1 & Hb1 & _ & _ & _ & HFi).
  rewrite E1 in E1'. simplify_eq.
  apply update_book_status_books in E2 as (Hs2 & Hi2 & _ & _ & _ & HFb).
  apply Forall2_return_set in HFi as (Hret & _ & Hiex & _).
  apply Forall2_status_set in HFb as (Hst' & _ & Hbex & _).
  assert (∀ b0, b0 ∈ Sql.books db2 → Sql.book_id b0 = IssuePage.BookID vals →
                Sql.status b0 = Sql.Available) as Hst.
  { intros b0 Hb0 E0. apply Hst'; congruence. }
  destruct (Hiex ib Hib) as (ib' & Hib' & Eid' & Es' & Eb').
  rewrite Hb1 in Hbex. destruct (Hbex b Hb) as (b' & Hb' & Ebid').
  exists (IssuePage.refresh_all p db2), db2. split_and!.
  - exact E.
  - exists ib. split_and!; [done | congruence | congruence | by apply Hempty].
  - exists ib'. rewrite Hi2. split; congruence.
  - intros i Hi. rewrite Hi2 in Hi. by apply Hret.
  - exists b'. split; congruence.
  - exact Hst.
  - assert (IssuePage.format
              (Sql.mkissued_row (Sql.issue_id ib') (Sql.student_id s) (Sql.name s)
                 (Sql.book_id b') (Sql.title b') (Sql.issue_date ib')
                 (Sql.return_date ib'))
            ∈ Tk.rows (IssuePage.tree (IssuePage.refresh_all p db2))) as Hrow.
    { simpl. apply list_elem_of_fmap_2, select_issued_spec, join_issued_spec.
      exists ib', s, b'. rewrite Hi2, Hs2, Hs1. split_and!; try done; congruence. }
    apply list_elem_of_lookup in Hrow as [sel2 Hsel2].
    eexists sel2, _. split; [exact Hsel2 |]. simpl. congruence.
  - intros sel2 vals2 Hr2 Eid2.
    destruct (set_focus_lookup _ _ _ Hr2) as [Hf2 Hrows2].
    apply (return_book_closed yes2 today2 _ db2 sel2 vals2).
    + exact Hf2.
    + simpl. simpl in Hrows2. by rewrite Hrows2.
    + assert (vals2 ∈ IssuePage.format <$> Sql.select_issued db2) as Hin2.
      { by eapply list_elem_of_lookup_2. }
      apply listed_row_origin in Hin2
        as (i2 & _ & _ & Hi2' & _ & _ & _ & _ & Ei2 & _ & _ & Hal2 & _).
      destruct (IssuePage.already_returned vals2) eqn:Ea; [done |].
      pose proof (proj1 Hal2 eq_refl) as Hn. rewrite Hi2 in Hi2'.
      rewrite (Hret i2 Hi2') in Hn by congruence. done.
Qed.

Lemma C2_witness :
  let p := focus_issued 0 (MainApp.issues app3) in
  ∃ p1 db1,
    IssuePage.return_book true today0 p (MainApp.db app3)
      = (p1, db1, [Tk.showinfo "Success" "Book returned."])
    ∧ (∀ ib, ib ∈ Sql.issued_books db1 →
             Sql.issue_id ib = 1%Z → Sql.return_date ib = Some today0)
    ∧ (∀ b, b ∈ Sql.books db1 → Sql.book_id b = 1%Z → Sql.status b = Sql.Available)
    ∧ (∀ sel2 vals2,
          Tk.rows (IssuePage.tree p1) !! sel2 = Some vals2 →
          IssuePage.IssueID vals2 = 1%Z →
          IssuePage.return_book true today0 (focus_issued sel2 p1) db1
            = (focus_issued sel2 p1, db1,
               [Tk.showinfo "Info" "This book is already returned."])).
Proof.
  intros p.
  pose proof (C2_return_then_already_returned today0 today0 true p
                (MainApp.db app3) 0%nat
                (IssuePage.mkrow 1 1 "Asha Rao" 1 "Compilers" "2024-03-05" ""))
    as H.
  destruct H as (p1 & db1 & E & _ & _ & Hret & _ & Hst & _ & Hagain);
    [vm_compute; reflexivity .. |].
  exists p1, db1. split_and!; [exact E | exact Hret | exact Hst | exact Hagain].
Defined.


(* ===================================================================== *)
(** * The invariant of the issue and return workflow *)
(* ===================================================================== *)

(** ** Lists *)

Lemma filter_mono_sublist {A} (P : A → Prop) `{!∀ x, Decision (P x)}
    (l1 l2 : list A) :
  sublist l1 l2 → sublist (filter P l1) (filter P l2).
Proof.
  induction 1 as [|x l1 l2 _ IH|x l1 l2 _ IH]; [done | |].
  - rewrite !filter_cons. case_decide; [by constructor | done].
  - rewrite filter_cons. case_decide; [by constructor | done].
Qed.

Lemma length_filter_fmap {A} (P : A → Prop) `{!∀ x, Decision (P x)}
    (f : A → A) (l : list A) :
  (∀ x, P (f x) → P x) →
  (length (filter P (f <$> l)) ≤ length (filter P l))%nat.
Proof.
  intros Hf. induction l as [|x l IH]; [done |].
  rewrite fmap_cons, !filter_cons.
  destruct (decide (P (f x))) as [Hfx|Hfx].
  - rewrite decide_True by auto. simpl. lia.
  - case_decide; simpl; lia.
Qed.

(** Two members of a list that satisfy a property which at most one member
    satisfies are equal. *)
Lemma filter_at_most_one {A} (P : A → Prop) `{!∀ x, Decision (P x)}
    (l : list A) (x y : A) :
  (length (filter P l) ≤ 1)%nat → x ∈ l → P x → y ∈ l → P y → x = y.
Proof.
  intros Hlen Hx HPx Hy HPy.
  assert (x ∈ filter P l) as Hx' by by apply list_elem_of_filter.
  assert (y ∈ filter P l) as Hy' by by apply list_elem_of_filter.
  destruct (filter P l) as [|z [|z' l']]; simpl in Hlen; [| | lia].
  - by apply elem_of_nil in Hx'.
  - apply list_elem_of_singleton in Hx', Hy'. congruence.
Qed.

Lemma length_le_0_nil {A} (l : list A) : (length l ≤ 0)%nat → l = [].
Proof. destruct l; simpl; [done | lia]. Qed.

(** ** The store *)

(** [consistent] looks at the two tables and the counter of the books. *)
Lemma consistent_ext (db db' : Sql.DB) :
  Sql.books db' = Sql.books db →
  Sql.issued_books db' = Sql.issued_books db →
  Sql.books_auto db' = Sql.books_auto db →
  consistent db → consistent db'.
Proof.
  intros Eb Ei Ea [H1 H2 H3 H4].
  assert (∀ bid, open_issues_of bid db' = open_issues_of bid db) as Eo.
  { intros bid. unfold open_issues_of. by rewrite Ei. }
  split.
  - intros bid. rewrite Eo. apply H1.
  - intros b. rewrite Eb, Eo. apply H2.
  - intros i bid. rewrite Ei, Eb. apply H3.
  - intros b. rewrite Eb, Ea. apply H4.
Qed.

Lemma consistent_empty : consistent Sql.empty.
Proof.
  split; simpl.
  - intros bid. unfold open_issues_of. simpl. lia.
  - by intros b ?%elem_of_nil.
  - by intros i bid ?%elem_of_nil.
  - by intros b ?%elem_of_nil.
Qed.

(** Closes [consistent db'] when [db'] has the books, issue records and
    book counter of a store [H] says is consistent. *)
Ltac same_books H := eapply consistent_ext; [| | | exact H]; reflexivity.

Lemma consistent_insert_student name age course year (db : Sql.DB) :
  consistent db → consistent (after (Sql.insert_student name age course year db)).
Proof.
  intros H. unfold Sql.insert_student.
  repeat case_match; simpl; try done. same_books H.
Qed.

Lemma consistent_update_student name age course year sid (db : Sql.DB) :
  consistent db →
  consistent (after (Sql.update_student name age course year sid db)).
Proof.
  intros H. unfold Sql.update_student.
  repeat case_match; simpl; try done; same_books H.
Qed.

Lemma consistent_delete_student sid (db : Sql.DB) :
  consistent db → consistent (after (Sql.delete_student sid db)).
Proof.
  intros [H1 H2 H3 H4]. simpl.
  assert (∀ bid,
    sublist (open_issues_of bid
               (Sql.mkDB (filter (λ s, Sql.student_id s ≠ sid) (Sql.students db))
                  (Sql.books db)
                  (filter (λ i, Sql.ib_student_id i ≠ Some sid) (Sql.issued_books db))
                  (Sql.students_auto db) (Sql.books_auto db)
                  (Sql.issued_books_auto db)))
            (open_issues_of bid db)) as Hsub.
  { intros bid. apply filter_mono_sublist, sublist_filter. }
  split; simpl.
  - intros bid. etrans; [apply sublist_length, Hsub | apply H1].
  - intros b Hb Hs. apply sublist_nil_r. rewrite <- (H2 b Hb Hs). apply Hsub.
  - intros i bid Hi. apply list_elem_of_filter in Hi as [_ Hi]. by apply H3.
  - apply H4.
Qed.

Lemma consistent_insert_book title author pub_year (db : Sql.DB) :
  consistent db → consistent (after (Sql.insert_book title author pub_year db)).
Proof.
  intros H. pose proof H as [H1 H2 H3 H4]. unfold Sql.insert_book.
  destruct (Sql.check_book _ _ _); simpl; [done |].
  case_decide; simpl; [| done].
  split; simpl.
  - apply H1.
  - intros b [Hb| ->%list_elem_of_singleton]%elem_of_app Hs.
    + by apply H2.
    + simpl. apply filter_none. intros i Hi [Eb _].
      apply (H3 i _ Hi) in Eb. apply list_elem_of_fmap in Eb as (b & E & Hb).
      apply H4 in Hb. lia.
  - intros i bid Hi Eb. rewrite fmap_app. apply elem_of_app. left. by eapply H3.
  - intros b [Hb| ->%list_elem_of_singleton]%elem_of_app.
    + apply H4 in Hb. lia.
    + simpl. lia.
Qed.

Lemma consistent_update_book title author pub_year bid (db : Sql.DB) :
  consistent db →
  consistent (after (Sql.update_book title author pub_year bid db)).
Proof.
  intros H. pose proof H as [H1 H2 H3 H4]. unfold Sql.update_book.
  destruct (if Sql.has_book bid db then _ else _); simpl; [done |].
  split; simpl.
  - apply H1.
  - intros b' Hb' Hs. apply list_elem_of_fmap in Hb' as (b & -> & Hb).
    case_decide; simpl in *; by apply H2.
  - intros i k Hi Ek. rewrite <- list_fmap_compose.
    apply (H3 i k Hi) in Ek. apply list_elem_of_fmap in Ek as (b & -> & Hb).
    apply list_elem_of_fmap. exists b. split; [| done].
    simpl. by case_decide.
  - intros b' Hb'. apply list_elem_of_fmap in Hb' as (b & -> & Hb).
    case_decide; simpl; by apply H4.
Qed.

Lemma consistent_delete_book bid (db : Sql.DB) :
  consistent db → consistent (after (Sql.delete_book bid db)).
Proof.
  intros [H1 H2 H3 H4]. simpl.
  assert (∀ k,
    sublist (open_issues_of k
               (Sql.mkDB (Sql.students db)
                  (filter (λ b, Sql.book_id b ≠ bid) (Sql.books db))
                  (filter (λ i, Sql.ib_book_id i ≠ Some bid) (Sql.issued_books db))
                  (Sql.students_auto db) (Sql.books_auto db)
                  (Sql.issued_books_auto db)))
            (open_issues_of k db)) as Hsub.
  { intros k. apply filter_mono_sublist, sublist_filter. }
  split; simpl.
  - intros k. etrans; [apply sublist_length, Hsub | apply H1].
  - intros b Hb Hs. apply list_elem_of_filter in Hb as [_ Hb].
    apply sublist_nil_r. rewrite <- (H2 b Hb Hs). apply Hsub.
  - intros i k Hi Ek. apply list_elem_of_filter in Hi as [Hne Hi].
    apply (H3 i k Hi) in Ek as Hk.
    apply list_elem_of_fmap in Hk as (b & -> & Hb).
    apply list_elem_of_fmap_2, list_elem_of_filter. split; [congruence | done].
  - intros b Hb. apply list_elem_of_filter in Hb as [_ Hb]. by apply H4.
Qed.

Lemma open_issues_of_app bid (db : Sql.DB) (l : list Sql.issue) :
  filter (λ i, Sql.ib_book_id i = Some bid ∧ Sql.return_date i = None)
         (Sql.issued_books db ++ l)
  = open_issues_of bid db
    ++ filter (λ i, Sql.ib_book_id i = Some bid ∧ Sql.return_date i = None) l.
Proof. apply filter_app. Qed.

(** Issuing an Available book keeps the store consistent. *)
Lemma consistent_issue sid bid today (db db1 db2 : Sql.DB) :
  consistent db →
  (∀ k, bid = Some k →
        ∃ b, b ∈ Sql.books db ∧ Sql.book_id b = k ∧ Sql.status b = Sql.Available) →
  Sql.insert_issue sid bid today db = inr db1 →
  Sql.update_book_status Sql.Issued bid db1 = inr db2 →
  consistent db2.
Proof.
  intros [H1 H2 H3 H4] Hav E1 E2.
  apply insert_issue_success in E1 as (_ & Eb1 & Ei1 & _ & Ea1 & _).
  apply update_book_status_books in E2 as (_ & Ei2 & _ & Ea2 & _ & HF).
  rewrite Eb1 in HF. apply Forall2_status_set in HF as (Hst & Hsame & Hfwd & Hback).
  set (new := Sql.mkissue (Sql.issued_books_auto db) sid bid (Some today) None) in *.
  assert (∀ k, open_issues_of k db2
               = open_issues_of k db ++ (if decide (bid = Some k) then [new] else []))
    as Eo.
  { intros k. unfold open_issues_of at 1. rewrite Ei2, Ei1, open_issues_of_app.
    f_equal. rewrite filter_cons, filter_nil. subst new. simpl.
    destruct (decide (bid = Some k)).
    - by rewrite decide_True.
    - rewrite decide_False; [done |]. by intros [? _]. }
  split.
  - intros k. rewrite Eo, length_app. case_decide as E; simpl.
    + destruct (Hav k E) as (b & Hb & <- & Hs). rewrite (H2 b Hb Hs). simpl. lia.
    + specialize (H1 k). lia.
  - intros b' Hb' Hs'.
    assert (Some (Sql.book_id b') ≠ bid) as Hne.
    { intros E. specialize (Hst b' Hb' E). congruence. }
    rewrite Eo, decide_False by done. rewrite app_nil_r.
    apply H2; [by apply Hsame | done].
  - intros i k Hi Ek. rewrite Ei2, Ei1 in Hi.
    assert (k ∈ Sql.book_id <$> Sql.books db) as Hk.
    { apply elem_of_app in Hi as [Hi| ->%list_elem_of_singleton].
      - by eapply H3.
      - simpl in Ek. destruct (Hav k Ek) as (b & Hb & <- & _).
        by apply list_elem_of_fmap_2. }
    apply list_elem_of_fmap in Hk as (b & -> & Hb).
    destruct (Hfwd b Hb) as (b' & Hb' & <-). by apply list_elem_of_fmap_2.
  - intros b' Hb'. destruct (Hback b' Hb') as (b & Hb & <-).
    rewrite Ea2, Ea1. by apply H4.
Qed.

(** Returning an open issue record to its book keeps the store
    consistent. *)
Lemma consistent_return today iid bid (db db1 db2 : Sql.DB) :
  consistent db →
  (∃ ib, ib ∈ Sql.issued_books db ∧ Sql.issue_id ib = iid
         ∧ Sql.ib_book_id ib = Some bid ∧ Sql.return_date ib = None) →
  Sql.update_return_date today iid db = inr db1 →
  Sql.update_book_status Sql.Available (Some bid) db1 = inr db2 →
  consistent db2.
Proof.
  intros [H1 H2 H3 H4] (ib & Hib & Eid & Ebk & Eop) E1 E2.
  destruct (update_return_date_spec today iid db)
    as (db1' & E1' & _ & Eb1 & _ & Ea1 & _ & HFi).
  rewrite E1 in E1'. simplify_eq.
  apply update_book_status_books in E2 as (_ & Ei2 & _ & Ea2 & _ & HF).
  rewrite Eb1 in HF. apply Forall2_status_set in HF as (Hst & Hsame & Hfwd & Hback).
  apply Forall2_return_set in HFi as (Hret & Hold & _ & Hiback).
  assert (∀ k i', i' ∈ open_issues_of k db2 →
                  i' ∈ open_issues_of k db ∧ Sql.issue_id i' ≠ Sql.issue_id ib)
    as Hin.
  { intros k i' Hi'. apply list_elem_of_filter in Hi' as [[Ek Eo] Hi'].
    rewrite Ei2 in Hi'.
    assert (Sql.issue_id i' ≠ Sql.issue_id ib) as Hne.
    { intros E. rewrite (Hret i' Hi' E) in Eo. done. }
    split; [| done]. apply list_elem_of_filter. split; [done |].
    by apply Hold. }
  assert (∀ k, (length (open_issues_of k db2) ≤ length (open_issues_of k db))%nat)
    as Hlen.
  { intros k. unfold open_issues_of. rewrite Ei2.
    unfold Sql.update_return_date in E1. simplify_eq. simpl.
    apply length_filter_fmap. intros x. case_decide; simpl; [| done].
    by intros [_ ?]. }
  split.
  - intros k. etrans; [apply Hlen | apply H1].
  - intros b' Hb' Hs'.
    destruct (decide (Some (Sql.book_id b') = Some bid)) as [E|E].
    + simplify_eq.
      destruct (open_issues_of (Sql.book_id b') db2) as [|i' l] eqn:Eo; [done |].
      exfalso.
      destruct (Hin (Sql.book_id b') i') as [Hi' Hne];
        [rewrite Eo; apply list_elem_of_here |].
      apply list_elem_of_filter in Hi' as [HP Hi'].
      apply Hne. f_equal.
      by apply (filter_at_most_one _ _ i' ib (H1 (Sql.book_id b'))).
    + apply length_le_0_nil. etrans; [apply Hlen |].
      rewrite (H2 b'); [done | by apply Hsame | done].
  - intros i' k Hi' Ek. rewrite Ei2 in Hi'.
    destruct (Hiback i' Hi') as (i & Hi & Ei).
    assert (k ∈ Sql.book_id <$> Sql.books db) as Hk
      by (eapply H3; [exact Hi | congruence]).
    apply list_elem_of_fmap in Hk as (b & -> & Hb).
    destruct (Hfwd b Hb) as (b' & Hb' & <-). by apply list_elem_of_fmap_2.
  - intros b' Hb'. destruct (Hback b' Hb') as (b & Hb & <-).
    rewrite Ea2, Ea1. by apply H4.
Qed.

(** ** The handlers *)

Lemma add_student_consistent (p : StudentPage.page) (db : Sql.DB) :
  consistent db → consistent (StudentPage.add_student p db).1.2.
Proof.
  intros H. unfold StudentPage.add_student.
  destruct (negb _); [done |].
  pose proof (consistent_insert_student (Py.strip (StudentPage.name_var p))
    (StudentPage._int_or_none (StudentPage.age_var p))
    (Some (Py.strip (StudentPage.course_var p)))
    (StudentPage._int_or_none (StudentPage.year_var p)) db H) as H'.
  by destruct (Sql.insert_student _ _ _ _ _) as [[e d]|d].
Qed.

Lemma update_student_consistent (p : StudentPage.page) (db : Sql.DB) :
  consistent db → consistent (StudentPage.update_student p db).1.2.
Proof.
  intros H. unfold StudentPage.update_student.
  destruct (Tk.focus _) as [sel|]; [| done].
  destruct (_ !! sel) as [vals|]; [| done].
  destruct (negb _); [done |].
  pose proof (consistent_update_student (Py.strip (StudentPage.name_var p))
    (StudentPage._int_or_none (StudentPage.age_var p))
    (Some (Py.strip (StudentPage.course_var p)))
    (StudentPage._int_or_none (StudentPage.year_var p))
    (Sql.student_id vals) db H) as H'.
  by destruct (Sql.update_student _ _ _ _ _ _) as [[e d]|d].
Qed.

Lemma delete_student_consistent yes (p : StudentPage.page) (db : Sql.DB) :
  consistent db → consistent (StudentPage.delete_student yes p db).1.2.
Proof.
  intros H. unfold StudentPage.delete_student.
  destruct (Tk.focus _) as [sel|]; [| done].
  destruct (_ !! sel) as [vals|]; [| done].
  destruct (negb _); [done |].
  apply (consistent_delete_student (Sql.student_id vals) db H).
Qed.

Lemma add_book_consistent (p : BookPage.page) (db : Sql.DB) :
  consistent db → consistent (BookPage.add_book p db).1.2.
Proof.
  intros H. unfold BookPage.add_book.
  destruct (negb _); [done |].
  pose proof (consistent_insert_book (Py.strip (BookPage.title_var p))
    (Some (Py.strip (BookPage.author_var p)))
    (BookPage._int_or_none (BookPage.pubyear_var p)) db H) as H'.
  by destruct (Sql.insert_book _ _ _ _) as [[e d]|d].
Qed.

Lemma update_book_consistent (p : BookPage.page) (db : Sql.DB) :
  consistent db → consistent (BookPage.update_book p db).1.2.
Proof.
  intros H. unfold BookPage.update_book.
  destruct (Tk.focus _) as [sel|]; [| done].
  destruct (_ !! sel) as [vals|]; [| done].
  destruct (negb _); [done |].
  pose proof (consistent_update_book (Py.strip (BookPage.title_var p))
    (Some (Py.strip (BookPage.author_var p)))
    (BookPage._int_or_none (BookPage.pubyear_var p))
    (Sql.book_id vals) db H) as H'.
  by destruct (Sql.update_book _ _ _ _ _) as [[e d]|d].
Qed.

Lemma delete_book_consistent yes (p : BookPage.page) (db : Sql.DB) :
  consistent db → consistent (BookPage.delete_book yes p db).1.2.
Proof.
  intros H. unfold BookPage.delete_book.
  destruct (Tk.focus _) as [sel|]; [| done].
  destruct (_ !! sel) as [vals|]; [| done].
  destruct (negb _); [done |].
  apply (consistent_delete_book (Sql.book_id vals) db H).
Qed.

(** ** The issue page *)

Lemma in_sync_refresh (p : IssuePage.page) (db : Sql.DB) :
  in_sync (IssuePage.refresh_all p db) db.
Proof. by split. Qed.

Lemma in_sync_ext (p : IssuePage.page) (db db' : Sql.DB) :
  Sql.students db' = Sql.students db →
  Sql.books db' = Sql.books db →
  Sql.issued_books db' = Sql.issued_books db →
  in_sync p db → in_sync p db'.
Proof.
  intros Es Eb Ei [Hm Hr]. split.
  - rewrite Hm. unfold Sql.select_available_books. by rewrite Eb.
  - rewrite Hr. unfold Sql.select_issued, Sql.join_issued. by rewrite Es, Eb, Ei.
Qed.

Lemma insert_issue_raise sid bid today (db d : Sql.DB) e :
  Sql.insert_issue sid bid today db = inl (e, d) →
  Sql.students d = Sql.students db
  ∧ Sql.books d = Sql.books db
  ∧ Sql.issued_books d = Sql.issued_books db
  ∧ Sql.books_auto d = Sql.books_auto db.
Proof.
  unfold Sql.insert_issue. intros H.
  repeat case_match; simplify_eq; done.
Qed.

(** The picked book, when the page shows the store, is an Available book. *)
Lemma picked_book_available (p : IssuePage.page) (db : Sql.DB) l k :
  in_sync p db → IssuePage._book_map p !! l = Some k →
  ∃ b, b ∈ Sql.books db ∧ Sql.book_id b = k ∧ Sql.status b = Sql.Available.
Proof.
  intros [Hm _] Hl. rewrite Hm in Hl.
  apply label_map_lookup in Hl as (t & Hin & _).
  apply select_available_books_spec in Hin as (b & ? & ? & ? & _). eauto.
Qed.

Lemma issue_book_invariant today (p : IssuePage.page) (db : Sql.DB) :
  consistent db → in_sync p db →
  consistent (IssuePage.issue_book today p db).1.2
  ∧ in_sync (IssuePage.issue_book today p db).1.1
            (IssuePage.issue_book today p db).1.2.
Proof.
  intros Hc Hs. unfold IssuePage.issue_book.
  destruct (_ || _); [done |].
  set (sid := IssuePage._student_map p !! _).
  set (bid := IssuePage._book_map p !! _).
  destruct (Sql.insert_issue sid bid today db) as [[e d]|db1] eqn:E1.
  - apply insert_issue_raise in E1 as (? & ? & ? & ?). simpl.
    split; [by eapply consistent_ext | by eapply in_sync_ext].
  - destruct (Sql.update_book_status Sql.Issued bid db1) as [[e d]|db2] eqn:E2;
      [done |].
    simpl. split; [| apply in_sync_refresh].
    eapply consistent_issue; [exact Hc | | exact E1 | exact E2].
    intros k Ek. eapply picked_book_available; [exact Hs |]. exact Ek.
Qed.

Lemma return_book_invariant yes today (p : IssuePage.page) (db : Sql.DB) :
  consistent db → in_sync p db →
  consistent (IssuePage.return_book yes today p db).1.2
  ∧ in_sync (IssuePage.return_book yes today p db).1.1
            (IssuePage.return_book yes today p db).1.2.
Proof.
  intros Hc Hs. unfold IssuePage.return_book.
  destruct (Tk.focus _) as [sel|]; [| done].
  destruct (_ !! sel) as [vals|] eqn:Hr; [| done].
  destruct (IssuePage.already_returned vals) eqn:Ha; [done |].
  destruct (negb yes); [done |].
  destruct (Sql.update_return_date today (IssuePage.IssueID vals) db)
    as [[e d]|db1] eqn:E1; [done |].
  destruct (Sql.update_book_status Sql.Available (Some (IssuePage.BookID vals)) db1)
    as [[e d]|db2] eqn:E2; [done |].
  simpl. split; [| apply in_sync_refresh].
  eapply consistent_return; [exact Hc | | exact E1 | exact E2].
  assert (vals ∈ IssuePage.format <$> Sql.select_issued db) as Hin.
  { destruct Hs as [_ <-]. by eapply list_elem_of_lookup_2. }
  apply listed_row_origin in Hin
    as (ib & s & b & ? & _ & _ & _ & ? & ? & ? & _ & Hal & _).
  exists ib. split_and!; [done | congruence | congruence | by apply Hal].
Qed.

(** ** The program *)

Lemma invariant_init (existing : option Sql.DB) :
  consistent (Sql.init_db existing) → invariant (MainApp.init existing).
Proof. intros H. by split. Qed.

Lemma invariant_show_frame (n : MainApp.page_name) (a : MainApp.app) :
  invariant a → invariant (MainApp.show_frame n a).
Proof.
  intros [Hc Hs]. destruct n; split; simpl; try done; intros _.
  all: apply in_sync_refresh.
Qed.

Lemma invariant_on_students (a : MainApp.app) r :
  MainApp.visible a = MainApp.Students →
  consistent r.1.2 → invariant (MainApp.on_students a r).1.
Proof. intros Hv Hc. split; simpl; [done | by rewrite Hv]. Qed.

Lemma invariant_on_books (a : MainApp.app) r :
  MainApp.visible a = MainApp.Books →
  consistent r.1.2 → invariant (MainApp.on_books a r).1.
Proof. intros Hv Hc. split; simpl; [done | by rewrite Hv]. Qed.

Lemma invariant_on_issues (a : MainApp.app) r :
  consistent r.1.2 → in_sync r.1.1 r.1.2 → invariant (MainApp.on_issues a r).1.
Proof. intros Hc Hs. by split. Qed.

(** Every user action keeps the invariant. *)
Lemma invariant_handle (ev : MainApp.event) (a : MainApp.app) :
  invariant a → MainApp.enabled ev a = true → invariant (MainApp.handle ev a).1.
Proof.
  intros Hinv Hen. pose proof Hinv as [Hc Hs].
  destruct ev; simpl in Hen; try apply bool_decide_eq_true in Hen;
    unfold MainApp.handle;
    try (apply invariant_show_frame; exact Hinv);
    try (apply invariant_on_students; [exact Hen |]; simpl;
         first [ exact Hc
               | by apply add_student_consistent
               | by apply update_student_consistent
               | by apply delete_student_consistent ]);
    try (apply invariant_on_books; [exact Hen |]; simpl;
         first [ exact Hc
               | by apply add_book_consistent
               | by apply update_book_consistent
               | by apply delete_book_consistent ]).
  - (* Relaunch *) by apply invariant_init.
  - (* PickStudent *) apply invariant_on_issues; simpl; [done |].
    destruct (Hs Hen) as [Hm Hr]. by split.
  - (* PickBook *) apply invariant_on_issues; simpl; [done |].
    destruct (Hs Hen) as [Hm Hr]. by split.
  - (* IssueBook *)
    destruct (issue_book_invariant today (MainApp.issues a) (MainApp.db a) Hc (Hs Hen)).
    by apply invariant_on_issues.
  - (* ReturnBook *)
    destruct (return_book_invariant yes today (MainApp.issues a) (MainApp.db a)
                Hc (Hs Hen)).
    by apply invariant_on_issues.
  - (* FocusIssued *) apply invariant_on_issues; simpl; [done |].
    destruct (Hs Hen) as [Hm Hr]. split; simpl; [done |].
    unfold Tk.set_focus. by case_decide.
  - (* ReleaseIssued *) apply invariant_on_issues; simpl; [done | by apply Hs].
Qed.

(** The invariant holds in every state the program reaches. *)
Lemma reachable_invariant (a : MainApp.app) : MainApp.reachable a → invariant a.
Proof.
  unfold MainApp.reachable. revert a.
  apply (rtc_ind_r (R := MainApp.step) invariant).
  - apply invariant_init, consistent_empty.
  - intros y z _ (ev & Hen & <-) IH. by apply invariant_handle.
Qed.

(** While the issue page is shown it shows the store, and the book that
    "Issue Book" would act on is an Available book. *)
Lemma reachable_in_sync (a : MainApp.app) :
  MainApp.reachable a → MainApp.visible a = MainApp.Issues →
  in_sync (MainApp.issues a) (MainApp.db a).
Proof. intros H. by apply reachable_invariant. Qed.

Lemma reachable_picked_book_available (a : MainApp.app) (k : Z) :
  MainApp.reachable a → MainApp.visible a = MainApp.Issues →
  IssuePage._book_map (MainApp.issues a)
    !! Tk.text (IssuePage.book_cb (MainApp.issues a)) = Some k →
  ∃ b, b ∈ Sql.books (MainApp.db a) ∧ Sql.book_id b = k
       ∧ Sql.status b = Sql.Available.
Proof.
  intros H Hv. eapply picked_book_available. by apply reachable_in_sync.
Qed.

Lemma consistent_one_open (db : Sql.DB) :
  consistent db → one_open_issue_per_book db.
Proof.
  intros [H1 _ _ _]. unfold one_open_issue_per_book.
  apply Forall_forall. intros b _. apply H1.
Qed.

(** In every reachable state each book has at most one open issue record,
    and an Available book has none. *)
Lemma reachable_one_open_issue_per_book (a : MainApp.app) :
  MainApp.reachable a → one_open_issue_per_book (MainApp.db a).
Proof. intros H. by apply consistent_one_open, reachable_invariant. Qed.



(** The store itself does not keep the invariant: the two statements of
    [issue_book], run for a book that is already Issued, leave it with two
    open issue records. *)
Example issue_of_issued_book :
  ∃ db1 db2,
    Sql.insert_issue (Some 1%Z) (Some 1%Z) today0 (MainApp.db app3) = inr db1
    ∧ Sql.update_book_status Sql.Issued (Some 1%Z) db1 = inr db2
    ∧ length (open_issues_of 1 db2) = 2%nat
    ∧ ¬ one_open_issue_per_book db2.
Proof.
  eexists _, _. split; [vm_compute; reflexivity |].
  split; [reflexivity |]. split; [vm_compute; reflexivity |].
  intros H. apply Forall_cons in H as [H _]. vm_compute in H. lia.
Qed.


(* ===================================================================== *)
(** * Primary keys *)
(* ===================================================================== *)

Lemma keys_ok_insert {A} (key : A → Z) (rows : list A) (auto : Z) (x : A) :
  key x = auto → keys_ok key rows auto → keys_ok key (rows ++ [x]) (auto + 1).
Proof.
  intros E [Hnd Hlt]. split.
  - rewrite fmap_app. apply NoDup_app. split_and!; [done | | apply NoDup_singleton].
    intros k Hk Hk'. apply list_elem_of_singleton in Hk'. simpl in Hk'.
    apply list_elem_of_fmap in Hk as (y & -> & Hy). apply Hlt in Hy. lia.
  - intros y [Hy| ->%list_elem_of_singleton]%elem_of_app; [apply Hlt in Hy |]; lia.
Qed.

Lemma keys_ok_filter {A} (key : A → Z) (P : A → Prop) `{!∀ x, Decision (P x)}
    (rows : list A) (auto : Z) :
  keys_ok key rows auto → keys_ok key (filter P rows) auto.
Proof.
  intros [Hnd Hlt]. split.
  - eapply sublist_NoDup; [exact Hnd |]. apply fmap_sublist, sublist_filter.
  - intros x Hx. apply list_elem_of_filter in Hx as [_ Hx]. by apply Hlt.
Qed.

Lemma keys_ok_fmap {A} (key : A → Z) (f : A → A) (rows : list A) (auto : Z) :
  (∀ x, key (f x) = key x) →
  keys_ok key rows auto → keys_ok key (f <$> rows) auto.
Proof.
  intros Hf [Hnd Hlt]. split.
  - rewrite <- list_fmap_compose.
    rewrite (list_fmap_ext (key ∘ f) key rows); [done |].
    intros i x _. apply Hf.
  - intros y Hy. apply list_elem_of_fmap in Hy as (x & -> & Hx).
    rewrite Hf. by apply Hlt.
Qed.

Lemma keys_ok_auto {A} (key : A → Z) (rows : list A) (auto : Z) :
  keys_ok key rows auto → keys_ok key rows (auto + 1).
Proof. intros [Hnd Hlt]. split; [done |]. intros x Hx. apply Hlt in Hx. lia. Qed.

Lemma keyed_empty : keyed Sql.empty.
Proof. repeat split; simpl; try constructor; by intros ? ?%elem_of_nil. Qed.

Lemma keyed_insert_student name age course year (db : Sql.DB) :
  keyed db → keyed (after (Sql.insert_student name age course year db)).
Proof.
  intros (Hs & Hb & Hi). unfold Sql.insert_student.
  repeat case_match; simpl; try done.
  split_and!; simpl; [by apply keys_ok_insert | done | done].
Qed.

Lemma keyed_update_student name age course year sid (db : Sql.DB) :
  keyed db → keyed (after (Sql.update_student name age course year sid db)).
Proof.
  intros (Hs & Hb & Hi). unfold Sql.update_student.
  repeat case_match; simpl; try done;
    (split_and!; simpl; [| done | done]);
    apply keys_ok_fmap; [| done | | done]; intros x; by case_decide.
Qed.

Lemma keyed_delete_student sid (db : Sql.DB) :
  keyed db → keyed (after (Sql.delete_student sid db)).
Proof.
  intros (Hs & Hb & Hi). simpl.
  split_and!; simpl; [by apply keys_ok_filter | done | by apply keys_ok_filter].
Qed.

Lemma keyed_insert_book title author pub_year (db : Sql.DB) :
  keyed db → keyed (after (Sql.insert_book title author pub_year db)).
Proof.
  intros (Hs & Hb & Hi). unfold Sql.insert_book.
  repeat case_match; simpl; try done.
  split_and!; simpl; [done | by apply keys_ok_insert | done].
Qed.

Lemma keyed_update_book title author pub_year bid (db : Sql.DB) :
  keyed db → keyed (after (Sql.update_book title author pub_year bid db)).
Proof.
  intros (Hs & Hb & Hi). unfold Sql.update_book.
  repeat case_match; simpl; try done;
    (split_and!; simpl; [done | | done]);
    apply keys_ok_fmap; [| done | | done]; intros x; by case_decide.
Qed.

Lemma keyed_delete_book bid (db : Sql.DB) :
  keyed db → keyed (after (Sql.delete_book bid db)).
Proof.
  intros (Hs & Hb & Hi). simpl.
  split_and!; simpl; [done | by apply keys_ok_filter | by apply keys_ok_filter].
Qed.

Lemma keyed_update_book_status st bid (db : Sql.DB) :
  keyed db → keyed (after (Sql.update_book_status st bid db)).
Proof.
  intros (Hs & Hb & Hi). simpl.
  split_and!; simpl; [done | | done].
  apply keys_ok_fmap; [| done]. intros x. by case_decide.
Qed.

Lemma keyed_insert_issue sid bid today (db : Sql.DB) :
  keyed db → keyed (after (Sql.insert_issue sid bid today db)).
Proof.
  intros (Hs & Hb & Hi). unfold Sql.insert_issue.
  repeat case_match; simpl; try done;
    (split_and!; simpl; [done | done |]);
    first [by apply keys_ok_insert | by apply keys_ok_auto].
Qed.

Lemma keyed_update_return_date today iid (db : Sql.DB) :
  keyed db → keyed (after (Sql.update_return_date today iid db)).
Proof.
  intros (Hs & Hb & Hi). simpl.
  split_and!; simpl; [done | done |].
  apply keys_ok_fmap; [| done]. intros x. by case_decide.
Qed.

(** A property of the store that every statement of the program keeps is
    kept by every handler, hence by every user action. *)
Section StoreProperty.

Variable P : Sql.DB → Prop.

Hypothesis P_insert_student : ∀ name age course year db,
  P db → P (after (Sql.insert_student name age course year db)).
Hypothesis P_update_student : ∀ name age course year sid db,
  P db → P (after (Sql.update_student name age course year sid db)).
Hypothesis P_delete_student : ∀ sid db,
  P db → P (after (Sql.delete_student sid db)).
Hypothesis P_insert_book : ∀ title author pub_year db,
  P db → P (after (Sql.insert_book title author pub_year db)).
Hypothesis P_update_book : ∀ title author pub_year bid db,
  P db → P (after (Sql.update_book title author pub_year bid db)).
Hypothesis P_delete_book : ∀ bid db,
  P db → P (after (Sql.delete_book bid db)).
Hypothesis P_update_book_status : ∀ st bid db,
  P db → P (after (Sql.update_book_status st bid db)).
Hypothesis P_insert_issue : ∀ sid bid today db,
  P db → P (after (Sql.insert_issue sid bid today db)).
Hypothesis P_update_return_date : ∀ today iid db,
  P db → P (after (Sql.update_return_date today iid db)).

Lemma store_property_handle (ev : MainApp.event) (a : MainApp.app) :
  P (MainApp.db a) → P (MainApp.db (MainApp.handle ev a).1).
Proof.
  intros H. destruct ev; simpl; try done.
  - unfold StudentPage.add_student. destruct (negb _); [done |].
    match goal with |- context [Sql.insert_student ?n ?a ?c ?y ?d] =>
      pose proof (P_insert_student n a c y d H) as H';
      destruct (Sql.insert_student n a c y d) as [[? ?]|?] end; done.
  - unfold StudentPage.update_student.
    destruct (Tk.focus _) as [sel|]; [| done].
    destruct (_ !! sel) as [vals|]; [| done].
    destruct (negb _); [done |].
    match goal with |- context [Sql.update_student ?n ?a ?c ?y ?s ?d] =>
      pose proof (P_update_student n a c y s d H) as H';
      destruct (Sql.update_student n a c y s d) as [[? ?]|?] end; done.
  - unfold StudentPage.delete_student.
    destruct (Tk.focus _) as [sel|]; [| done].
    destruct (_ !! sel) as [vals|]; [| done].
    destruct (negb _); [done |].
    apply (P_delete_student (Sql.student_id vals) _ H).
  - unfold BookPage.add_book. destruct (negb _); [done |].
    match goal with |- context [Sql.insert_book ?t ?a ?y ?d] =>
      pose proof (P_insert_book t a y d H) as H';
      destruct (Sql.insert_book t a y d) as [[? ?]|?] end; done.
  - unfold BookPage.update_book.
    destruct (Tk.focus _) as [sel|]; [| done].
    destruct (_ !! sel) as [vals|]; [| done].
    destruct (negb _); [done |].
    match goal with |- context [Sql.update_book ?t ?a ?y ?b ?d] =>
      pose proof (P_update_book t a y b d H) as H';
      destruct (Sql.update_book t a y b d) as [[? ?]|?] end; done.
  - unfold BookPage.delete_book.
    destruct (Tk.focus _) as [sel|]; [| done].
    destruct (_ !! sel) as [vals|]; [| done].
    destruct (negb _); [done |].
    apply (P_delete_book (Sql.book_id vals) _ H).
  - unfold IssuePage.issue_book. destruct (_ || _); [done |].
    match goal with |- context [Sql.insert_issue ?s ?b ?t ?d] =>
      pose proof (P_insert_issue s b t d H) as H1;
      destruct (Sql.insert_issue s b t d) as [[? ?]|db1]; [done |];
      pose proof (P_update_book_status Sql.Issued b db1 H1) as H2 end.
    done.
  - unfold IssuePage.return_book.
    destruct (Tk.focus _) as [sel|]; [| done].
    destruct (_ !! sel) as [vals|]; [| done].
    destruct (IssuePage.already_returned vals); [done |].
    destruct (negb yes); [done |].
    pose proof (P_update_return_date today (IssuePage.IssueID vals) _ H) as H1.
    apply (P_update_book_status Sql.Available (Some (IssuePage.BookID vals)) _ H1).
Qed.

Lemma store_property_reachable (a : MainApp.app) :
  P Sql.empty → MainApp.reachable a → P (MainApp.db a).
Proof.
  intros H0. unfold MainApp.reachable. revert a.
  apply (rtc_ind_r (R := MainApp.step) (λ a, P (MainApp.db a))).
  - exact H0.
  - intros y z _ (ev & _ & <-) IH. by apply store_property_handle.
Qed.

End StoreProperty.

(** In every reachable state the primary keys are distinct. *)
Lemma reachable_keyed (a : MainApp.app) :
  MainApp.reachable a → keyed (MainApp.db a).
Proof.
  apply store_property_reachable;
    auto using keyed_empty, keyed_insert_student, keyed_update_student,
      keyed_delete_student, keyed_insert_book, keyed_update_book,
      keyed_delete_book, keyed_update_book_status, keyed_insert_issue,
      keyed_update_return_date.
Qed.


(* ===================================================================== *)
(** * More on the Python built-ins *)
(* ===================================================================== *)

(** ** [int(str(n))] *)

Lemma digit_pretty_N_char (d : N) :
  (d < 10)%N → Py.digit (pretty_N_char d) = Some (Z.of_N d).
Proof.
  intros H.
  assert (d = 0 ∨ d = 1 ∨ d = 2 ∨ d = 3 ∨ d = 4 ∨ d = 5 ∨ d = 6 ∨ d = 7
          ∨ d = 8 ∨ d = 9)%N as Hd by lia.
  by repeat destruct Hd as [->|Hd]; [..| subst d].
Qed.

Lemma pretty_N_char_not_space (d : N) :
  Py.int_isspace (pretty_N_char d) = false
  ∧ pretty_N_char d ≠ " "%char ∧ pretty_N_char d ≠ "-"%char
  ∧ pretty_N_char d ≠ "+"%char.
Proof. unfold pretty_N_char. by repeat case_match. Qed.

(** Reading the digits that [pretty] wrote: [k] digits, the number back. *)
Lemma int_digits_pretty_N_go (x : N) :
  (0 < x)%N →
  ∃ k : nat,
    (1 ≤ k)%nat ∧ (10 ^ Z.of_nat (k - 1) ≤ Z.of_N x)%Z
    ∧ ∀ s p acc c,
        Py.int_digits (pretty_N_go x s) p acc c
        = Py.int_digits s true (acc * 10 ^ Z.of_nat k + Z.of_N x)%Z (c + k)%nat.
Proof.
  induction (N.lt_wf_0 x) as [x _ IH]. intros Hx.
  destruct (decide (x < 10)%N) as [Hlt|Hge].
  - exists 1%nat. split; [done |]. split; [simpl; lia |].
    intros s p acc c. rewrite pretty_N_go_step by done.
    rewrite N.div_small, pretty_N_go_0, N.mod_small by done. simpl.
    rewrite digit_pretty_N_char by done.
    f_equal; [lia | lia].
  - destruct (IH (x `div` 10)%N) as (k & Hk & Hpow & Hgo).
    { apply N.div_lt; lia. }
    { apply N.div_str_pos. lia. }
    exists (S k). split; [lia |].
    assert (Z.of_N x = 10 * Z.of_N (x `div` 10) + Z.of_N (x `mod` 10))%Z as Ex.
    { pose proof (N.div_mod x 10 ltac:(lia)) as E. lia. }
    split.
    + replace (Z.of_nat (S k - 1)) with (Z.succ (Z.of_nat (k - 1))) by lia.
      rewrite Z.pow_succ_r by lia.
      clear IH Hgo. pose proof (N2Z.is_nonneg (x `mod` 10)) as Hm.
      revert Hpow Ex Hm.
      generalize (10 ^ Z.of_nat (k - 1))%Z (Z.of_N (x `div` 10))
        (Z.of_N (x `mod` 10)) (Z.of_N x).
      intros; lia.
    + intros s p acc c. rewrite pretty_N_go_step by done.
      rewrite Hgo. simpl.
      rewrite digit_pretty_N_char by (apply N.mod_lt; lia).
      f_equal; [| lia].
      replace (Z.of_nat (S k)) with (Z.succ (Z.of_nat k)) by lia.
      rewrite Z.pow_succ_r by lia. rewrite Ex.
      generalize (10 ^ Z.of_nat k)%Z (Z.of_N (x `div` 10)) (Z.of_N (x `mod` 10)).
      intros; lia.
Qed.

(** The characters [pretty] writes are digits. *)
Lemma pretty_N_go_chars (P : ascii → Prop) (x : N) (s : string) :
  (∀ d, P (pretty_N_char d)) →
  Forall P (list_ascii_of_string s) →
  Forall P (list_ascii_of_string (pretty_N_go x s)).
Proof.
  intros HP. revert s. induction (N.lt_wf_0 x) as [x _ IH]. intros s Hs.
  destruct (decide (0 < x)%N) as [Hx|Hx].
  - rewrite pretty_N_go_step by done. apply IH; [apply N.div_lt; lia |].
    simpl. by constructor.
  - replace x with 0%N by lia. by rewrite pretty_N_go_0.
Qed.

Lemma pretty_N_chars (P : ascii → Prop) (x : N) :
  (∀ d, P (pretty_N_char d)) →
  Forall P (list_ascii_of_string (pretty x)).
Proof.
  intros HP. unfold pretty, pretty_N. case_decide.
  - simpl. constructor; [apply (HP 0%N) | constructor].
  - apply pretty_N_go_chars; [done | constructor].
Qed.

Lemma int_rstrip_no_space (s : string) :
  Forall (λ c, Py.int_isspace c = false) (list_ascii_of_string s) →
  Py.int_rstrip s = s.
Proof.
  induction s as [|c s IH]; simpl; [done |].
  intros H. apply Forall_cons in H as [Hc Hs]. rewrite (IH Hs).
  destruct s; [by rewrite Hc | done].
Qed.

Lemma int_lstrip_head (c : ascii) (s : string) :
  Py.int_isspace c = false → Py.int_lstrip (String c s) = String c s.
Proof. intros H. simpl. by rewrite H. Qed.

Lemma pretty_N_go_nonempty (x : N) (s : string) :
  (0 < x)%N → ∃ d r, (d < 10)%N ∧ pretty_N_go x s = String (pretty_N_char d) r.
Proof.
  revert s. induction (N.lt_wf_0 x) as [x _ IH]. intros s Hx.
  rewrite pretty_N_go_step by done.
  destruct (decide (0 < x `div` 10)%N) as [Hd|Hd].
  - apply IH; [apply N.div_lt; lia | done].
  - apply N.nlt_ge, N.le_0_r in Hd. rewrite Hd, pretty_N_go_0.
    exists (x `mod` 10)%N, s. split; [apply N.mod_lt; lia | done].
Qed.

Lemma int_pretty_pos (x : N) :
  (0 < x)%N → (Z.of_N x < 10 ^ 4300)%Z →
  Py.int (pretty_N_go x "") = Some (Z.of_N x)
  ∧ Py.int ("-" +:+ pretty_N_go x "") = Some (- Z.of_N x)%Z.
Proof.
  intros Hx Hbound.
  destruct (int_digits_pretty_N_go x Hx) as (k & Hk & Hpow & Hgo).
  assert (k ≤ Py.int_max_str_digits)%nat as Hlim.
  { unfold Py.int_max_str_digits.
    destruct (decide (k ≤ 4300)%nat) as [?|Hn]; [done |]. exfalso.
    assert (10 ^ 4300 ≤ 10 ^ Z.of_nat (k - 1))%Z
      by (apply Z.pow_le_mono_r; lia).
    lia. }
  assert (Forall (λ c, Py.int_isspace c = false)
            (list_ascii_of_string (pretty_N_go x ""))) as Hns.
  { apply pretty_N_go_chars; [| constructor]. intros d.
    apply pretty_N_char_not_space. }
  destruct (pretty_N_go_nonempty x "" Hx) as (d & r & Hd & Er).
  destruct (pretty_N_char_not_space d) as (Hsp & _ & Hmi & Hpl).
  split.
  - unfold Py.int. rewrite int_rstrip_no_space by done.
    rewrite Er, int_lstrip_head by done. simpl.
    rewrite (proj2 (Ascii.eqb_neq _ _) Hmi), (proj2 (Ascii.eqb_neq _ _) Hpl).
    rewrite <- Er, Hgo. simpl. rewrite decide_True by done.
    first [done | f_equal; lia].
  - unfold Py.int. rewrite append_cons, append_nil_l.
    rewrite int_rstrip_no_space by (simpl; by constructor).
    rewrite int_lstrip_head by done. simpl.
    rewrite Hgo. simpl. rewrite decide_True by done.
    first [done | f_equal; lia].
Qed.

(** [int(str(n)) == n], for the numbers whose text [int()] accepts (at most
    4300 digits). *)
Lemma int_str (n : Z) :
  (Z.abs n < 10 ^ 4300)%Z → Py.int (Py.str n) = Some n.
Proof.
  intros H. unfold Py.str, pretty, pretty_Z.
  destruct n as [|p|p]; [done | |].
  - unfold pretty, pretty_positive, pretty, pretty_N.
    rewrite decide_False by done.
    by destruct (int_pretty_pos (N.pos p)) as [-> _]; [lia | |].
  - unfold pretty, pretty_positive, pretty, pretty_N.
    rewrite decide_False by done.
    by destruct (int_pretty_pos (N.pos p)) as [_ ->]; [lia | |].
Qed.

Lemma int_range_bound (n : Z) :
  Sql.fits_int (Some n) = true → (Z.abs n < 10 ^ 4300)%Z.
Proof.
  unfold Sql.fits_int, Sql.INT_MIN, Sql.INT_MAX. intros H.
  apply andb_prop in H as [H1 H2]. apply Z.leb_le in H1, H2.
  assert (10 ^ 10 ≤ 10 ^ 4300)%Z by (apply Z.pow_le_mono_r; lia).
  assert (10 ^ 10 = 10000000000)%Z by reflexivity. lia.
Qed.

(** ** [strip] *)

Lemma lstrip_head (c : ascii) (s : string) :
  Py.isspace c = false → Py.lstrip (String c s) = String c s.
Proof. intros H. simpl. by rewrite H. Qed.

Lemma lstrip_shape (s : string) :
  Py.lstrip s = "" ∨ ∃ c r, Py.lstrip s = String c r ∧ Py.isspace c = false.
Proof.
  induction s as [|c s IH]; simpl; [by left |].
  destruct (Py.isspace c) eqn:E; [done |]. right. eauto.
Qed.

Lemma lstrip_lstrip (s : string) : Py.lstrip (Py.lstrip s) = Py.lstrip s.
Proof.
  destruct (lstrip_shape s) as [->|(c & r & -> & Hc)]; [done |].
  by apply lstrip_head.
Qed.

Lemma rstrip_rstrip (s : string) : Py.rstrip (Py.rstrip s) = Py.rstrip s.
Proof.
  induction s as [|c s IH]; simpl; [done |].
  destruct (Py.rstrip s) as [|d r] eqn:E.
  - destruct (Py.isspace c) eqn:Ec; simpl; [done |]. by rewrite Ec.
  - simpl in *. by rewrite IH.
Qed.

(** Stripping on the left keeps a right-stripped text right-stripped. *)
Lemma rstrip_lstrip (s : string) :
  Py.rstrip s = s → Py.rstrip (Py.lstrip s) = Py.lstrip s.
Proof.
  induction s as [|c s IH]; simpl; [done |].
  intros H. destruct (Py.isspace c) eqn:Ec.
  - apply IH. destruct (Py.rstrip s) as [|d r] eqn:E; [done | congruence].
  - simpl. by rewrite Ec.
Qed.

(** [s.strip().strip() == s.strip()] *)
Lemma strip_strip (s : string) : Py.strip (Py.strip s) = Py.strip s.
Proof.
  unfold Py.strip.
  rewrite (rstrip_lstrip (Py.rstrip s)) by apply rstrip_rstrip.
  apply lstrip_lstrip.
Qed.

Lemma stripped_strip (s : string) : stripped (Py.strip s).
Proof. apply strip_strip. Qed.

(** ** Labels *)

Lemma pretty_Z_chars (P : ascii → Prop) (z : Z) :
  (∀ d, P (pretty_N_char d)) → P "-"%char →
  Forall P (list_ascii_of_string (pretty z)).
Proof.
  intros HP Hm. unfold pretty, pretty_Z. destruct z as [|p|p].
  - simpl. constructor; [apply (HP 0%N) | constructor].
  - by apply (pretty_N_chars P (N.pos p)).
  - rewrite append_cons, append_nil_l. simpl. constructor; [done |].
    by apply (pretty_N_chars P (N.pos p)).
Qed.

Lemma str_no_space (z : Z) :
  Forall (λ c, c ≠ " "%char) (list_ascii_of_string (Py.str z)).
Proof.
  apply pretty_Z_chars; [| done]. intros d. apply pretty_N_char_not_space.
Qed.

(** Two texts without a space that are followed by a space are equal when
    the whole texts are. *)
Lemma before_space_inj (a a' r r' : string) :
  Forall (λ c, c ≠ " "%char) (list_ascii_of_string a) →
  Forall (λ c, c ≠ " "%char) (list_ascii_of_string a') →
  a +:+ String " " r = a' +:+ String " " r' → a = a' ∧ r = r'.
Proof.
  revert a'. induction a as [|c a IH]; intros a' Ha Ha' E.
  - destruct a' as [|c' a'].
    + rewrite !append_nil_l in E. by simplify_eq.
    + rewrite append_nil_l, append_cons in E. simplify_eq.
      simpl in Ha'. by apply Forall_cons in Ha' as [? _].
  - simpl in Ha. apply Forall_cons in Ha as [Hc Ha].
    destruct a' as [|c' a'].
    + rewrite append_nil_l, append_cons in E. by simplify_eq.
    + rewrite !append_cons in E. simplify_eq.
      simpl in Ha'. apply Forall_cons in Ha' as [_ Ha'].
      destruct (IH a' Ha Ha') as [-> ->]; done.
Qed.

(** A label determines the id and the name it was made of. *)
Lemma label_inj (r r' : Z * string) :
  IssuePage.label r = IssuePage.label r' → r = r'.
Proof.
  destruct r as [i t], r' as [i' t']. unfold IssuePage.label. simpl.
  change (" - " +:+ t) with (String " " (String "-" (String " " t))).
  change (" - " +:+ t') with (String " " (String "-" (String " " t'))).
  intros E. apply before_space_inj in E as [Ei Et]; [| apply str_no_space ..].
  apply (inj pretty) in Ei. by simplify_eq.
Qed.


(* ===================================================================== *)
(** * The pickers of the issue page *)
(* ===================================================================== *)

Lemma label_map_from_complete (rs : list (Z * string)) (m : gmap string Z)
    (r : Z * string) :
  r ∈ rs ∨ m !! IssuePage.label r = Some r.1 →
  foldl (λ m r, <[IssuePage.label r := r.1]> m) m rs !! IssuePage.label r
  = Some r.1.
Proof.
  revert m. induction rs as [|r0 rs IH]; intros m; simpl.
  { intros [H|H]; [by apply elem_of_nil in H | done]. }
  intros H. apply IH.
  destruct (decide (IssuePage.label r0 = IssuePage.label r)) as [E|E].
  - right. rewrite E, lookup_insert_eq. by apply label_inj in E as ->.
  - rewrite lookup_insert_ne by done.
    destruct H as [[->|H]%elem_of_cons|H]; [done | by left | by right].
Qed.

(** The label of every row maps to the id of that row. *)
Lemma label_map_complete (rs : list (Z * string)) (r : Z * string) :
  r ∈ rs → IssuePage.label_map rs !! IssuePage.label r = Some r.1.
Proof. intros H. apply label_map_from_complete. by left. Qed.

Lemma keys_spec (m : gmap string Z) (l : string) :
  l ∈ IssuePage.keys m ↔ is_Some (m !! l).
Proof.
  split; [intros [v Hv]%keys_lookup; by exists v |].
  intros [v Hv]. unfold IssuePage.keys.
  apply list_elem_of_fmap. exists (l, v). split; [done |].
  by apply elem_of_map_to_list.
Qed.

(** X3.  [refresh_comboboxes] offers exactly the students of the store in
    the student picker and exactly the Available books in the book picker:
    each of them has its label ["id - name"] among the values, the labels
    are those and no others, and a label maps to the id it was made of.
    The text shown in each box is kept as it was. *)
Theorem X3_pickers_offer_students_and_available_books
    (p : IssuePage.page) (db : Sql.DB) :
  let p' := IssuePage.refresh_comboboxes p db in
  (∀ s, s ∈ Sql.students db →
     IssuePage.label (Sql.student_id s, Sql.name s)
       ∈ Tk.values (IssuePage.student_cb p')
     ∧ IssuePage._student_map p'
         !! IssuePage.label (Sql.student_id s, Sql.name s)
       = Some (Sql.student_id s))
  ∧ (∀ l, l ∈ Tk.values (IssuePage.student_cb p') →
       ∃ s, s ∈ Sql.students db
            ∧ l = IssuePage.label (Sql.student_id s, Sql.name s))
  ∧ (∀ b, b ∈ Sql.books db → Sql.status b = Sql.Available →
       IssuePage.label (Sql.book_id b, Sql.title b)
         ∈ Tk.values (IssuePage.book_cb p')
       ∧ IssuePage._book_map p' !! IssuePage.label (Sql.book_id b, Sql.title b)
         = Some (Sql.book_id b))
  ∧ (∀ l, l ∈ Tk.values (IssuePage.book_cb p') →
       ∃ b, b ∈ Sql.books db ∧ Sql.status b = Sql.Available
            ∧ l = IssuePage.label (Sql.book_id b, Sql.title b))
  ∧ Tk.text (IssuePage.student_cb p') = Tk.text (IssuePage.student_cb p)
  ∧ Tk.text (IssuePage.book_cb p') = Tk.text (IssuePage.book_cb p).
Proof.
  intros p'. subst p'. simpl. split_and!; try done.
  - intros s Hs.
    assert ((Sql.student_id s, Sql.name s) ∈ Sql.select_student_names db) as Hin.
    { unfold Sql.select_student_names.
      by apply (list_elem_of_fmap_2 (λ s, (Sql.student_id s, Sql.name s))). }
    apply label_map_complete in Hin. split; [| done].
    apply keys_spec. by eexists.
  - intros l Hl. apply keys_spec in Hl as [v Hv].
    apply label_map_lookup in Hv as (t & Hin & <-).
    unfold Sql.select_student_names in Hin.
    apply list_elem_of_fmap in Hin as (s & E & Hs). simplify_eq. eauto.
  - intros b Hb Hs.
    assert ((Sql.book_id b, Sql.title b) ∈ Sql.select_available_books db) as Hin.
    { apply select_available_books_spec. eauto. }
    apply label_map_complete in Hin. split; [| done].
    apply keys_spec. by eexists.
  - intros l Hl. apply keys_spec in Hl as [v Hv].
    apply label_map_lookup in Hv as (t & Hin & <-).
    apply select_available_books_spec in Hin as (b & ? & ? & <- & <-). eauto.
Qed.


(* ===================================================================== *)
(** * The forms: validation, add, update, delete *)
(* ===================================================================== *)

Lemma truthy_blank (s : string) : blank s → negb (Py.truthy (Py.strip s)) = true.
Proof. intros H. by rewrite strip_blank. Qed.

(** X1.  A required field that is blank (empty or whitespace only) stops
    [add_student], [add_book], and, on a focused row, [update_student] and
    [update_book]: the handler shows its input error and returns the page
    and the store as they were; no statement is run. *)
Theorem X1_blank_required_field_rejected
    (sp : StudentPage.page) (bp : BookPage.page) (db : Sql.DB) :
  blank (StudentPage.name_var sp) →
  blank (BookPage.title_var bp) →
  StudentPage.add_student sp db
    = (sp, db, [Tk.showerror "Input error" "Name is required"])
  ∧ BookPage.add_book bp db
    = (bp, db, [Tk.showerror "Input error" "Title required"])
  ∧ (∀ sel vals,
       Tk.focus (StudentPage.tree sp) = Some sel →
       Tk.rows (StudentPage.tree sp) !! sel = Some vals →
       StudentPage.update_student sp db
         = (sp, db, [Tk.showerror "Input error" "Name is required"]))
  ∧ (∀ sel vals,
       Tk.focus (BookPage.tree bp) = Some sel →
       Tk.rows (BookPage.tree bp) !! sel = Some vals →
       BookPage.update_book bp db
         = (bp, db, [Tk.showerror "Input error" "Title required"])).
Proof.
  intros Hn Ht. apply truthy_blank in Hn, Ht. split_and!.
  - unfold StudentPage.add_student. by rewrite Hn.
  - unfold BookPage.add_book. by rewrite Ht.
  - intros sel vals Hf Hr. unfold StudentPage.update_student.
    by rewrite Hf, Hr, Hn.
  - intros sel vals Hf Hr. unfold BookPage.update_book.
    by rewrite Hf, Hr, Ht.
Qed.

Lemma X1_witness :
  let sp := StudentPage.mkpage "   " "20" "CS" "2" "" (Tk.mkTreeview [] None) in
  let bp := BookPage.mkpage "" "Aho" "2006" "" (Tk.mkTreeview [] None) in
  StudentPage.add_student sp (MainApp.db app1)
    = (sp, MainApp.db app1, [Tk.showerror "Input error" "Name is required"])
  ∧ BookPage.add_book bp (MainApp.db app1)
    = (bp, MainApp.db app1, [Tk.showerror "Input error" "Title required"]).
Proof.
  intros sp bp.
  destruct (X1_blank_required_field_rejected sp bp (MainApp.db app1))
    as (H1 & H2 & _).
  - repeat constructor.
  - constructor.
  - split; [exact H1 | exact H2].
Defined.

(** What a successful [add_book] stores. *)
Lemma add_book_success (p p' : BookPage.page) (db db' : Sql.DB) :
  BookPage.add_book p db = (p', db', [Tk.showinfo "Success" "Book added."]) →
  let new := Sql.mkbook (Sql.books_auto db) (Py.strip (BookPage.title_var p))
               (Some (Py.strip (BookPage.author_var p)))
               (Py.int (BookPage.pubyear_var p)) Sql.Available in
  Sql.check_book (Sql.title new) (Sql.author new) (Sql.pub_year new) = None
  ∧ Py.strip (BookPage.title_var p) ≠ ""
  ∧ db' = Sql.mkDB (Sql.students db) (Sql.books db ++ [new]) (Sql.issued_books db)
            (Sql.students_auto db) (Sql.books_auto db + 1) (Sql.issued_books_auto db)
  ∧ p' = BookPage.fetch_books (BookPage.clear_fields p) db'.
Proof.
  intros H new. unfold BookPage.add_book, Sql.insert_book, BookPage._int_or_none in H.
  destruct (negb _) eqn:En; [done |].
  apply negb_false_iff, truthy_spec in En.
  fold new in H. simpl in *.
  destruct (Sql.check_book _ _ _) eqn:Ec; [done |].
  case_decide; [| done]. by simplify_eq.
Qed.

Lemma add_student_success_full (p p' : StudentPage.page) (db db' : Sql.DB) :
  StudentPage.add_student p db
    = (p', db', [Tk.showinfo "Success" "Student added."]) →
  let new := Sql.mkstudent (Sql.students_auto db)
               (Py.strip (StudentPage.name_var p))
               (Py.int (StudentPage.age_var p))
               (Some (Py.strip (StudentPage.course_var p)))
               (Py.int (StudentPage.year_var p)) in
  Sql.check_student (Sql.name new) (Sql.age new) (Sql.course new) (Sql.year new)
    = None
  ∧ Py.strip (StudentPage.name_var p) ≠ ""
  ∧ db' = Sql.mkDB (Sql.students db ++ [new]) (Sql.books db) (Sql.issued_books db)
            (Sql.students_auto db + 1) (Sql.books_auto db) (Sql.issued_books_auto db)
  ∧ p' = StudentPage.fetch_students (StudentPage.clear_fields p) db'.
Proof.
  intros H new.
  unfold StudentPage.add_student, Sql.insert_student, StudentPage._int_or_none in H.
  destruct (negb _) eqn:En; [done |].
  apply negb_false_iff, truthy_spec in En.
  fold new in H. simpl in *.
  destruct (Sql.check_student _ _ _ _) eqn:Ec; [done |].
  case_decide; [| done]. by simplify_eq.
Qed.

Lemma fresh_key {A} (key : A → Z) (rows : list A) (auto : Z) :
  keys_ok key rows auto → auto ∉ key <$> rows.
Proof.
  intros [_ Hlt] Hin. apply list_elem_of_fmap in Hin as (x & E & Hx).
  apply Hlt in Hx. lia.
Qed.

(** X2.  After a successful [add_student] the table of the page lists the
    store: the students there were, in their order, followed by one new
    student with the stripped name and course and the parsed age and year.
    Its id was the counter's value, which no student had; the entries and
    the focus are cleared, and the other two tables are untouched. *)
Theorem X2_added_student_is_listed
    (p p' : StudentPage.page) (db db' : Sql.DB) :
  keys_ok Sql.student_id (Sql.students db) (Sql.students_auto db) →
  StudentPage.add_student p db
    = (p', db', [Tk.showinfo "Success" "Student added."]) →
  let new := Sql.mkstudent (Sql.students_auto db)
               (Py.strip (StudentPage.name_var p))
               (Py.int (StudentPage.age_var p))
               (Some (Py.strip (StudentPage.course_var p)))
               (Py.int (StudentPage.year_var p)) in
  Sql.students db' = Sql.students db ++ [new]
  ∧ Tk.rows (StudentPage.tree p') = Sql.students db'
  ∧ Tk.focus (StudentPage.tree p') = None
  ∧ (Sql.student_id new ∉ Sql.student_id <$> Sql.students db)
  ∧ keys_ok Sql.student_id (Sql.students db') (Sql.students_auto db')
  ∧ (StudentPage.name_var p', StudentPage.age_var p', StudentPage.course_var p',
     StudentPage.year_var p', StudentPage.search_var p') = ("", "", "", "", "")
  ∧ Sql.books db' = Sql.books db
  ∧ Sql.issued_books db' = Sql.issued_books db.
Proof.
  intros Hk H new.
  apply add_student_success_full in H as (_ & _ & -> & ->). fold new. simpl.
  split_and!; try done.
  - by apply fresh_key.
  - by apply keys_ok_insert.
Qed.

Lemma X2_witness :
  let sp := StudentPage.mkpage " Ravi " "x" "" "3" "old" (Tk.mkTreeview [] (Some 4%nat)) in
  let r := StudentPage.add_student sp (MainApp.db app1) in
  Sql.students r.1.2
    = Sql.students (MainApp.db app1)
        ++ [Sql.mkstudent 2 "Ravi" None (Some "") (Some 3%Z)]
  ∧ Tk.rows (StudentPage.tree r.1.1) = Sql.students r.1.2.
Proof.
  intros sp r.
  destruct (X2_added_student_is_listed sp r.1.1 (MainApp.db app1) r.1.2)
    as (H1 & H2 & _).
  - split.
    + vm_compute. repeat constructor. by intros ?%elem_of_nil.
    + intros x Hx. vm_compute in Hx.
      apply list_elem_of_singleton in Hx as ->. vm_compute. reflexivity.
  - vm_compute. reflexivity.
  - split; [exact H1 | exact H2].
Defined.

(** X4.  After a successful [add_book] the table of the page lists the
    store, which has one new book at its end: stripped title and author,
    parsed year, status Available, an id no book had.  The next refresh of
    the issue page offers the new book in the book picker. *)
Theorem X4_added_book_is_available
    (p p' : BookPage.page) (ip : IssuePage.page) (db db' : Sql.DB) :
  keys_ok Sql.book_id (Sql.books db) (Sql.books_auto db) →
  BookPage.add_book p db = (p', db', [Tk.showinfo "Success" "Book added."]) →
  let new := Sql.mkbook (Sql.books_auto db) (Py.strip (BookPage.title_var p))
               (Some (Py.strip (BookPage.author_var p)))
               (Py.int (BookPage.pubyear_var p)) Sql.Available in
  Sql.books db' = Sql.books db ++ [new]
  ∧ Tk.rows (BookPage.tree p') = Sql.books db'
  ∧ (Sql.book_id new ∉ Sql.book_id <$> Sql.books db)
  ∧ IssuePage._book_map (IssuePage.refresh_comboboxes ip db')
      !! IssuePage.label (Sql.book_id new, Sql.title new)
    = Some (Sql.book_id new)
  ∧ Sql.students db' = Sql.students db
  ∧ Sql.issued_books db' = Sql.issued_books db.
Proof.
  intros Hk H new.
  apply add_book_success in H as (_ & _ & -> & ->). fold new. simpl.
  split_and!; try done.
  - by apply fresh_key.
  - apply (label_map_complete _ (Sql.book_id new, Sql.title new)).
    apply select_available_books_spec. exists new. split_and!; try done.
    simpl. apply elem_of_app. right. by apply list_elem_of_singleton.
Qed.

Lemma X4_witness :
  let bp := BookPage.mkpage " SICP " "" "1985" "" (Tk.mkTreeview [] None) in
  let r := BookPage.add_book bp (MainApp.db app3) in
  Sql.books r.1.2
    = Sql.books (MainApp.db app3)
        ++ [Sql.mkbook 2 "SICP" (Some "") (Some 1985%Z) Sql.Available]
  ∧ IssuePage._book_map (IssuePage.refresh_comboboxes IssuePage.init r.1.2)
      !! "2 - SICP" = Some 2%Z.
Proof.
  intros bp r.
  destruct (X4_added_book_is_available bp r.1.1 IssuePage.init
              (MainApp.db app3) r.1.2) as (H1 & _ & _ & H2 & _).
  - split.
    + vm_compute. repeat constructor. by intros ?%elem_of_nil.
    + intros x Hx. vm_compute in Hx.
      apply list_elem_of_singleton in Hx as ->. vm_compute. reflexivity.
  - vm_compute. reflexivity.
  - split; [exact H1 | exact H2].
Defined.

(** X5.  A successful [update_student] on the focused row rewrites, in
    place, the students with that row's id (name, age, course and year as
    typed; the id is kept) and no other student; [update_book] does the same
    for title, author and year and never touches the status.  Books and
    issue records, respectively students and issue records, are unchanged,
    and the table is refilled from the store. *)
Theorem X5_update_rewrites_selected_row_only
    (sp sp' : StudentPage.page) (bp bp' : BookPage.page)
    (db db1 db2 : Sql.DB) (sel sel' : nat) (s0 : Sql.student) (b0 : Sql.book) :
  Tk.focus (StudentPage.tree sp) = Some sel →
  Tk.rows (StudentPage.tree sp) !! sel = Some s0 →
  Tk.focus (BookPage.tree bp) = Some sel' →
  Tk.rows (BookPage.tree bp) !! sel' = Some b0 →
  (StudentPage.update_student sp db
     = (sp', db1, [Tk.showinfo "Success" "Student updated."]) →
   Forall2 (λ s s',
      Sql.student_id s' = Sql.student_id s
      ∧ (Sql.student_id s = Sql.student_id s0 →
         s' = Sql.mkstudent (Sql.student_id s)
                (Py.strip (StudentPage.name_var sp))
                (Py.int (StudentPage.age_var sp))
                (Some (Py.strip (StudentPage.course_var sp)))
                (Py.int (StudentPage.year_var sp)))
      ∧ (Sql.student_id s ≠ Sql.student_id s0 → s' = s))
     (Sql.students db) (Sql.students db1)
   ∧ Sql.books db1 = Sql.books db
   ∧ Sql.issued_books db1 = Sql.issued_books db
   ∧ Tk.rows (StudentPage.tree sp') = Sql.students db1)
  ∧ (BookPage.update_book bp db
       = (bp', db2, [Tk.showinfo "Success" "Book updated."]) →
     Forall2 (λ b b',
        Sql.book_id b' = Sql.book_id b
        ∧ Sql.status b' = Sql.status b
        ∧ (Sql.book_id b = Sql.book_id b0 →
           b' = Sql.mkbook (Sql.book_id b)
                  (Py.strip (BookPage.title_var bp))
                  (Some (Py.strip (BookPage.author_var bp)))
                  (Py.int (BookPage.pubyear_var bp)) (Sql.status b))
        ∧ (Sql.book_id b ≠ Sql.book_id b0 → b' = b))
       (Sql.books db) (Sql.books db2)
     ∧ Sql.students db2 = Sql.students db
     ∧ Sql.issued_books db2 = Sql.issued_books db
     ∧ Tk.rows (BookPage.tree bp') = Sql.books db2).
Proof.
  intros Hf Hr Hf' Hr'. split.
  - unfold StudentPage.update_student, Sql.update_student, StudentPage._int_or_none.
    rewrite Hf, Hr. intros H.
    destruct (negb _); [done |].
    destruct (if Sql.has_student _ _ then _ else _); [done |].
    simplify_eq. simpl. split_and!; try done.
    apply Forall2_fmap_r, Forall_Forall2_diag, Forall_forall.
    intros s _. simpl.
    destruct (decide (Sql.student_id s = Sql.student_id s0)); simpl;
      split_and!; done.
  - unfold BookPage.update_book, Sql.update_book, BookPage._int_or_none.
    rewrite Hf', Hr'. intros H.
    destruct (negb _); [done |].
    destruct (if Sql.has_book _ _ then _ else _); [done |].
    simplify_eq. simpl. split_and!; try done.
    apply Forall2_fmap_r, Forall_Forall2_diag, Forall_forall.
    intros b _. simpl.
    destruct (decide (Sql.book_id b = Sql.book_id b0)); simpl;
      split_and!; done.
Qed.

Lemma X5_witness :
  let asha := Sql.mkstudent 1 "Asha Rao" (Some 20%Z) (Some "CS") (Some 2%Z) in
  let sp := StudentPage.mkpage "Asha R." "21" "CS" "3" "" (Tk.mkTreeview [asha] (Some 0%nat)) in
  let r := StudentPage.update_student sp (MainApp.db app3) in
  Sql.books r.1.2 = Sql.books (MainApp.db app3)
  ∧ Tk.rows (StudentPage.tree r.1.1) = Sql.students r.1.2
  ∧ Sql.students r.1.2
    = [Sql.mkstudent 1 "Asha R." (Some 21%Z) (Some "CS") (Some 3%Z)].
Proof.
  intros asha sp r.
  pose proof (X5_update_rewrites_selected_row_only sp r.1.1
                (BookPage.mkpage "" "" "" ""
                   (Tk.mkTreeview [Sql.mkbook 1 "Compilers" None None Sql.Issued]
                      (Some 0%nat)))
                BookPage.init (MainApp.db app3) r.1.2 (MainApp.db app3)
                0%nat 0%nat asha
                (Sql.mkbook 1 "Compilers" None None Sql.Issued)
                eq_refl eq_refl eq_refl eq_refl) as [H _].
  destruct H as (_ & H2 & _ & H4); [vm_compute; reflexivity |].
  split; [exact H2 |]. split; [exact H4 |]. vm_compute. reflexivity.
Defined.

(** X6.  Deleting the selected book, once confirmed, removes the rows of
    [books] with that id and, by the cascade, every issue record of that
    book, open ones included: the handler does not look at the status.
    The other books and issue records stay, in their order, and [students]
    is unchanged. *)
Theorem X6_delete_book_cascades
    (p : BookPage.page) (db : Sql.DB) (sel : nat) (vals : Sql.book) :
  Tk.focus (BookPage.tree p) = Some sel →
  Tk.rows (BookPage.tree p) !! sel = Some vals →
  ∃ p' db',
    BookPage.delete_book true p db
      = (p', db', [Tk.showinfo "Success" "Book deleted."])
    ∧ (∀ b, b ∈ Sql.books db' ↔
            b ∈ Sql.books db ∧ Sql.book_id b ≠ Sql.book_id vals)
    ∧ (∀ i, i ∈ Sql.issued_books db' ↔
            i ∈ Sql.issued_books db
            ∧ Sql.ib_book_id i ≠ Some (Sql.book_id vals))
    ∧ open_issues_of (Sql.book_id vals) db' = []
    ∧ sublist (Sql.books db') (Sql.books db)
    ∧ sublist (Sql.issued_books db') (Sql.issued_books db)
    ∧ Sql.students db' = Sql.students db
    ∧ Tk.rows (BookPage.tree p') = Sql.books db'.
Proof.
  intros Hf Hr. unfold BookPage.delete_book. rewrite Hf, Hr. simpl.
  eexists _, _. split; [reflexivity |]. simpl.
  split_and!; try done.
  - intros b. rewrite list_elem_of_filter. tauto.
  - intros i. rewrite list_elem_of_filter. tauto.
  - unfold open_issues_of. simpl. apply filter_none.
    intros i Hi [E _]. apply list_elem_of_filter in Hi as [Hne _]. done.
  - apply sublist_filter.
  - apply sublist_filter.
Qed.

Lemma X6_witness :
  let book := Sql.mkbook 1 "Compilers" (Some "Aho") (Some 2006%Z) Sql.Issued in
  let p := BookPage.mkpage "" "" "" "" (Tk.mkTreeview [book] (Some 0%nat)) in
  ∃ p' db',
    BookPage.delete_book true p (MainApp.db app3)
      = (p', db', [Tk.showinfo "Success" "Book deleted."])
    ∧ open_issues_of 1 db' = []
    ∧ Sql.students db' = Sql.students (MainApp.db app3).
Proof.
  intros book p.
  destruct (X6_delete_book_cascades p (MainApp.db app3) 0%nat book eq_refl eq_refl)
    as (p' & db' & E & _ & _ & Ho & _ & _ & Hs & _).
  exists p', db'. split; [exact E |]. split; [exact Ho | exact Hs].
Defined.


(* ===================================================================== *)
(** * More on issue and return *)
(* ===================================================================== *)

Lemma update_book_status_null st (db : Sql.DB) :
  Sql.update_book_status st None db = inr db.
Proof.
  unfold Sql.update_book_status.
  rewrite fmap_id_on; [by rewrite db_eta |].
  intros b _. by rewrite decide_False.
Qed.

(** [issue_book] with a book label that [_book_map] does not know. *)
Lemma issue_book_unknown_label (today : Py.date) (p : IssuePage.page) (db : Sql.DB) :
  Tk.text (IssuePage.student_cb p) ≠ "" →
  Tk.text (IssuePage.book_cb p) ≠ "" →
  IssuePage._book_map p !! Tk.text (IssuePage.book_cb p) = None →
  Sql.references
    (IssuePage._student_map p !! Tk.text (IssuePage.student_cb p))
    (Sql.student_id <$> Sql.students db) = true →
  (Sql.issued_books_auto db ≤ Sql.INT_MAX)%Z →
  ∃ p' db',
    IssuePage.issue_book today p db
      = (p', db', [Tk.showinfo "Success" "Book issued."])
    ∧ Sql.issued_books db' =
        Sql.issued_books db
          ++ [Sql.mkissue (Sql.issued_books_auto db)
                (IssuePage._student_map p !! Tk.text (IssuePage.student_cb p))
                None (Some today) None]
    ∧ Sql.books db' = Sql.books db
    ∧ Sql.students db' = Sql.students db.
Proof.
  intros Hs Hb Hmap Href Hauto.
  apply truthy_spec in Hs, Hb.
  unfold IssuePage.issue_book. rewrite Hs, Hb, Hmap.
  change (negb true || negb true) with false. cbv iota.
  set (sid := IssuePage._student_map p !! _) in *.
  assert (Sql.insert_issue sid None today db
          = inr (Sql.mkDB (Sql.students db) (Sql.books db)
                   (Sql.issued_books db
                      ++ [Sql.mkissue (Sql.issued_books_auto db) sid None
                            (Some today) None])
                   (Sql.students_auto db) (Sql.books_auto db)
                   (Sql.issued_books_auto db + 1))) as ->.
  { unfold Sql.insert_issue. rewrite decide_True by done.
    rewrite Href. done. }
  rewrite update_book_status_null.
  eexists _, _. split; [reflexivity |]. done.
Qed.

(** X7.  [issue_book] does not check what the maps return.  When the text
    shown in the book box is not a key of [_book_map] (the box keeps its
    text across refreshes), [dict.get] gives [None]: the handler inserts an
    issue record with a NULL [book_id], for the student the other box
    resolves to, changes no book, and reports "Book issued.". *)
Theorem X7_issue_with_unknown_book_label
    (today : Py.date) (p : IssuePage.page) (db : Sql.DB) :
  Tk.text (IssuePage.student_cb p) ≠ "" →
  Tk.text (IssuePage.book_cb p) ≠ "" →
  IssuePage._book_map p !! Tk.text (IssuePage.book_cb p) = None →
  Sql.references
    (IssuePage._student_map p !! Tk.text (IssuePage.student_cb p))
    (Sql.student_id <$> Sql.students db) = true →
  (Sql.issued_books_auto db ≤ Sql.INT_MAX)%Z →
  ∃ p' db',
    IssuePage.issue_book today p db
      = (p', db', [Tk.showinfo "Success" "Book issued."])
    ∧ Sql.issued_books db' =
        Sql.issued_books db
          ++ [Sql.mkissue (Sql.issued_books_auto db)
                (IssuePage._student_map p !! Tk.text (IssuePage.student_cb p))
                None (Some today) None]
    ∧ Sql.books db' = Sql.books db
    ∧ Sql.students db' = Sql.students db.
Proof. apply issue_book_unknown_label. Qed.

Lemma X7_witness :
  ∃ p' db',
    IssuePage.issue_book today0 (MainApp.issues app3) (MainApp.db app3)
      = (p', db', [Tk.showinfo "Success" "Book issued."])
    ∧ Sql.issued_books db' =
        Sql.issued_books (MainApp.db app3)
          ++ [Sql.mkissue 2 (Some 1%Z) None (Some today0) None]
    ∧ Sql.books db' = Sql.books (MainApp.db app3).
Proof.
  destruct (X7_issue_with_unknown_book_label today0 (MainApp.issues app3)
              (MainApp.db app3)) as (p' & db' & E & Hi & Hb & _).
  - vm_compute. congruence.
  - vm_compute. congruence.
  - vm_compute. reflexivity.
  - vm_compute. reflexivity.
  - vm_compute. congruence.
  - exists p', db'. split; [exact E |]. split; [exact Hi | exact Hb].
Defined.

Lemma issue_book_keeps_texts today (p p' : IssuePage.page) (db db' : Sql.DB) d :
  IssuePage.issue_book today p db = (p', db', d) →
  Tk.text (IssuePage.student_cb p') = Tk.text (IssuePage.student_cb p)
  ∧ Tk.text (IssuePage.book_cb p') = Tk.text (IssuePage.book_cb p).
Proof.
  unfold IssuePage.issue_book. intros H.
  repeat case_match; by simplify_eq.
Qed.

(** X8.  After [issue_book] has issued a book through a page that showed
    the store, the book box still shows that book's label, but the
    refreshed [_book_map] has no entry for it.  So "Issue Book" pressed
    again, with nothing picked in between, is the case of X7: it adds an
    issue record without a book and leaves every book as it is. *)
Theorem X8_issue_pressed_twice
    (today today2 : Py.date) (p p' : IssuePage.page) (db db' : Sql.DB) (k : Z) :
  in_sync p db →
  IssuePage._book_map p !! Tk.text (IssuePage.book_cb p) = Some k →
  IssuePage.issue_book today p db
    = (p', db', [Tk.showinfo "Success" "Book issued."]) →
  (Sql.issued_books_auto db' ≤ Sql.INT_MAX)%Z →
  IssuePage._book_map p' !! Tk.text (IssuePage.book_cb p') = None
  ∧ ∃ p'' db'',
      IssuePage.issue_book today2 p' db'
        = (p'', db'', [Tk.showinfo "Success" "Book issued."])
      ∧ Sql.issued_books db'' =
          Sql.issued_books db'
            ++ [Sql.mkissue (Sql.issued_books_auto db')
                  (IssuePage._student_map p'
                     !! Tk.text (IssuePage.student_cb p'))
                  None (Some today2) None]
      ∧ Sql.books db'' = Sql.books db'.
Proof.
  intros Hsync Hk H Hauto.
  pose proof (issue_book_keeps_texts _ _ _ _ _ _ H) as [Hts Htb].
  pose proof (issue_book_frame _ _ _ _ _ H) as (_ & _ & HF & _).
  cbv zeta in HF. rewrite Hk in HF.
  apply Forall2_status_set in HF as (Hst & _ & _ & _).
  pose proof H as Hp. apply issue_book_success in Hp as (_ & _ & _ & Ep').
  assert (IssuePage._book_map p' !! Tk.text (IssuePage.book_cb p') = None) as Hnone.
  { destruct (IssuePage._book_map p' !! _) as [k'|] eqn:E; [| done]. exfalso.
    rewrite Ep' in E.
    apply refreshed_book_map in E as (b' & Hb' & Hs' & Hid' & El).
    destruct Hsync as [Hm _]. rewrite Hm in Hk.
    apply label_map_lookup in Hk as (t & _ & El0).
    rewrite <- Ep', Htb, <- El0 in El. apply label_inj in El. simplify_eq.
    rewrite (Hst b' Hb') in Hs' by done. done. }
  split; [exact Hnone |].
  assert (Tk.text (IssuePage.student_cb p) ≠ ""
          ∧ Tk.text (IssuePage.book_cb p) ≠ "") as [Hns Hnb].
  { unfold IssuePage.issue_book in H.
    destruct (Py.truthy (Tk.text (IssuePage.student_cb p))) eqn:E1;
      [| by simpl in H].
    destruct (Py.truthy (Tk.text (IssuePage.book_cb p))) eqn:E2;
      [| by simpl in H].
    by apply truthy_spec in E1, E2. }
  destruct (issue_book_unknown_label today2 p' db')
    as (p'' & db'' & E & Hi & Hb & _); try done; try congruence.
  - destruct (IssuePage._student_map p' !! _) as [sid|] eqn:Es; [| done].
    rewrite Ep' in Es. apply refreshed_student_map in Es.
    simpl. by apply bool_decide_eq_true.
  - eauto.
Qed.

Lemma X8_witness :
  IssuePage._book_map (MainApp.issues app3)
    !! Tk.text (IssuePage.book_cb (MainApp.issues app3)) = None
  ∧ ∃ p'' db'',
      IssuePage.issue_book today0 (MainApp.issues app3) (MainApp.db app3)
        = (p'', db'', [Tk.showinfo "Success" "Book issued."])
      ∧ Sql.books db'' = Sql.books (MainApp.db app3).
Proof.
  destruct (X8_issue_pressed_twice today0 today0 (MainApp.issues app2)
              (MainApp.issues app3) (MainApp.db app2) (MainApp.db app3) 1%Z)
    as (Hnone & p'' & db'' & E & _ & Hb).
  - split; vm_compute; reflexivity.
  - vm_compute. reflexivity.
  - vm_compute. reflexivity.
  - vm_compute. congruence.
  - split; [exact Hnone |]. exists p'', db''. split; [exact E | exact Hb].
Defined.

(** X9.  After a successful [issue_book] with both labels resolved, the
    refreshed table has a row for the new issue record: its id, the
    student's id and name, the book's id and title, today's date as ISO
    text in the issue-date column and the empty text in the return-date
    column. *)
Theorem X9_issued_book_is_listed
    (today : Py.date) (p p' : IssuePage.page) (db db' : Sql.DB) (sid bid : Z) :
  IssuePage._student_map p !! Tk.text (IssuePage.student_cb p) = Some sid →
  IssuePage._book_map p !! Tk.text (IssuePage.book_cb p) = Some bid →
  IssuePage.issue_book today p db
    = (p', db', [Tk.showinfo "Success" "Book issued."]) →
  ∃ s b,
    s ∈ Sql.students db ∧ Sql.student_id s = sid
    ∧ b ∈ Sql.books db ∧ Sql.book_id b = bid
    ∧ IssuePage.mkrow (Sql.issued_books_auto db) sid (Sql.name s) bid
        (Sql.title b) (Py.isoformat today) ""
      ∈ Tk.rows (IssuePage.tree p')
    ∧ Tk.focus (IssuePage.tree p') = None.
Proof.
  intros Hsid Hbid H.
  pose proof (issue_book_frame _ _ _ _ _ H) as (Es & Ei & HF & _).
  cbv zeta in Ei, HF. rewrite Hsid, Hbid in Ei. rewrite Hbid in HF.
  apply issue_book_success in H as (db1 & E1 & _ & ->).
  rewrite Hsid, Hbid in E1.
  apply insert_issue_success in E1 as (_ & _ & _ & _ & _ & _ & Hrs & Hrb).
  simpl in Hrs, Hrb. apply bool_decide_eq_true in Hrs, Hrb.
  apply list_elem_of_fmap in Hrs as (s & -> & Hs).
  apply list_elem_of_fmap in Hrb as (b & -> & Hb).
  apply list_elem_of_lookup in Hb as [n Hn].
  destruct (Forall2_lookup_l _ _ _ _ _ HF Hn) as (b' & Hn' & Eid & Et & _).
  exists s, b. split_and!; try done.
  - by eapply list_elem_of_lookup_2.
  - simpl.
    replace (IssuePage.mkrow (Sql.issued_books_auto db) (Sql.student_id s)
               (Sql.name s) (Sql.book_id b) (Sql.title b) (Py.isoformat today) "")
      with (IssuePage.format
              (Sql.mkissued_row (Sql.issued_books_auto db) (Sql.student_id s)
                 (Sql.name s) (Sql.book_id b') (Sql.title b') (Some today) None))
      by (unfold IssuePage.format; simpl; congruence).
    apply list_elem_of_fmap_2, select_issued_spec, join_issued_spec.
    exists (Sql.mkissue (Sql.issued_books_auto db) (Some (Sql.student_id s))
              (Some (Sql.book_id b)) (Some today) None), s, b'.
    rewrite Ei, Es. simpl. split_and!; try done.
    + apply elem_of_app. right. by apply list_elem_of_singleton.
    + by eapply list_elem_of_lookup_2.
    + congruence.
Qed.

Lemma X9_witness :
  IssuePage.mkrow 1 1 "Asha Rao" 1 "Compilers" "2024-03-05" ""
    ∈ Tk.rows (IssuePage.tree (MainApp.issues app3)).
Proof.
  destruct (X9_issued_book_is_listed today0 (MainApp.issues app2)
              (MainApp.issues app3) (MainApp.db app2) (MainApp.db app3) 1%Z 1%Z)
    as (s & b & Hs & Es & Hb & Eb & Hrow & _).
  - vm_compute. reflexivity.
  - vm_compute. reflexivity.
  - vm_compute. reflexivity.
  - vm_compute in Hs, Hb.
    apply list_elem_of_singleton in Hs as ->.
    apply list_elem_of_singleton in Hb as ->. exact Hrow.
Defined.

(* ===================================================================== *)
(** * Return: what else holds *)
(* ===================================================================== *)

(** What [return_book] did when it reports success. *)
Lemma return_book_success yes today (p p' : IssuePage.page) (db db' : Sql.DB) :
  IssuePage.return_book yes today p db
    = (p', db', [Tk.showinfo "Success" "Book returned."]) →
  ∃ sel vals db1,
    Tk.focus (IssuePage.tree p) = Some sel
    ∧ Tk.rows (IssuePage.tree p) !! sel = Some vals
    ∧ IssuePage.already_returned vals = false
    ∧ yes = true
    ∧ Sql.update_return_date today (IssuePage.IssueID vals) db = inr db1
    ∧ Sql.update_book_status Sql.Available (Some (IssuePage.BookID vals)) db1
      = inr db'
    ∧ p' = IssuePage.refresh_all p db'.
Proof.
  unfold IssuePage.return_book. intros H.
  destruct (Tk.focus _) as [sel|]; [| done].
  destruct (_ !! sel) as [vals|] eqn:Hr; [| done].
  destruct (IssuePage.already_returned vals) eqn:Ha; [done |].
  destruct yes; [| done]. simpl in H. simplify_eq.
  eexists sel, vals, _. split_and!; done.
Qed.

(** X10.  A successful [return_book] on the focused row changes the store
    in two places only: the issue records with the row's issue id get
    today's date as return date, and the books with the row's book id get
    the status Available.  [students] and the counters are unchanged; every
    issue record keeps its id, student, book and issue date, the records
    with another id their whole row; every book keeps its id, title, author
    and year, the books with another id their whole row.  Success is
    reported only after the question was answered with yes. *)
Theorem X10_return_book_frame
    (yes : bool) (today : Py.date) (p p' : IssuePage.page) (db db' : Sql.DB)
    (sel : nat) (vals : IssuePage.row) :
  Tk.focus (IssuePage.tree p) = Some sel →
  Tk.rows (IssuePage.tree p) !! sel = Some vals →
  IssuePage.return_book yes today p db
    = (p', db', [Tk.showinfo "Success" "Book returned."]) →
  yes = true
  ∧ Sql.students db' = Sql.students db
  ∧ Forall2 (λ i i',
       Sql.issue_id i' = Sql.issue_id i
       ∧ Sql.ib_student_id i' = Sql.ib_student_id i
       ∧ Sql.ib_book_id i' = Sql.ib_book_id i
       ∧ Sql.issue_date i' = Sql.issue_date i
       ∧ (Sql.issue_id i = IssuePage.IssueID vals →
          Sql.return_date i' = Some today)
       ∧ (Sql.issue_id i ≠ IssuePage.IssueID vals → i' = i))
     (Sql.issued_books db) (Sql.issued_books db')
  ∧ Forall2 (λ b b',
       Sql.book_id b' = Sql.book_id b
       ∧ Sql.title b' = Sql.title b
       ∧ Sql.author b' = Sql.author b
       ∧ Sql.pub_year b' = Sql.pub_year b
       ∧ (Sql.book_id b = IssuePage.BookID vals →
          Sql.status b' = Sql.Available)
       ∧ (Sql.book_id b ≠ IssuePage.BookID vals → b' = b))
     (Sql.books db) (Sql.books db')
  ∧ (Sql.students_auto db', Sql.books_auto db', Sql.issued_books_auto db')
    = (Sql.students_auto db, Sql.books_auto db, Sql.issued_books_auto db).
Proof.
  intros Hf Hr H.
  apply return_book_success in H
    as (sel' & vals' & db1 & Hf' & Hr' & _ & -> & E1 & E2 & _).
  rewrite Hf in Hf'. simplify_eq.
  destruct (update_return_date_spec today (IssuePage.IssueID vals) db)
    as (d & Ed & Es1 & Eb1 & Esa & Eba & Eia & HFi).
  rewrite E1 in Ed. simplify_eq.
  apply update_book_status_books in E2 as (Es2 & Ei2 & Esa2 & Eba2 & Eia2 & HFb).
  split_and!; [done | congruence | by rewrite Ei2 | | congruence].
  rewrite Eb1 in HFb. eapply Forall2_impl; [exact HFb |].
  intros b b' (? & ? & ? & ? & Hst & Hne). split_and!; try done.
  - intros E. apply Hst. congruence.
  - intros E. apply Hne. congruence.
Qed.

Lemma X10_witness :
  let p := focus_issued 0 (MainApp.issues app3) in
  let r := IssuePage.return_book true today0 p (MainApp.db app3) in
  Sql.students r.1.2 = Sql.students (MainApp.db app3)
  ∧ Sql.return_date <$> Sql.issued_books r.1.2 = [Some today0]
  ∧ Sql.status <$> Sql.books r.1.2 = [Sql.Available].
Proof.
  intros p r.
  destruct (X10_return_book_frame true today0 p r.1.1 (MainApp.db app3) r.1.2
              0%nat (IssuePage.mkrow 1 1 "Asha Rao" 1 "Compilers" "2024-03-05" ""))
    as (_ & Hs & _); [vm_compute; reflexivity .. |].
  split; [exact Hs |]. split; vm_compute; reflexivity.
Defined.

(** X11.  After a successful [return_book] through a table that showed the
    store, the returned book is offered again: the store has a book with
    the row's book id, and every such book is Available, its label is among
    the values of the refreshed book picker, and the picker's map takes the
    label to the book's id. *)
Theorem X11_returned_book_is_offered_again
    (yes : bool) (today : Py.date) (p p' : IssuePage.page) (db db' : Sql.DB)
    (sel : nat) (vals : IssuePage.row) :
  Tk.rows (IssuePage.tree p) = IssuePage.format <$> Sql.select_issued db →
  Tk.focus (IssuePage.tree p) = Some sel →
  Tk.rows (IssuePage.tree p) !! sel = Some vals →
  IssuePage.return_book yes today p db
    = (p', db', [Tk.showinfo "Success" "Book returned."]) →
  (∃ b, b ∈ Sql.books db' ∧ Sql.book_id b = IssuePage.BookID vals)
  ∧ ∀ b, b ∈ Sql.books db' → Sql.book_id b = IssuePage.BookID vals →
      Sql.status b = Sql.Available
      ∧ IssuePage.label (Sql.book_id b, Sql.title b)
          ∈ Tk.values (IssuePage.book_cb p')
      ∧ IssuePage._book_map p' !! IssuePage.label (Sql.book_id b, Sql.title b)
        = Some (Sql.book_id b).
Proof.
  intros Hsync Hf Hr H.
  assert (vals ∈ IssuePage.format <$> Sql.select_issued db) as Hin.
  { rewrite <- Hsync. by eapply list_elem_of_lookup_2. }
  apply listed_row_origin in Hin
    as (ib & s & b0 & _ & _ & Hb0 & _ & _ & _ & Ebid & _).
  apply return_book_success in H
    as (sel' & vals' & db1 & Hf' & Hr' & _ & _ & E1 & E2 & ->).
  rewrite Hf in Hf'. simplify_eq.
  destruct (update_return_date_spec today (IssuePage.IssueID vals) db)
    as (d & Ed & _ & Eb1 & _). rewrite E1 in Ed. simplify_eq.
  apply update_book_status_books in E2 as (_ & _ & _ & _ & _ & HFb).
  rewrite Eb1 in HFb. apply Forall2_status_set in HFb as (Hst & _ & Hfwd & _).
  split.
  - destruct (Hfwd b0 Hb0) as (b' & ? & ?). exists b'. split; congruence.
  - intros b Hb Eb.
    assert (Sql.status b = Sql.Available) as Hs by (apply Hst; congruence).
    split; [done |].
    assert ((Sql.book_id b, Sql.title b) ∈ Sql.select_available_books db') as Hsel.
    { apply select_available_books_spec. eauto. }
    apply label_map_complete in Hsel. simpl.
    split; [| done]. apply keys_spec. by eexists.
Qed.

Lemma X11_witness :
  let p := focus_issued 0 (MainApp.issues app3) in
  let r := IssuePage.return_book true today0 p (MainApp.db app3) in
  ∃ b, b ∈ Sql.books r.1.2 ∧ Sql.book_id b = 1%Z.
Proof.
  intros p r.
  destruct (X11_returned_book_is_offered_again true today0 p r.1.1
              (MainApp.db app3) r.1.2 0%nat
              (IssuePage.mkrow 1 1 "Asha Rao" 1 "Compilers" "2024-03-05" ""))
    as [H _]; [vm_compute; reflexivity .. |].
  exact H.
Defined.

(* ===================================================================== *)
(** * Select, then update *)
(* ===================================================================== *)

(** What [on_select] writes into a number entry reads back, through
    [_int_or_none], as the stored value: a NULL shows as ["None"], which is
    no integer literal. *)
Lemma int_cell_int (v : option Z) :
  Sql.fits_int v = true → Py.int (Tk.cell_int v) = v.
Proof.
  destruct v as [n|]; [| done].
  intros H. simpl. by apply int_str, int_range_bound.
Qed.

(** Rows with distinct keys are told apart by their key. *)
Lemma key_inj {A} (key : A → Z) (l : list A) (x y : A) :
  NoDup (key <$> l) → x ∈ l → y ∈ l → key x = key y → x = y.
Proof.
  intros Hnd Hx Hy E.
  apply list_elem_of_lookup in Hx as [i Hi].
  apply list_elem_of_lookup in Hy as [j Hj].
  assert (i = j) as ->.
  { eapply NoDup_lookup; [exact Hnd | |].
    - by rewrite list_lookup_fmap, Hi.
    - rewrite list_lookup_fmap, Hj. simpl. by rewrite E. }
  congruence.
Qed.

Lemma truthy_nonempty (s : string) : s ≠ "" → negb (Py.truthy s) = false.
Proof. by destruct s. Qed.

Lemma fits_varchar_le (n : nat) (s : string) :
  (String.length s ≤ n)%nat → Sql.fits_varchar n (Some s) = true.
Proof. intros H. simpl. by apply Nat.leb_le. Qed.

(** X12.  Releasing the mouse on a row of the students table and pressing
    "Update" without editing leaves the store as it is: the entries that
    [on_select] fills read back, through [strip] and [_int_or_none], as the
    stored name, age, course and year, a NULL age or year included.  The
    row is a student of the store with a non-empty stripped name that fits
    its column, a course that is not NULL, and numbers within [INT]; the
    ids of the table are distinct. *)
Theorem X12_select_then_update_student_is_identity
    (p : StudentPage.page) (db : Sql.DB) (sel : nat) (s0 : Sql.student) :
  Tk.focus (StudentPage.tree p) = Some sel →
  Tk.rows (StudentPage.tree p) !! sel = Some s0 →
  s0 ∈ Sql.students db →
  NoDup (Sql.student_id <$> Sql.students db) →
  student_ok s0 →
  StudentPage.update_student (StudentPage.on_select p) db
    = (StudentPage.fetch_students (StudentPage.on_select p) db, db,
       [Tk.showinfo "Success" "Student updated."])
  ∧ StudentPage.name_var (StudentPage.on_select p) = Sql.name s0
  ∧ StudentPage._int_or_none (StudentPage.age_var (StudentPage.on_select p))
    = Sql.age s0
  ∧ Some (StudentPage.course_var (StudentPage.on_select p)) = Sql.course s0
  ∧ StudentPage._int_or_none (StudentPage.year_var (StudentPage.on_select p))
    = Sql.year s0.
Proof.
  intros Hf Hr Hin Hnd (Hne & [Hst Hlen] & (c & Ec & [Hcst Hclen]) & Ha & Hy).
  unfold StudentPage.on_select. rewrite Hf, Hr.
  unfold StudentPage.update_student, StudentPage._int_or_none. simpl.
  rewrite Hf, Hr, !int_cell_int, Ec by done. simpl.
  rewrite Hst, Hcst, truthy_nonempty by done.
  split_and!; try done.
  unfold Sql.update_student, Sql.has_student.
  rewrite bool_decide_eq_true_2 by by apply list_elem_of_fmap_2.
  unfold Sql.check_student.
  rewrite !fits_varchar_le, Ha, Hy by done. simpl.
  rewrite fmap_id_on; [by rewrite db_eta |].
  intros s Hs. case_decide as E; [| done].
  assert (s = s0) as -> by by eapply (key_inj Sql.student_id).
  destruct s0; simpl in *. by subst.
Qed.

Lemma X12_witness :
  let a := MainApp.run [MainApp.ManageStudents; MainApp.FocusStudent 0] app1 in
  (StudentPage.update_student (StudentPage.on_select (MainApp.students a))
     (MainApp.db a)).1.2 = MainApp.db a.
Proof.
  intros a.
  destruct (X12_select_then_update_student_is_identity (MainApp.students a)
              (MainApp.db a) 0%nat (Sql.mkstudent 1 "Asha Rao" (Some 20%Z) (Some "CS") (Some 2%Z)))
    as [-> _]; try (vm_compute; reflexivity).
  - vm_compute. apply list_elem_of_here.
  - vm_compute. apply NoDup_singleton.
  - split_and!; try done; try (vm_compute; reflexivity).
    + split; [vm_compute; reflexivity | simpl; lia].
    + exists "CS". split; [done |]. split; [vm_compute; reflexivity | simpl; lia].
Defined.

(** X13.  The same for the books table: select, then "Update" without
    editing, leaves the store as it is, the status of the book included. *)
Theorem X13_select_then_update_book_is_identity
    (p : BookPage.page) (db : Sql.DB) (sel : nat) (b0 : Sql.book) :
  Tk.focus (BookPage.tree p) = Some sel →
  Tk.rows (BookPage.tree p) !! sel = Some b0 →
  b0 ∈ Sql.books db →
  NoDup (Sql.book_id <$> Sql.books db) →
  book_ok b0 →
  BookPage.update_book (BookPage.on_select p) db
    = (BookPage.fetch_books (BookPage.on_select p) db, db,
       [Tk.showinfo "Success" "Book updated."])
  ∧ BookPage.title_var (BookPage.on_select p) = Sql.title b0
  ∧ Some (BookPage.author_var (BookPage.on_select p)) = Sql.author b0
  ∧ BookPage._int_or_none (BookPage.pubyear_var (BookPage.on_select p))
    = Sql.pub_year b0.
Proof.
  intros Hf Hr Hin Hnd (Hne & [Hst Hlen] & (c & Ec & [Hcst Hclen]) & Hy).
  unfold BookPage.on_select. rewrite Hf, Hr.
  unfold BookPage.update_book, BookPage._int_or_none. simpl.
  rewrite Hf, Hr, !int_cell_int, Ec by done. simpl.
  rewrite Hst, Hcst, truthy_nonempty by done.
  split_and!; try done.
  unfold Sql.update_book, Sql.has_book.
  rewrite bool_decide_eq_true_2 by by apply list_elem_of_fmap_2.
  unfold Sql.check_book.
  rewrite !fits_varchar_le, Hy by done. simpl.
  rewrite fmap_id_on; [by rewrite db_eta |].
  intros b Hb. case_decide as E; [| done].
  assert (b = b0) as -> by by eapply (key_inj Sql.book_id).
  destruct b0; simpl in *. by subst.
Qed.

Lemma X13_witness :
  let a := MainApp.run [MainApp.Back; MainApp.ManageBooks; MainApp.FocusBook 0] app3 in
  (BookPage.update_book (BookPage.on_select (MainApp.books a))
     (MainApp.db a)).1.2 = MainApp.db a.
Proof.
  intros a.
  destruct (X13_select_then_update_book_is_identity (MainApp.books a)
              (MainApp.db a) 0%nat
              (Sql.mkbook 1 "Compilers" (Some "Aho") (Some 2006%Z) Sql.Issued))
    as [-> _]; try (vm_compute; reflexivity).
  - vm_compute. apply list_elem_of_here.
  - vm_compute. apply NoDup_singleton.
  - split_and!; try done; try (vm_compute; reflexivity).
    + split; [vm_compute; reflexivity | simpl; lia].
    + exists "Aho". split; [done |]. split; [vm_compute; reflexivity | simpl; lia].
Defined.

(* ===================================================================== *)
(** * What the forms store *)
(* ===================================================================== *)

Lemma Forall_filter_keep {A} (P Q : A → Prop) `{!∀ x, Decision (Q x)} (l : list A) :
  Forall P l → Forall P (filter Q l).
Proof.
  rewrite !Forall_forall. intros Hall x [_ Hx]%list_elem_of_filter.
  by apply Hall.
Qed.

Lemma check_student_all name age course year :
  Sql.check_student name age course year = None →
  Sql.fits_varchar 100 (Some name) = true ∧ Sql.fits_int age = true
  ∧ Sql.fits_varchar 100 course = true ∧ Sql.fits_int year = true.
Proof.
  unfold Sql.check_student. cbn [Sql.check].
  destruct (Sql.fits_varchar 100 (Some name)); [| done].
  destruct (Sql.fits_int age); [| done].
  destruct (Sql.fits_varchar 100 course); [| done].
  by destruct (Sql.fits_int year).
Qed.

Lemma check_book_all title author pub_year :
  Sql.check_book title author pub_year = None →
  Sql.fits_varchar 255 (Some title) = true
  ∧ Sql.fits_varchar 150 author = true ∧ Sql.fits_int pub_year = true.
Proof.
  unfold Sql.check_book. cbn [Sql.check].
  destruct (Sql.fits_varchar 255 (Some title)); [| done].
  destruct (Sql.fits_varchar 150 author); [| done].
  by destruct (Sql.fits_int pub_year).
Qed.

Lemma fits_varchar_length (n : nat) (s : string) :
  Sql.fits_varchar n (Some s) = true → (String.length s ≤ n)%nat.
Proof. simpl. apply Nat.leb_le. Qed.

Lemma student_ok_stored id name age course year :
  name ≠ "" → stripped name → stripped course →
  Sql.check_student name age (Some course) year = None →
  student_ok (Sql.mkstudent id name age (Some course) year).
Proof.
  intros Hne Hst Hc (Hn & Ha & Hco & Hy)%check_student_all.
  apply fits_varchar_length in Hn, Hco.
  split_and!; try done. by exists course.
Qed.

Lemma book_ok_stored id title author pub_year st :
  title ≠ "" → stripped title → stripped author →
  Sql.check_book title (Some author) pub_year = None →
  book_ok (Sql.mkbook id title (Some author) pub_year st).
Proof.
  intros Hne Hst Hc (Hn & Hau & Hy)%check_book_all.
  apply fits_varchar_length in Hn, Hau.
  split_and!; try done. by exists author.
Qed.

Lemma well_formed_insert_student name age course year (db : Sql.DB) :
  name ≠ "" → stripped name → stripped course →
  well_formed db →
  well_formed (after (Sql.insert_student name age (Some course) year db)).
Proof.
  intros Hne Hst Hc (Hs & Hb & Hi). unfold Sql.insert_student.
  destruct (Sql.check_student _ _ _ _) eqn:Eck; [done |].
  case_decide; [| done]. simpl. split_and!; try done.
  apply Forall_app. split; [done |].
  apply Forall_singleton. by apply student_ok_stored.
Qed.

Lemma well_formed_update_student name age course year sid (db : Sql.DB) :
  name ≠ "" → stripped name → stripped course →
  well_formed db →
  well_formed (after (Sql.update_student name age (Some course) year sid db)).
Proof.
  intros Hne Hst Hc (Hs & Hb & Hi). unfold Sql.update_student.
  destruct (Sql.has_student sid db) eqn:Ehas.
  - destruct (Sql.check_student _ _ _ _) eqn:Eck; [done |].
    simpl. split_and!; try done.
    apply Forall_fmap. eapply Forall_impl; [exact Hs |].
    intros s Hok. simpl. case_decide; [| done]. by apply student_ok_stored.
  - simpl. split_and!; try done.
    apply Forall_fmap, Forall_forall. intros s Hin. simpl.
    case_decide as E.
    + apply bool_decide_eq_false in Ehas. exfalso. apply Ehas.
      rewrite <- E. by apply list_elem_of_fmap_2.
    + by eapply Forall_forall in Hs.
Qed.

Lemma well_formed_delete_student sid (db : Sql.DB) :
  well_formed db → well_formed (after (Sql.delete_student sid db)).
Proof.
  intros (Hs & Hb & Hi). simpl. split_and!; try done.
  - by apply Forall_filter_keep.
  - by apply Forall_filter_keep.
Qed.

Lemma well_formed_insert_book title author pub_year (db : Sql.DB) :
  title ≠ "" → stripped title → stripped author →
  well_formed db →
  well_formed (after (Sql.insert_book title (Some author) pub_year db)).
Proof.
  intros Hne Hst Hc (Hs & Hb & Hi). unfold Sql.insert_book.
  destruct (Sql.check_book _ _ _) eqn:Eck; [done |].
  case_decide; [| done]. simpl. split_and!; try done.
  apply Forall_app. split; [done |].
  apply Forall_singleton. by apply book_ok_stored.
Qed.

Lemma well_formed_update_book title author pub_year bid (db : Sql.DB) :
  title ≠ "" → stripped title → stripped author →
  well_formed db →
  well_formed (after (Sql.update_book title (Some author) pub_year bid db)).
Proof.
  intros Hne Hst Hc (Hs & Hb & Hi). unfold Sql.update_book.
  destruct (Sql.has_book bid db) eqn:Ehas.
  - destruct (Sql.check_book _ _ _) eqn:Eck; [done |].
    simpl. split_and!; try done.
    apply Forall_fmap. eapply Forall_impl; [exact Hb |].
    intros b Hok. simpl. case_decide; [| done]. by apply book_ok_stored.
  - simpl. split_and!; try done.
    apply Forall_fmap, Forall_forall. intros b Hin. simpl.
    case_decide as E.
    + apply bool_decide_eq_false in Ehas. exfalso. apply Ehas.
      rewrite <- E. by apply list_elem_of_fmap_2.
    + by eapply Forall_forall in Hb.
Qed.

Lemma well_formed_delete_book bid (db : Sql.DB) :
  well_formed db → well_formed (after (Sql.delete_book bid db)).
Proof.
  intros (Hs & Hb & Hi). simpl. split_and!; try done.
  - by apply Forall_filter_keep.
  - by apply Forall_filter_keep.
Qed.

Lemma well_formed_update_book_status st bid (db : Sql.DB) :
  well_formed db → well_formed (after (Sql.update_book_status st bid db)).
Proof.
  intros (Hs & Hb & Hi). simpl. split_and!; try done.
  apply Forall_fmap. eapply Forall_impl; [exact Hb |].
  intros b Hok. simpl. by case_decide.
Qed.

Lemma well_formed_insert_issue sid bid today (db : Sql.DB) :
  well_formed db → well_formed (after (Sql.insert_issue sid bid today db)).
Proof.
  intros (Hs & Hb & Hi). unfold Sql.insert_issue.
  case_decide; [| done].
  destruct (negb _); [done |]. destruct (negb _); [done |].
  simpl. split_and!; try done.
  apply Forall_app. split; [done |]. apply Forall_singleton. by eexists.
Qed.

Lemma well_formed_update_return_date today iid (db : Sql.DB) :
  well_formed db → well_formed (after (Sql.update_return_date today iid db)).
Proof.
  intros (Hs & Hb & Hi). simpl. split_and!; try done.
  apply Forall_fmap. eapply Forall_impl; [exact Hi |].
  intros i Hok. simpl. by case_decide.
Qed.

Lemma after_result (r : Sql.result) (P : Sql.DB → Prop) :
  P (after r) →
  match r with inl (_, d) => P d | inr d => P d end.
Proof. by destruct r as [[? ?]|?]. Qed.

(** Every user action keeps the stored rows well formed. *)
Lemma well_formed_handle (ev : MainApp.event) (a : MainApp.app) :
  well_formed (MainApp.db a) → well_formed (MainApp.db (MainApp.handle ev a).1).
Proof.
  intros H. destruct ev; simpl; try done.
  - unfold StudentPage.add_student.
    destruct (negb _) eqn:Et; [done |].
    apply negb_false_iff, truthy_spec in Et.
    match goal with |- context [Sql.insert_student ?n ?g (Some ?c) ?y ?d] =>
      pose proof (well_formed_insert_student n g c y d Et
                    (stripped_strip _) (stripped_strip _) H) as H';
      destruct (Sql.insert_student n g (Some c) y d) as [[? ?]|?] end; done.
  - unfold StudentPage.update_student.
    destruct (Tk.focus _) as [sel|]; [| done].
    destruct (_ !! sel) as [vals|]; [| done].
    destruct (negb _) eqn:Et; [done |].
    apply negb_false_iff, truthy_spec in Et.
    match goal with |- context [Sql.update_student ?n ?g (Some ?c) ?y ?s ?d] =>
      pose proof (well_formed_update_student n g c y s d Et
                    (stripped_strip _) (stripped_strip _) H) as H';
      destruct (Sql.update_student n g (Some c) y s d) as [[? ?]|?] end; done.
  - unfold StudentPage.delete_student.
    destruct (Tk.focus _) as [sel|]; [| done].
    destruct (_ !! sel) as [vals|]; [| done].
    destruct (negb _); [done |].
    apply (well_formed_delete_student (Sql.student_id vals) _ H).
  - unfold BookPage.add_book.
    destruct (negb _) eqn:Et; [done |].
    apply negb_false_iff, truthy_spec in Et.
    match goal with |- context [Sql.insert_book ?t (Some ?c) ?y ?d] =>
      pose proof (well_formed_insert_book t c y d Et
                    (stripped_strip _) (stripped_strip _) H) as H';
      destruct (Sql.insert_book t (Some c) y d) as [[? ?]|?] end; done.
  - unfold BookPage.update_book.
    destruct (Tk.focus _) as [sel|]; [| done].
    destruct (_ !! sel) as [vals|]; [| done].
    destruct (negb _) eqn:Et; [done |].
    apply negb_false_iff, truthy_spec in Et.
    match goal with |- context [Sql.update_book ?t (Some ?c) ?y ?b ?d] =>
      pose proof (well_formed_update_book t c y b d Et
                    (stripped_strip _) (stripped_strip _) H) as H';
      destruct (Sql.update_book t (Some c) y b d) as [[? ?]|?] end; done.
  - unfold BookPage.delete_book.
    destruct (Tk.focus _) as [sel|]; [| done].
    destruct (_ !! sel) as [vals|]; [| done].
    destruct (negb _); [done |].
    apply (well_formed_delete_book (Sql.book_id vals) _ H).
  - unfold IssuePage.issue_book. destruct (_ || _); [done |].
    match goal with |- context [Sql.insert_issue ?s ?b ?t ?d] =>
      pose proof (well_formed_insert_issue s b t d H) as H1;
      destruct (Sql.insert_issue s b t d) as [[? ?]|db1]; [done |];
      pose proof (well_formed_update_book_status Sql.Issued b db1 H1) as H2 end.
    done.
  - unfold IssuePage.return_book.
    destruct (Tk.focus _) as [sel|]; [| done].
    destruct (_ !! sel) as [vals|]; [| done].
    destruct (IssuePage.already_returned vals); [done |].
    destruct (negb yes); [done |].
    pose proof (well_formed_update_return_date today (IssuePage.IssueID vals) _ H) as H1.
    apply (well_formed_update_book_status Sql.Available
             (Some (IssuePage.BookID vals)) _ H1).
Qed.

Lemma well_formed_empty : well_formed Sql.empty.
Proof. by split_and!. Qed.

Lemma reachable_well_formed (a : MainApp.app) :
  MainApp.reachable a → well_formed (MainApp.db a).
Proof.
  unfold MainApp.reachable. revert a.
  apply (rtc_ind_r (R := MainApp.step) (λ a, well_formed (MainApp.db a))).
  - apply well_formed_empty.
  - intros y z _ (ev & _ & <-) IH. by apply well_formed_handle.
Qed.

(** X14.  In every state the program reaches, the rows it has stored are
    those its forms can make: a student's name and a book's title are not
    empty, have no whitespace at either end and fit their columns (100 and
    255 characters); course and author are never NULL (a blank entry is
    stored as the empty text), are stripped and fit (100 and 150
    characters); age, year and publication year are NULL or within [INT];
    and every issue record has an issue date. *)
Theorem X14_stored_rows_are_well_formed (a : MainApp.app) :
  MainApp.reachable a →
  (∀ s, s ∈ Sql.students (MainApp.db a) →
     Sql.name s ≠ "" ∧ Py.strip (Sql.name s) = Sql.name s
     ∧ (String.length (Sql.name s) ≤ 100)%nat
     ∧ (∃ c, Sql.course s = Some c ∧ Py.strip c = c
             ∧ (String.length c ≤ 100)%nat)
     ∧ Sql.fits_int (Sql.age s) = true ∧ Sql.fits_int (Sql.year s) = true)
  ∧ (∀ b, b ∈ Sql.books (MainApp.db a) →
       Sql.title b ≠ "" ∧ Py.strip (Sql.title b) = Sql.title b
       ∧ (String.length (Sql.title b) ≤ 255)%nat
       ∧ (∃ c, Sql.author b = Some c ∧ Py.strip c = c
               ∧ (String.length c ≤ 150)%nat)
       ∧ Sql.fits_int (Sql.pub_year b) = true)
  ∧ (∀ i, i ∈ Sql.issued_books (MainApp.db a) → is_Some (Sql.issue_date i)).
Proof.
  intros (Hs & Hb & Hi)%reachable_well_formed. split_and!.
  - intros s Hin. eapply Forall_forall in Hs; [| exact Hin].
    destruct Hs as (? & [? ?] & (c & ? & [? ?]) & ? & ?).
    split_and!; try done. by exists c.
  - intros b Hin. eapply Forall_forall in Hb; [| exact Hin].
    destruct Hb as (? & [? ?] & (c & ? & [? ?]) & ?).
    split_and!; try done. by exists c.
  - intros i Hin. by eapply Forall_forall in Hi.
Qed.

Lemma X14_witness :
  ∀ i, i ∈ Sql.issued_books (MainApp.db app4) → is_Some (Sql.issue_date i).
Proof.
  apply (X14_stored_rows_are_well_formed app4). apply reachable_app4.
Defined.

(* ===================================================================== *)
(** * Foreign keys *)
(* ===================================================================== *)

Lemma references_spec (v : option Z) (keys : list Z) :
  Sql.references v keys = true ↔ ∀ k, v = Some k → k ∈ keys.
Proof.
  destruct v as [k|]; simpl.
  - rewrite bool_decide_eq_true. split; [by intros ? ? [= <-] | auto].
  - split; [done | by intros _].
Qed.

Lemma references_mono (v : option Z) (keys keys' : list Z) :
  (∀ k, v = Some k → k ∈ keys → k ∈ keys') →
  Sql.references v keys = true → Sql.references v keys' = true.
Proof. rewrite !references_spec. naive_solver. Qed.

Lemma fmap_key_set {A} (key : A → Z) (f : A → A) (l : list A) :
  (∀ x, key (f x) = key x) → key <$> (f <$> l) = key <$> l.
Proof.
  intros H. rewrite <- list_fmap_compose. apply list_fmap_ext.
  intros _ x _. apply H.
Qed.

Lemma referential_ext (db db' : Sql.DB) :
  Sql.student_id <$> Sql.students db' = Sql.student_id <$> Sql.students db →
  Sql.book_id <$> Sql.books db' = Sql.book_id <$> Sql.books db →
  (∀ i', i' ∈ Sql.issued_books db' →
     ∃ i, i ∈ Sql.issued_books db
          ∧ Sql.ib_student_id i' = Sql.ib_student_id i
          ∧ Sql.ib_book_id i' = Sql.ib_book_id i) →
  referential db → referential db'.
Proof.
  intros Es Eb Hi H i' Hi'. destruct (Hi i' Hi') as (i & Hin & -> & ->).
  rewrite Es, Eb. by apply H.
Qed.

Lemma referential_empty : referential Sql.empty.
Proof. intros i Hi. by apply elem_of_nil in Hi. Qed.

Lemma referential_insert_student name age course year (db : Sql.DB) :
  referential db → referential (after (Sql.insert_student name age course year db)).
Proof.
  intros H. unfold Sql.insert_student.
  destruct (Sql.check_student _ _ _ _); [done |].
  case_decide; [| done]. simpl. intros i Hi. simpl in *.
  destruct (H i Hi) as [Hs Hb]. split; [| done].
  eapply references_mono; [| exact Hs].
  intros k _ Hk. rewrite fmap_app. apply elem_of_app. by left.
Qed.

Lemma referential_update_student name age course year sid (db : Sql.DB) :
  referential db →
  referential (after (Sql.update_student name age course year sid db)).
Proof.
  intros H. unfold Sql.update_student.
  destruct (if Sql.has_student sid db then _ else _); [done |].
  simpl. eapply referential_ext; [| | | exact H]; simpl; [| done | eauto].
  apply fmap_key_set. intros s. by case_decide.
Qed.

Lemma referential_delete_student sid (db : Sql.DB) :
  referential db → referential (after (Sql.delete_student sid db)).
Proof.
  intros H i Hi. simpl in *.
  apply list_elem_of_filter in Hi as [Hne Hi].
  destruct (H i Hi) as [Hs Hb]. split; [| done].
  apply references_spec. intros k Ek.
  apply references_spec with (k := k) in Hs; [| done].
  apply list_elem_of_fmap in Hs as (s & -> & Hs).
  apply list_elem_of_fmap_2, list_elem_of_filter. split; [congruence | done].
Qed.

Lemma referential_insert_book title author pub_year (db : Sql.DB) :
  referential db → referential (after (Sql.insert_book title author pub_year db)).
Proof.
  intros H. unfold Sql.insert_book.
  destruct (Sql.check_book _ _ _); [done |].
  case_decide; [| done]. simpl. intros i Hi. simpl in *.
  destruct (H i Hi) as [Hs Hb]. split; [done |].
  eapply references_mono; [| exact Hb].
  intros k _ Hk. rewrite fmap_app. apply elem_of_app. by left.
Qed.

Lemma referential_update_book title author pub_year bid (db : Sql.DB) :
  referential db →
  referential (after (Sql.update_book title author pub_year bid db)).
Proof.
  intros H. unfold Sql.update_book.
  destruct (if Sql.has_book bid db then _ else _); [done |].
  simpl. eapply referential_ext; [| | | exact H]; simpl; [done | | eauto].
  apply fmap_key_set. intros b. by case_decide.
Qed.

Lemma referential_delete_book bid (db : Sql.DB) :
  referential db → referential (after (Sql.delete_book bid db)).
Proof.
  intros H i Hi. simpl in *.
  apply list_elem_of_filter in Hi as [Hne Hi].
  destruct (H i Hi) as [Hs Hb]. split; [done |].
  apply references_spec. intros k Ek.
  apply references_spec with (k := k) in Hb; [| done].
  apply list_elem_of_fmap in Hb as (b & -> & Hb).
  apply list_elem_of_fmap_2, list_elem_of_filter. split; [congruence | done].
Qed.

Lemma referential_update_book_status st bid (db : Sql.DB) :
  referential db → referential (after (Sql.update_book_status st bid db)).
Proof.
  intros H. simpl.
  eapply referential_ext; [| | | exact H]; simpl; [done | | eauto].
  apply fmap_key_set. intros b. by case_decide.
Qed.

Lemma referential_insert_issue sid bid today (db : Sql.DB) :
  referential db → referential (after (Sql.insert_issue sid bid today db)).
Proof.
  intros H. unfold Sql.insert_issue.
  case_decide; [| done].
  destruct (negb (Sql.references sid _)) eqn:Es; [done |].
  destruct (negb (Sql.references bid _)) eqn:Eb; [done |].
  apply negb_false_iff in Es, Eb.
  simpl. intros i Hi. simpl in *.
  apply elem_of_app in Hi as [Hi|Hi]; [by apply H |].
  by apply list_elem_of_singleton in Hi as ->.
Qed.

Lemma referential_update_return_date today iid (db : Sql.DB) :
  referential db → referential (after (Sql.update_return_date today iid db)).
Proof.
  intros H. simpl.
  eapply referential_ext; [| | | exact H]; simpl; [done | done |].
  intros i' (i & -> & Hi)%list_elem_of_fmap. exists i.
  split; [done |]. by case_decide.
Qed.

(** In every reachable state the foreign keys hold. *)
Lemma reachable_referential (a : MainApp.app) :
  MainApp.reachable a → referential (MainApp.db a).
Proof.
  apply (store_property_reachable referential);
    auto using referential_empty, referential_insert_student,
      referential_update_student, referential_delete_student,
      referential_insert_book, referential_update_book,
      referential_delete_book, referential_update_book_status,
      referential_insert_issue, referential_update_return_date.
Qed.

(** X15.  In every state the program reaches, a student or book id in an
    issue record is the id of a row of [students], respectively [books]:
    the inserts check it and the deletes cascade.  So, while the issue page
    is shown, its table has a row for an issue record exactly when neither
    of the record's two ids is NULL. *)
Theorem X15_listed_iff_no_null_reference (a : MainApp.app) (i : Sql.issue) :
  MainApp.reachable a →
  i ∈ Sql.issued_books (MainApp.db a) →
  (∀ k, Sql.ib_student_id i = Some k →
        k ∈ Sql.student_id <$> Sql.students (MainApp.db a))
  ∧ (∀ k, Sql.ib_book_id i = Some k →
          k ∈ Sql.book_id <$> Sql.books (MainApp.db a))
  ∧ (MainApp.visible a = MainApp.Issues →
     (∃ row, row ∈ Tk.rows (IssuePage.tree (MainApp.issues a))
             ∧ IssuePage.IssueID row = Sql.issue_id i)
     ↔ is_Some (Sql.ib_student_id i) ∧ is_Some (Sql.ib_book_id i)).
Proof.
  intros Hr Hi.
  destruct (reachable_referential a Hr i Hi) as [Hs Hb].
  rewrite references_spec in Hs, Hb.
  split; [done |]. split; [done |]. intros Hv.
  destruct (reachable_in_sync a Hr Hv) as [_ ->].
  destruct (reachable_keyed a Hr) as (_ & _ & [Hnd _]).
  split.
  - intros (row & Hrow & Eid).
    apply listed_row_origin in Hrow
      as (ib & s & b & Hib & _ & _ & Es & Eb & Eid' & _).
    assert (ib = i) as -> by (eapply (key_inj Sql.issue_id); [done .. | congruence]).
    by rewrite Es, Eb.
  - intros [[ks Eks] [kb Ekb]].
    pose proof (Hs ks Eks) as Hks. pose proof (Hb kb Ekb) as Hkb.
    apply list_elem_of_fmap in Hks as (s & -> & Hin_s).
    apply list_elem_of_fmap in Hkb as (b & -> & Hin_b).
    eexists. split.
    + apply list_elem_of_fmap_2, select_issued_spec, join_issued_spec.
      by exists i, s, b.
    + done.
Qed.

Lemma X15_witness :
  let i := Sql.mkissue 2 (Some 1%Z) None (Some today0) None in
  ¬ ∃ row, row ∈ Tk.rows (IssuePage.tree (MainApp.issues app4))
           ∧ IssuePage.IssueID row = Sql.issue_id i.
Proof.
  intros i.
  destruct (X15_listed_iff_no_null_reference app4 i) as (_ & _ & H).
  - apply reachable_app4.
  - vm_compute. apply list_elem_of_further, list_elem_of_here.
  - intros Hrow. apply H in Hrow as [_ [k Hk]]; [done | reflexivity].
Defined.

(* ===================================================================== *)
(** * Lending: status and issue records *)
(* ===================================================================== *)

Lemma at_most_one_elem {A} (l : list A) (x y : A) :
  (length l ≤ 1)%nat → x ∈ l → y ∈ l → x = y.
Proof.
  destruct l as [|z [|z' l]]; simpl; intros Hlen Hx Hy; [| | lia].
  - by apply elem_of_nil in Hx.
  - apply list_elem_of_singleton in Hx, Hy. congruence.
Qed.

Lemma open_issue_elem (db : Sql.DB) (k : Z) (i : Sql.issue) :
  i ∈ open_issues_of k db
  ↔ i ∈ Sql.issued_books db ∧ Sql.ib_book_id i = Some k
    ∧ Sql.return_date i = None.
Proof. unfold open_issues_of. rewrite list_elem_of_filter. tauto. Qed.

(** With the invariant, a book has one open issue record at most. *)
Lemma open_unique (db : Sql.DB) (k : Z) (i i' : Sql.issue) :
  consistent db →
  i ∈ Sql.issued_books db → Sql.ib_book_id i = Some k → Sql.return_date i = None →
  i' ∈ Sql.issued_books db → Sql.ib_book_id i' = Some k → Sql.return_date i' = None →
  i' = i.
Proof.
  intros Hc ? ? ? ? ? ?.
  apply (at_most_one_elem (open_issues_of k db)); [apply Hc | |];
    by apply open_issue_elem.
Qed.

(** With the invariant, the book of an open issue record is Issued. *)
Lemma open_book_issued (db : Sql.DB) (k : Z) (i : Sql.issue) (b : Sql.book) :
  consistent db →
  i ∈ Sql.issued_books db → Sql.ib_book_id i = Some k → Sql.return_date i = None →
  b ∈ Sql.books db → Sql.book_id b = k → Sql.status b = Sql.Issued.
Proof.
  intros Hc Hi Ek Eo Hb Eb.
  destruct (Sql.status b) eqn:Est; [| done].
  pose proof (available_not_lent db Hc b Hb Est) as Hnil.
  assert (i ∈ open_issues_of (Sql.book_id b) db) as Hin
    by (apply open_issue_elem; split_and!; [done | congruence | done]).
  rewrite Hnil in Hin. by apply elem_of_nil in Hin.
Qed.

(** X16.  In every state the program reaches, an issue record without a
    return date that names a book has that book in [books], with status
    Issued, and is the only open record of the book; while the issue page
    is shown, no label of the book picker stands for the book. *)
Theorem X16_open_record_means_issued
    (a : MainApp.app) (i : Sql.issue) (k : Z) :
  MainApp.reachable a →
  i ∈ Sql.issued_books (MainApp.db a) →
  Sql.ib_book_id i = Some k →
  Sql.return_date i = None →
  (∃ b, b ∈ Sql.books (MainApp.db a) ∧ Sql.book_id b = k)
  ∧ (∀ b, b ∈ Sql.books (MainApp.db a) → Sql.book_id b = k →
          Sql.status b = Sql.Issued)
  ∧ (∀ i', i' ∈ Sql.issued_books (MainApp.db a) →
           Sql.ib_book_id i' = Some k → Sql.return_date i' = None → i' = i)
  ∧ (MainApp.visible a = MainApp.Issues →
     ∀ l, IssuePage._book_map (MainApp.issues a) !! l ≠ Some k).
Proof.
  intros Hr Hi Ek Eo. destruct (reachable_invariant a Hr) as [Hc Hs].
  split_and!.
  - pose proof (book_reference _ Hc i k Hi Ek) as Hin.
    apply list_elem_of_fmap in Hin as (b & -> & Hb). by exists b.
  - intros b Hb Eb. by eapply open_book_issued.
  - intros i' Hi' Ek' Eo'. by eapply open_unique.
  - intros Hv l Hl.
    destruct (picked_book_available _ _ l k (Hs Hv) Hl) as (b & Hb & Eb & Est).
    assert (Sql.status b = Sql.Issued) by by eapply open_book_issued.
    congruence.
Qed.

Lemma X16_witness :
  ∀ b, b ∈ Sql.books (MainApp.db app3) → Sql.book_id b = 1%Z →
       Sql.status b = Sql.Issued.
Proof.
  destruct (X16_open_record_means_issued app3
              (Sql.mkissue 1 (Some 1%Z) (Some 1%Z) (Some today0) None) 1%Z)
    as (_ & H & _).
  - apply reachable_app3.
  - vm_compute. apply list_elem_of_here.
  - reflexivity.
  - reflexivity.
  - exact H.
Defined.

(** ** Books that stay Issued *)

Lemma stuck_ext (k : Z) (db db' : Sql.DB) :
  (Sql.books_auto db ≤ Sql.books_auto db')%Z →
  (∀ b', b' ∈ Sql.books db' → Sql.book_id b' = k →
     Sql.status b' = Sql.Issued
     ∨ ∃ b, b ∈ Sql.books db ∧ Sql.book_id b = k
            ∧ Sql.status b' = Sql.status b) →
  (∀ i', i' ∈ Sql.issued_books db' → Sql.ib_book_id i' = Some k →
     is_Some (Sql.return_date i')
     ∨ ∃ i, i ∈ Sql.issued_books db ∧ Sql.ib_book_id i = Some k
            ∧ (is_Some (Sql.return_date i) → is_Some (Sql.return_date i'))) →
  stuck k db → stuck k db'.
Proof.
  intros Hauto Hbk His (Hk & Hb & Hi). split_and!.
  - lia.
  - intros b' Hb' Eb'. destruct (Hbk b' Hb' Eb') as [?|(b & ? & ? & ->)]; [done |].
    by apply Hb.
  - intros i' Hi' Ei'. destruct (His i' Hi' Ei') as [?|(i & ? & ? & Himp)]; [done |].
    by apply Himp, Hi.
Qed.

Ltac stuck_same :=
  first [ lia
        | by (intros ? ? ?; right; eauto) ].

Lemma stuck_insert_student k name age course year (db : Sql.DB) :
  stuck k db → stuck k (after (Sql.insert_student name age course year db)).
Proof.
  intros H. unfold Sql.insert_student.
  destruct (Sql.check_student _ _ _ _); [done |].
  case_decide; [| done]. simpl.
  eapply stuck_ext; [| | | exact H]; simpl; stuck_same.
Qed.

Lemma stuck_update_student k name age course year sid (db : Sql.DB) :
  stuck k db → stuck k (after (Sql.update_student name age course year sid db)).
Proof.
  intros H. unfold Sql.update_student.
  destruct (if Sql.has_student sid db then _ else _); [done |].
  simpl. eapply stuck_ext; [| | | exact H]; simpl; stuck_same.
Qed.

Lemma stuck_delete_student k sid (db : Sql.DB) :
  stuck k db → stuck k (after (Sql.delete_student sid db)).
Proof.
  intros H. simpl. eapply stuck_ext; [| | | exact H]; simpl; try stuck_same.
  intros i' [_ Hi']%list_elem_of_filter ?. right. eauto.
Qed.

Lemma stuck_insert_book k title author pub_year (db : Sql.DB) :
  stuck k db → stuck k (after (Sql.insert_book title author pub_year db)).
Proof.
  intros H. unfold Sql.insert_book.
  destruct (Sql.check_book _ _ _); [done |].
  case_decide; [| done]. simpl.
  eapply stuck_ext; [| | | exact H]; simpl; try stuck_same.
  intros b' Hb' Eb'. apply elem_of_app in Hb' as [Hb'|Hb'].
  - right. eauto.
  - apply list_elem_of_singleton in Hb' as ->. simpl in Eb'.
    destruct H as [Hk _]. lia.
Qed.

Lemma stuck_update_book k title author pub_year bid (db : Sql.DB) :
  stuck k db → stuck k (after (Sql.update_book title author pub_year bid db)).
Proof.
  intros H. unfold Sql.update_book.
  destruct (if Sql.has_book bid db then _ else _); [done |].
  simpl. eapply stuck_ext; [| | | exact H]; simpl; try stuck_same.
  intros b' (b & -> & Hb)%list_elem_of_fmap Eb'. right. exists b.
  revert Eb'. case_decide; simpl; eauto.
Qed.

Lemma stuck_delete_book k bid (db : Sql.DB) :
  stuck k db → stuck k (after (Sql.delete_book bid db)).
Proof.
  intros H. simpl. eapply stuck_ext; [| | | exact H]; simpl; try stuck_same.
  - intros b' [_ Hb']%list_elem_of_filter ?. right. eauto.
  - intros i' [_ Hi']%list_elem_of_filter ?. right. eauto.
Qed.

Lemma stuck_update_book_status k st bid (db : Sql.DB) :
  (bid = Some k → st = Sql.Issued) →
  stuck k db → stuck k (after (Sql.update_book_status st bid db)).
Proof.
  intros Hst H. simpl. eapply stuck_ext; [| | | exact H]; simpl; try stuck_same.
  intros b' (b & -> & Hb)%list_elem_of_fmap Eb'.
  revert Eb'. case_decide as E; simpl; intros Eb'.
  - left. apply Hst. congruence.
  - right. eauto.
Qed.

Lemma stuck_insert_issue k sid bid today (db : Sql.DB) :
  bid ≠ Some k →
  stuck k db → stuck k (after (Sql.insert_issue sid bid today db)).
Proof.
  intros Hne H. unfold Sql.insert_issue.
  case_decide; [| done].
  destruct (negb (Sql.references sid _)).
  { simpl. eapply stuck_ext; [| | | exact H]; simpl; stuck_same. }
  destruct (negb (Sql.references bid _)).
  { simpl. eapply stuck_ext; [| | | exact H]; simpl; stuck_same. }
  simpl. eapply stuck_ext; [| | | exact H]; simpl; try stuck_same.
  intros i' Hi' Ei'. apply elem_of_app in Hi' as [Hi'|Hi'].
  - right. eauto.
  - apply list_elem_of_singleton in Hi' as ->. done.
Qed.

Lemma stuck_update_return_date k today iid (db : Sql.DB) :
  stuck k db → stuck k (after (Sql.update_return_date today iid db)).
Proof.
  intros H. simpl. eapply stuck_ext; [| | | exact H]; simpl; try stuck_same.
  intros i' (i & -> & Hi)%list_elem_of_fmap Ei'.
  revert Ei'. case_decide; simpl; intros Ei'; [by left |]. right. eauto.
Qed.

(** A stuck book is not in the picker, and no open row of the table is a
    row of it. *)
Lemma stuck_not_picked (k : Z) (p : IssuePage.page) (db : Sql.DB) (l : string) :
  in_sync p db → stuck k db → IssuePage._book_map p !! l ≠ Some k.
Proof.
  intros Hs (_ & Hb & _) Hl.
  destruct (picked_book_available p db l k Hs Hl) as (b & Hin & Eb & Est).
  rewrite (Hb b Hin Eb) in Est. done.
Qed.

Lemma stuck_not_open_row (k : Z) (p : IssuePage.page) (db : Sql.DB)
    (vals : IssuePage.row) :
  in_sync p db → stuck k db →
  vals ∈ Tk.rows (IssuePage.tree p) →
  IssuePage.already_returned vals = false →
  IssuePage.BookID vals ≠ k.
Proof.
  intros [_ Hrows] (_ & _ & Hi) Hin Ha Ek. rewrite Hrows in Hin.
  apply listed_row_origin in Hin
    as (ib & s & b & Hib & _ & _ & _ & Eb & _ & Ebid & _ & Hal & _).
  apply Hal in Ha. destruct (Hi ib Hib) as [d Hd]; [congruence |].
  congruence.
Qed.

(** Every user action leaves a stuck book stuck. *)
Lemma stuck_handle (k : Z) (ev : MainApp.event) (a : MainApp.app) :
  invariant a → MainApp.enabled ev a = true →
  stuck k (MainApp.db a) → stuck k (MainApp.db (MainApp.handle ev a).1).
Proof.
  intros [Hc Hs] Hen H. destruct ev; simpl; try done.
  - unfold StudentPage.add_student. destruct (negb _); [done |].
    match goal with |- context [Sql.insert_student ?n ?g ?c ?y ?d] =>
      pose proof (stuck_insert_student k n g c y d H) as H';
      destruct (Sql.insert_student n g c y d) as [[? ?]|?] end; done.
  - unfold StudentPage.update_student.
    destruct (Tk.focus _) as [sel|]; [| done].
    destruct (_ !! sel) as [vals|]; [| done].
    destruct (negb _); [done |].
    match goal with |- context [Sql.update_student ?n ?g ?c ?y ?s ?d] =>
      pose proof (stuck_update_student k n g c y s d H) as H';
      destruct (Sql.update_student n g c y s d) as [[? ?]|?] end; done.
  - unfold StudentPage.delete_student.
    destruct (Tk.focus _) as [sel|]; [| done].
    destruct (_ !! sel) as [vals|]; [| done].
    destruct (negb _); [done |].
    apply (stuck_delete_student k (Sql.student_id vals) _ H).
  - unfold BookPage.add_book. destruct (negb _); [done |].
    match goal with |- context [Sql.insert_book ?t ?c ?y ?d] =>
      pose proof (stuck_insert_book k t c y d H) as H';
      destruct (Sql.insert_book t c y d) as [[? ?]|?] end; done.
  - unfold BookPage.update_book.
    destruct (Tk.focus _) as [sel|]; [| done].
    destruct (_ !! sel) as [vals|]; [| done].
    destruct (negb _); [done |].
    match goal with |- context [Sql.update_book ?t ?c ?y ?b ?d] =>
      pose proof (stuck_update_book k t c y b d H) as H';
      destruct (Sql.update_book t c y b d) as [[? ?]|?] end; done.
  - unfold BookPage.delete_book.
    destruct (Tk.focus _) as [sel|]; [| done].
    destruct (_ !! sel) as [vals|]; [| done].
    destruct (negb _); [done |].
    apply (stuck_delete_book k (Sql.book_id vals) _ H).
  - simpl in Hen. apply bool_decide_eq_true in Hen.
    unfold IssuePage.issue_book. destruct (_ || _); [done |].
    match goal with |- context [Sql.insert_issue ?s ?b ?t ?d] =>
      assert (b ≠ Some k) as Hne by (by apply (stuck_not_picked k _ d), H; apply Hs);
      pose proof (stuck_insert_issue k s b t d Hne H) as H1;
      destruct (Sql.insert_issue s b t d) as [[? ?]|db1]; [done |];
      pose proof (stuck_update_book_status k Sql.Issued b db1 (λ _, eq_refl) H1)
        as H2 end.
    done.
  - simpl in Hen. apply bool_decide_eq_true in Hen.
    unfold IssuePage.return_book.
    destruct (Tk.focus _) as [sel|]; [| done].
    destruct (_ !! sel) as [vals|] eqn:Hrow; [| done].
    destruct (IssuePage.already_returned vals) eqn:Ha; [done |].
    destruct (negb yes); [done |].
    pose proof (stuck_update_return_date k today (IssuePage.IssueID vals) _ H) as H1.
    apply (stuck_update_book_status k Sql.Available
             (Some (IssuePage.BookID vals)) _); [| exact H1].
    intros [= E]. exfalso.
    eapply (stuck_not_open_row k); [by apply Hs | exact H | | exact Ha | exact E].
    by eapply list_elem_of_lookup_2.
Qed.

Lemma reachable_from (a a' : MainApp.app) :
  MainApp.reachable a → rtc MainApp.step a a' → MainApp.reachable a'.
Proof. unfold MainApp.reachable. intros H1 H2. by etrans. Qed.

Lemma stuck_later (k : Z) (a a' : MainApp.app) :
  MainApp.reachable a → stuck k (MainApp.db a) → rtc MainApp.step a a' →
  stuck k (MainApp.db a').
Proof.
  intros Hr H Hsteps.
  assert (MainApp.reachable a' ∧ stuck k (MainApp.db a')) as [_ ?]; [| done].
  revert a' Hsteps.
  apply (rtc_ind_r (R := MainApp.step)
           (λ a', MainApp.reachable a' ∧ stuck k (MainApp.db a'))).
  - done.
  - intros y z _ (ev & Hen & <-) [Hry Hy]. split.
    + by apply reachable_step.
    + apply stuck_handle; [by apply reachable_invariant | done | done].
Qed.

(** X17.  A book that is Issued while every issue record naming it has a
    return date stays so, whatever the user does afterwards: in every later
    state each book with that id is still Issued and no open issue record
    names it (or the book has been deleted; its id is not given again).
    While the issue page is shown, the book picker has no label for it and
    no row of the table that could be returned is a row of it: the program
    has no way to make the book Available again. *)
Theorem X17_stuck_book_stays_issued (k : Z) (a a' : MainApp.app) :
  MainApp.reachable a →
  stuck k (MainApp.db a) →
  rtc MainApp.step a a' →
  (∀ b, b ∈ Sql.books (MainApp.db a') → Sql.book_id b = k →
        Sql.status b = Sql.Issued)
  ∧ (∀ i, i ∈ Sql.issued_books (MainApp.db a') → Sql.ib_book_id i = Some k →
          is_Some (Sql.return_date i))
  ∧ (k < Sql.books_auto (MainApp.db a'))%Z
  ∧ (MainApp.visible a' = MainApp.Issues →
     (∀ l, IssuePage._book_map (MainApp.issues a') !! l ≠ Some k)
     ∧ (∀ vals, vals ∈ Tk.rows (IssuePage.tree (MainApp.issues a')) →
                IssuePage.BookID vals = k →
                IssuePage.already_returned vals = true)).
Proof.
  intros Hr H Hsteps.
  pose proof (stuck_later k a a' Hr H Hsteps) as H'.
  pose proof (reachable_from a a' Hr Hsteps) as Hr'.
  pose proof H' as (Hk & Hb & Hi).
  split_and!; try done. intros Hv.
  pose proof (reachable_in_sync a' Hr' Hv) as Hs. split.
  - intros l. by eapply stuck_not_picked.
  - intros vals Hin Ek.
    destruct (IssuePage.already_returned vals) eqn:Ha; [done |].
    exfalso. by eapply (stuck_not_open_row k).
Qed.

Lemma run_steps (evs : list MainApp.event) (a : MainApp.app) :
  rtc MainApp.step a (MainApp.run evs a).
Proof.
  revert a. induction evs as [|ev evs IH]; intros a; simpl; [done |].
  destruct (MainApp.enabled ev a) eqn:E; [| apply IH].
  eapply rtc_l; [| apply IH]. by exists ev.
Qed.

Lemma reachable_app5 : MainApp.reachable app5.
Proof. apply reachable_run, reachable_app3. Qed.

Lemma stuck_app5 : stuck 1 (MainApp.db app5).
Proof.
  split_and!.
  - vm_compute. reflexivity.
  - intros b Hb _. vm_compute in Hb. by apply list_elem_of_singleton in Hb as ->.
  - intros i Hi _. vm_compute in Hi. by apply elem_of_nil in Hi.
Qed.

Lemma X17_witness :
  (∀ b, b ∈ Sql.books (MainApp.db app6) → Sql.book_id b = 1%Z →
        Sql.status b = Sql.Issued)
  ∧ ∀ l, IssuePage._book_map (MainApp.issues app6) !! l ≠ Some 1%Z.
Proof.
  destruct (X17_stuck_book_stays_issued 1 app5 app6) as (Hb & _ & _ & Hv).
  - apply reachable_app5.
  - apply stuck_app5.
  - apply run_steps.
  - split; [exact Hb |]. apply Hv. reflexivity.
Defined.

(** X18.  Deleting a student who holds a book strands the book.  From a
    reachable state with the students page shown and the focus on a row of
    its table, "Delete", once confirmed, removes by the cascade the open
    issue record of every book the student holds, and [delete_student] does
    not touch [books]: such a book is still there and still Issued, and no
    open issue record names it, so by X17 it can never be lent again. *)
Theorem X18_deleting_borrower_strands_book
    (a : MainApp.app) (sel : nat) (vals : Sql.student) (i : Sql.issue) (k : Z) :
  MainApp.reachable a →
  Tk.focus (StudentPage.tree (MainApp.students a)) = Some sel →
  Tk.rows (StudentPage.tree (MainApp.students a)) !! sel = Some vals →
  i ∈ Sql.issued_books (MainApp.db a) →
  Sql.ib_student_id i = Some (Sql.student_id vals) →
  Sql.ib_book_id i = Some k →
  Sql.return_date i = None →
  let a' := (MainApp.handle (MainApp.DeleteStudent true) a).1 in
  Sql.books (MainApp.db a') = Sql.books (MainApp.db a)
  ∧ (∃ b, b ∈ Sql.books (MainApp.db a') ∧ Sql.book_id b = k
          ∧ Sql.status b = Sql.Issued)
  ∧ (∀ i', i' ∈ Sql.issued_books (MainApp.db a') →
           Sql.ib_student_id i' ≠ Some (Sql.student_id vals))
  ∧ stuck k (MainApp.db a').
Proof.
  intros Hr Hf Hrow Hi Es Ek Eo a'. subst a'.
  destruct (reachable_invariant a Hr) as [Hc _].
  simpl. unfold StudentPage.delete_student. rewrite Hf, Hrow. simpl.
  pose proof (book_reference _ Hc i k Hi Ek) as Hin.
  apply list_elem_of_fmap in Hin as (b & -> & Hb).
  assert (Sql.status b = Sql.Issued) as Est by by eapply open_book_issued.
  split_and!.
  - done.
  - by exists b.
  - by intros i' [? _]%list_elem_of_filter.
  - split_and!; simpl.
    + by apply (book_ids_used _ Hc).
    + intros b' Hb' Eb'. by eapply open_book_issued.
    + intros i' [Hne Hi']%list_elem_of_filter Ek'.
      destruct (Sql.return_date i') as [d|] eqn:Eo'; [by eexists |].
      exfalso. apply Hne.
      by rewrite (open_unique _ _ i i' Hc Hi Ek Eo Hi' Ek' Eo').
Qed.

Lemma X18_witness :
  let a := MainApp.run
             [MainApp.Back; MainApp.ManageStudents; MainApp.FocusStudent 0] app3 in
  stuck 1 (MainApp.db (MainApp.handle (MainApp.DeleteStudent true) a).1).
Proof.
  intros a.
  destruct (X18_deleting_borrower_strands_book a 0%nat
              (Sql.mkstudent 1 "Asha Rao" (Some 20%Z) (Some "CS") (Some 2%Z))
              (Sql.mkissue 1 (Some 1%Z) (Some 1%Z) (Some today0) None) 1%Z)
    as (_ & _ & _ & H).
  - apply reachable_run, reachable_app3.
  - vm_compute. reflexivity.
  - vm_compute. reflexivity.
  - vm_compute. apply list_elem_of_here.
  - reflexivity.
  - reflexivity.
  - reflexivity.
  - exact H.
Defined.

(* ===================================================================== *)
(** * The tables on screen *)
(* ===================================================================== *)

Lemma focus_ok_refill {R} (rs : list R) : focus_ok (Tk.refill rs).
Proof. by intros i. Qed.

Lemma focus_ok_set_focus {R} (i : nat) (t : Tk.Treeview R) :
  focus_ok t → focus_ok (Tk.set_focus i t).
Proof.
  intros H. unfold Tk.set_focus. case_decide; [| done].
  intros j [= <-]. done.
Qed.

Lemma focus_ok_lookup {R} (t : Tk.Treeview R) (sel : nat) :
  focus_ok t → Tk.focus t = Some sel → is_Some (Tk.rows t !! sel).
Proof. intros H Hf. by apply lookup_lt_is_Some, H. Qed.

(** The statements that raise leave the rows as they were. *)
Lemma insert_student_rows name age course year (db : Sql.DB) e d :
  Sql.insert_student name age course year db = inl (e, d) → d = db.
Proof. unfold Sql.insert_student. intros H. by repeat case_match; simplify_eq. Qed.

Lemma update_student_rows name age course year sid (db : Sql.DB) e d :
  Sql.update_student name age course year sid db = inl (e, d) → d = db.
Proof. unfold Sql.update_student. intros H. by repeat case_match; simplify_eq. Qed.

Lemma insert_book_rows title author pub_year (db : Sql.DB) e d :
  Sql.insert_book title author pub_year db = inl (e, d) → d = db.
Proof. unfold Sql.insert_book. intros H. by repeat case_match; simplify_eq. Qed.

Lemma update_book_rows title author pub_year bid (db : Sql.DB) e d :
  Sql.update_book title author pub_year bid db = inl (e, d) → d = db.
Proof. unfold Sql.update_book. intros H. by repeat case_match; simplify_eq. Qed.

Lemma fetch_students_ok (p : StudentPage.page) (db : Sql.DB) :
  student_table_ok (StudentPage.fetch_students p db) db.
Proof. split; [apply focus_ok_refill | done]. Qed.

Lemma fetch_books_ok (p : BookPage.page) (db : Sql.DB) :
  book_table_ok (BookPage.fetch_books p db) db.
Proof. split; [apply focus_ok_refill | done]. Qed.

Lemma add_student_table_ok (p : StudentPage.page) (db : Sql.DB) :
  student_table_ok p db →
  student_table_ok (StudentPage.add_student p db).1.1
                   (StudentPage.add_student p db).1.2.
Proof.
  intros H. unfold StudentPage.add_student. destruct (negb _); [done |].
  destruct (Sql.insert_student _ _ _ _ _) as [[e d]|d] eqn:E; simpl.
  - by apply insert_student_rows in E as ->.
  - apply fetch_students_ok.
Qed.

Lemma update_student_table_ok (p : StudentPage.page) (db : Sql.DB) :
  student_table_ok p db →
  student_table_ok (StudentPage.update_student p db).1.1
                   (StudentPage.update_student p db).1.2.
Proof.
  intros H. unfold StudentPage.update_student.
  destruct (Tk.focus _) as [sel|]; [| done].
  destruct (_ !! sel) as [vals|]; [| done].
  destruct (negb _); [done |].
  destruct (Sql.update_student _ _ _ _ _ _) as [[e d]|d] eqn:E; simpl.
  - by apply update_student_rows in E as ->.
  - apply fetch_students_ok.
Qed.

Lemma delete_student_table_ok yes (p : StudentPage.page) (db : Sql.DB) :
  student_table_ok p db →
  student_table_ok (StudentPage.delete_student yes p db).1.1
                   (StudentPage.delete_student yes p db).1.2.
Proof.
  intros H. unfold StudentPage.delete_student.
  destruct (Tk.focus _) as [sel|]; [| done].
  destruct (_ !! sel) as [vals|]; [| done].
  destruct (negb _); [done |]. apply fetch_students_ok.
Qed.

Lemma search_students_table_ok (p : StudentPage.page) (db : Sql.DB) :
  student_table_ok (StudentPage.search_students p db) db.
Proof.
  unfold StudentPage.search_students.
  destruct (negb _); [apply fetch_students_ok |].
  split; [apply focus_ok_refill | apply sublist_filter].
Qed.

Lemma on_select_student_table_ok (p : StudentPage.page) (db : Sql.DB) :
  student_table_ok p db → student_table_ok (StudentPage.on_select p) db.
Proof.
  intros H. unfold StudentPage.on_select.
  destruct (Tk.focus _) as [sel|]; [| done].
  by destruct (_ !! sel) as [vals|].
Qed.

Lemma set_student_entry_tree e s (p : StudentPage.page) :
  StudentPage.tree (MainApp.set_student_entry e s p) = StudentPage.tree p.
Proof. by destruct p, e. Qed.

Lemma add_book_table_ok (p : BookPage.page) (db : Sql.DB) :
  book_table_ok p db →
  book_table_ok (BookPage.add_book p db).1.1 (BookPage.add_book p db).1.2.
Proof.
  intros H. unfold BookPage.add_book. destruct (negb _); [done |].
  destruct (Sql.insert_book _ _ _ _) as [[e d]|d] eqn:E; simpl.
  - by apply insert_book_rows in E as ->.
  - apply fetch_books_ok.
Qed.

Lemma update_book_table_ok (p : BookPage.page) (db : Sql.DB) :
  book_table_ok p db →
  book_table_ok (BookPage.update_book p db).1.1 (BookPage.update_book p db).1.2.
Proof.
  intros H. unfold BookPage.update_book.
  destruct (Tk.focus _) as [sel|]; [| done].
  destruct (_ !! sel) as [vals|]; [| done].
  destruct (negb _); [done |].
  destruct (Sql.update_book _ _ _ _ _) as [[e d]|d] eqn:E; simpl.
  - by apply update_book_rows in E as ->.
  - apply fetch_books_ok.
Qed.

Lemma delete_book_table_ok yes (p : BookPage.page) (db : Sql.DB) :
  book_table_ok p db →
  book_table_ok (BookPage.delete_book yes p db).1.1
                (BookPage.delete_book yes p db).1.2.
Proof.
  intros H. unfold BookPage.delete_book.
  destruct (Tk.focus _) as [sel|]; [| done].
  destruct (_ !! sel) as [vals|]; [| done].
  destruct (negb _); [done |]. apply fetch_books_ok.
Qed.

Lemma search_books_table_ok (p : BookPage.page) (db : Sql.DB) :
  book_table_ok (BookPage.search_books p db) db.
Proof.
  unfold BookPage.search_books.
  destruct (negb _); [apply fetch_books_ok |].
  split; [apply focus_ok_refill | apply sublist_filter].
Qed.

Lemma on_select_book_table_ok (p : BookPage.page) (db : Sql.DB) :
  book_table_ok p db → book_table_ok (BookPage.on_select p) db.
Proof.
  intros H. unfold BookPage.on_select.
  destruct (Tk.focus _) as [sel|]; [| done].
  by destruct (_ !! sel) as [vals|].
Qed.

Lemma set_book_entry_tree e s (p : BookPage.page) :
  BookPage.tree (MainApp.set_book_entry e s p) = BookPage.tree p.
Proof. by destruct p, e. Qed.

Lemma issue_book_focus_ok today (p : IssuePage.page) (db : Sql.DB) :
  focus_ok (IssuePage.tree p) →
  focus_ok (IssuePage.tree (IssuePage.issue_book today p db).1.1).
Proof.
  intros H. unfold IssuePage.issue_book. destruct (_ || _); [done |].
  destruct (Sql.insert_issue _ _ _ _) as [[e d]|d]; [done |].
  destruct (Sql.update_book_status _ _ _) as [[e d']|d']; [done |].
  apply focus_ok_refill.
Qed.

Lemma return_book_focus_ok yes today (p : IssuePage.page) (db : Sql.DB) :
  focus_ok (IssuePage.tree p) →
  focus_ok (IssuePage.tree (IssuePage.return_book yes today p db).1.1).
Proof.
  intros H. unfold IssuePage.return_book.
  destruct (Tk.focus _) as [sel|]; [| done].
  destruct (_ !! sel) as [vals|]; [| done].
  destruct (IssuePage.already_returned vals); [done |].
  destruct (negb yes); [done |]. apply focus_ok_refill.
Qed.

Lemma tables_ok_students (a : MainApp.app) r :
  tables_ok a → MainApp.visible a = MainApp.Students →
  student_table_ok r.1.1 r.1.2 →
  tables_ok (MainApp.on_students a r).1.
Proof.
  intros (H1 & H2 & H3 & H4 & H5) Hv [Hf Hs].
  split_and!; simpl; try done. intros E. congruence.
Qed.

Lemma tables_ok_books (a : MainApp.app) r :
  tables_ok a → MainApp.visible a = MainApp.Books →
  book_table_ok r.1.1 r.1.2 →
  tables_ok (MainApp.on_books a r).1.
Proof.
  intros (H1 & H2 & H3 & H4 & H5) Hv [Hf Hs].
  split_and!; simpl; try done. intros E. congruence.
Qed.

Lemma tables_ok_issues (a : MainApp.app) r :
  tables_ok a → MainApp.visible a = MainApp.Issues →
  focus_ok (IssuePage.tree r.1.1) →
  tables_ok (MainApp.on_issues a r).1.
Proof.
  intros (H1 & H2 & H3 & H4 & H5) Hv Hf.
  split_and!; simpl; try done; intros E; congruence.
Qed.

Lemma tables_ok_show_frame (n : MainApp.page_name) (a : MainApp.app) :
  tables_ok a → tables_ok (MainApp.show_frame n a).
Proof.
  intros (H1 & H2 & H3 & H4 & H5).
  destruct n; split_and!; simpl; try done; apply focus_ok_refill.
Qed.

Lemma tables_ok_init (existing : option Sql.DB) :
  tables_ok (MainApp.init existing).
Proof. by split_and!. Qed.

(** Every user action keeps the tables in order. *)
Lemma tables_ok_handle (ev : MainApp.event) (a : MainApp.app) :
  tables_ok a → MainApp.enabled ev a = true → tables_ok (MainApp.handle ev a).1.
Proof.
  intros H Hen. pose proof H as (H1 & H2 & H3 & H4 & H5).
  destruct ev; simpl in Hen; try apply bool_decide_eq_true in Hen;
    unfold MainApp.handle;
    try (apply tables_ok_show_frame; exact H);
    try (apply tables_ok_students; [exact H | exact Hen |]; simpl;
         first [ apply add_student_table_ok
               | apply update_student_table_ok
               | apply delete_student_table_ok
               | apply search_students_table_ok
               | apply fetch_students_ok
               | apply on_select_student_table_ok
               | idtac ]);
    try (apply tables_ok_books; [exact H | exact Hen |]; simpl;
         first [ apply add_book_table_ok
               | apply update_book_table_ok
               | apply delete_book_table_ok
               | apply search_books_table_ok
               | apply fetch_books_ok
               | apply on_select_book_table_ok
               | idtac ]);
    try (apply tables_ok_issues; [exact H | exact Hen |]; simpl;
         first [ by apply issue_book_focus_ok
               | by apply return_book_focus_ok
               | by apply focus_ok_set_focus
               | done ]);
    try (split; [done | by apply H4]);
    try (split; [done | by apply H5]).
  - (* Relaunch *) apply tables_ok_init.
  - (* StudentEntry *) split; rewrite set_student_entry_tree; [done | by apply H4].
  - (* FocusStudent *) split; simpl.
    + by apply focus_ok_set_focus.
    + unfold Tk.set_focus. case_decide; simpl; by apply H4.
  - (* BookEntry *) split; rewrite set_book_entry_tree; [done | by apply H5].
  - (* FocusBook *) split; simpl.
    + by apply focus_ok_set_focus.
    + unfold Tk.set_focus. case_decide; simpl; by apply H5.
Qed.

Lemma reachable_tables_ok (a : MainApp.app) :
  MainApp.reachable a → tables_ok a.
Proof.
  unfold MainApp.reachable. revert a.
  apply (rtc_ind_r (R := MainApp.step) tables_ok).
  - apply tables_ok_init.
  - intros y z _ (ev & Hen & <-) IH. by apply tables_ok_handle.
Qed.
